(** * Bookkeeping ledger (bookkeeping.csv): shallow embedding and properties

    The program under study is a single Python file, [code.py]: a
    command-line ledger that keeps a list of transaction dicts in memory
    and persists them with the [csv] module.  This development embeds

    - the Python values the program manipulates (strings, [None], floats,
      the int [0], the list that [csv.DictReader] stores under its rest
      key) and the few builtins it calls ([str.lower], [str.strip],
      [float], [int], [repr] of a float, [+], unary [-], [sum]);
    - the [csv] machinery it relies on: the writer of the default
      (excel) dialect with minimal quoting, the reader's character state
      machine fed line by line by a file opened with [newline=''], and
      the [DictReader] and [DictWriter] wrappers;
    - the functions of [code.py] themselves, written in a small monad
      that threads the world (the file, standard input, the printed
      messages, today's date and the in-memory transaction list) and
      propagates Python exceptions.

    Modelling conventions.
    - A Python [str] is a Rocq [string]; characters are the 256 code
      points of Latin-1.  Text outside that range is not represented.
    - A Python [float] is an IEEE-754 binary64 number, [spec_float] at
      precision 53 and maximal exponent 1024.
    - The file system is one optional text: [None] when bookkeeping.csv
      does not exist.  Operating-system failures (permissions, disk,
      decoding) and the reader's field size limit are not represented.
    - Printed text is abstracted to one constructor of [msg] per [print]
      call of the source; the prompts of [input] are not recorded.
    - [sum] is repeated [+] from the int [0], left to right.
    - The dicts of the transaction list are distinct objects, as the
      program creates them: storing into one leaves the others alone.
    - The menu loop of [main] runs for a bounded number of turns, one
      more than the lines left to type; every turn reads a line, so the
      bound is never reached, as is proved below. *)

From Stdlib Require Import ZArith Ascii String List Bool Lia.
From Stdlib Require Import SpecFloat.
From stdpp Require Import base option list strings gmap.

Local Open Scope Z_scope.

(** ** Strings *)

Module PyStr.

Definition code (c : ascii) : N := N_of_ascii c.

Definition in_range (lo hi : N) (c : ascii) : bool :=
  ((lo <=? code c) && (code c <=? hi))%N.

(** [str.isspace] on one character: the ASCII controls 9-13 and 28-31,
    the space, NEL (133) and the no-break space (160). *)
Definition isspace (c : ascii) : bool :=
  in_range 9 13 c || in_range 28 32 c
  || (code c =? 133)%N || (code c =? 160)%N.

Definition is_digit (c : ascii) : bool := in_range 48 57 c.

Definition digit_val (c : ascii) : Z := Z.of_N (code c) - 48.

(** [str.lower] on one character: A-Z, and the capital letters of
    Latin-1 (192-222 except the multiplication sign 215). *)
Definition lower_char (c : ascii) : ascii :=
  if in_range 65 90 c
     || (in_range 192 222 c && negb (code c =? 215)%N)
  then ascii_of_N (code c + 32)
  else c.

Fixpoint lower (s : string) : string :=
  match s with
  | EmptyString => EmptyString
  | String c r => String (lower_char c) (lower r)
  end.

Fixpoint lstrip_with (sp : ascii -> bool) (s : string) : string :=
  match s with
  | EmptyString => EmptyString
  | String c r => if sp c then lstrip_with sp r else s
  end.

Fixpoint rstrip_with (sp : ascii -> bool) (s : string) : string :=
  match s with
  | EmptyString => EmptyString
  | String c r =>
      match rstrip_with sp r with
      | EmptyString => if sp c then EmptyString else String c EmptyString
      | r' => String c r'
      end
  end.

Definition strip_with (sp : ascii -> bool) (s : string) : string :=
  rstrip_with sp (lstrip_with sp s).

(** [s.strip()] *)
Definition strip : string -> string := strip_with isspace.

(** [s[:n]]: the first [n] characters, or all of [s] when it is
    shorter. *)
Fixpoint prefix (n : nat) (s : string) : string :=
  match n, s with
  | S n', String c r => String c (prefix n' r)
  | _, _ => EmptyString
  end.

(** [sep.join(l)] *)
Fixpoint join (sep : string) (l : list string) : string :=
  match l with
  | [] => EmptyString
  | [x] => x
  | x :: r => x +:+ sep +:+ join sep r
  end.

Fixpoint contains (p : ascii -> bool) (s : string) : bool :=
  match s with
  | EmptyString => false
  | String c r => p c || contains p r
  end.

Definition is_empty (s : string) : bool :=
  match s with EmptyString => true | _ => false end.

(** Truthiness of a string, as in [x or default]. *)
Definition or_default (x default : string) : string :=
  if is_empty x then default else x.

Fixpoint repeat_char (c : ascii) (n : nat) : string :=
  match n with
  | O => EmptyString
  | S n' => String c (repeat_char c n')
  end.

End PyStr.

(** ** Exceptions and results *)

Inductive exn : Type :=
| ValueError
| TypeError
| KeyError
| AttributeError
| OverflowError
| EOFError
| FileNotFoundError
| CsvError.

Inductive result (A : Type) : Type :=
| Ok (a : A)
| Raise (e : exn).
Arguments Ok {A} a.
Arguments Raise {A} e.

Definition rbind {A B} (r : result A) (k : A -> result B) : result B :=
  match r with
  | Ok a => k a
  | Raise e => Raise e
  end.

(** ** Floats and integers *)

Module PyNum.

Definition prec : Z := 53.
Definition emax : Z := 1024.

Definition add : spec_float -> spec_float -> spec_float := SFadd prec emax.
Definition neg : spec_float -> spec_float := SFopp.

(** Conversion of an integer, rounding to nearest even. *)
Definition of_Z (z : Z) : spec_float := binary_normalize prec emax z 0 false.

(** The binary64 number nearest to [(-1)^s * m * 10^k] (ties to even),
    for [m >= 0].  A negative [k] divides by a power of ten; the
    remainder of the division drives the rounding. *)
Definition of_decimal (s : bool) (m k : Z) : spec_float :=
  match m with
  | Zpos p =>
      match k with
      | Zneg d =>
          let '(q, e, l) :=
            SFdiv_core_binary prec emax (Zpos p) 0 (Z.pow_pos 10 d) 0 in
          binary_round_aux prec emax s q e l
      | _ => binary_normalize prec emax (if s then - (m * 10 ^ k) else m * 10 ^ k) 0 s
      end
  | _ => S754_zero s
  end.

(** Whitespace that [float] and [int] strip around their argument. *)
Definition num_space (c : ascii) : bool :=
  PyStr.in_range 9 13 c || (PyStr.code c =? 32)%N
  || (PyStr.code c =? 133)%N || (PyStr.code c =? 160)%N.

Definition head_is (p : ascii -> bool) (s : string) : bool :=
  match s with
  | String c _ => p c
  | EmptyString => false
  end.

(** Underscores are legal only between two digits; they are dropped. *)
Fixpoint drop_underscores (prev_digit : bool) (s : string) : option string :=
  match s with
  | EmptyString => Some EmptyString
  | String c r =>
      if Ascii.eqb c "_" then
        if prev_digit && head_is PyStr.is_digit r
        then drop_underscores false r
        else None
      else
        match drop_underscores (PyStr.is_digit c) r with
        | Some r' => Some (String c r')
        | None => None
        end
  end.

(** Reads a maximal run of digits: its value (continuing from [acc]),
    its length, and the rest of the string. *)
Fixpoint scan_digits (acc : Z) (s : string) : Z * nat * string :=
  match s with
  | String c r =>
      if PyStr.is_digit c then
        let '(v, n, rest) := scan_digits (acc * 10 + PyStr.digit_val c) r in
        (v, S n, rest)
      else (acc, O, s)
  | EmptyString => (acc, O, s)
  end.

Definition scan_sign (s : string) : bool * string :=
  match s with
  | String c r =>
      if Ascii.eqb c "-" then (true, r)
      else if Ascii.eqb c "+" then (false, r)
      else (false, s)
  | EmptyString => (false, s)
  end.

(** The exponent part: empty, or [e]/[E], an optional sign and at least
    one digit, up to the end of the string. *)
Definition scan_exponent (s : string) : option Z :=
  match s with
  | EmptyString => Some 0
  | String c r =>
      if Ascii.eqb c "e" || Ascii.eqb c "E" then
        let '(sg, r1) := scan_sign r in
        match scan_digits 0 r1 with
        | (v, S _, EmptyString) => Some (if sg then - v else v)
        | _ => None
        end
      else None
  end.

(** A decimal literal: digits with an optional point and exponent, at
    least one digit in the mantissa.  Returns mantissa and power of
    ten. *)
Definition scan_decimal (s : string) : option (Z * Z) :=
  let '(ip, n1, r1) := scan_digits 0 s in
  let '(m, n2, r2) :=
    match r1 with
    | String c r =>
        if Ascii.eqb c "." then scan_digits ip r else (ip, O, r1)
    | EmptyString => (ip, O, r1)
    end in
  match (n1 + n2)%nat with
  | O => None
  | S _ =>
      match scan_exponent r2 with
      | Some e => Some (m, e - Z.of_nat n2)
      | None => None
      end
  end.

(** [float(s)] for a string [s]; [None] stands for [ValueError]. *)
Definition float_of_string (s : string) : option spec_float :=
  match drop_underscores false (PyStr.strip_with num_space s) with
  | None => None
  | Some t =>
      let '(sg, body) := scan_sign t in
      let low := PyStr.lower body in
      if String.eqb low "inf" || String.eqb low "infinity"
      then Some (S754_infinity sg)
      else if String.eqb low "nan" then Some S754_nan
      else
        match scan_decimal body with
        | Some (m, k) => Some (of_decimal sg m k)
        | None => None
        end
  end.

(** The most digits that [int] converts ([sys.get_int_max_str_digits()]
    by default); leading zeros count, underscores do not. *)
Definition max_str_digits : nat := 4300.

(** [int(s)] for a string [s]; [None] stands for [ValueError]. *)
Definition int_of_string (s : string) : option Z :=
  match drop_underscores false (PyStr.strip_with num_space s) with
  | None => None
  | Some t =>
      let '(sg, body) := scan_sign t in
      match scan_digits 0 body with
      | (v, S n, EmptyString) =>
          if (max_str_digits <? S n)%nat then None
          else Some (if sg then - v else v)
      | _ => None
      end
  end.

(** *** Printing *)

Definition digit_char (d : Z) : ascii := ascii_of_N (Z.to_N (48 + d)).

Fixpoint decimal_go (fuel : nat) (n : Z) (acc : string) : string :=
  match fuel with
  | O => acc
  | S f =>
      let acc' := String (digit_char (n mod 10)) acc in
      if n <? 10 then acc' else decimal_go f (n / 10) acc'
  end.

(** The decimal digits of a natural number. *)
Definition decimal (n : Z) : string :=
  decimal_go (S (Z.to_nat (Z.log2 n))) n EmptyString.

(** [str(n)] for an integer. *)
Definition int_repr (n : Z) : string :=
  if n <? 0 then String "-" (decimal (- n)) else decimal n.

(** Position of the decimal point of the positive rational [n/d]: the
    [k] with [10^(k-1) <= n/d < 10^k]. *)
Fixpoint small_point (fuel : nat) (n d : Z) (k : Z) : Z :=
  match fuel with
  | O => k
  | S f => if d <=? n * 10 then k else small_point f (n * 10) d (k - 1)
  end.

Definition decimal_point (n d : Z) : Z :=
  if d <=? n then Z.of_nat (String.length (decimal (n / d)))
  else small_point 400 n d 0.

(** The two integers around [n/d * 10^k]: first the nearer one (on a
    tie the even one), then the other. *)
Definition round_scaled (n d k : Z) : Z * Z :=
  let num := if 0 <=? k then n * 10 ^ k else n in
  let den := if 0 <=? k then d else d * 10 ^ (- k) in
  let q := num / den in
  let r := num mod den in
  match 2 * r ?= den with
  | Lt => (q, q + 1)
  | Gt => (q + 1, q)
  | Eq => if Z.even q then (q, q + 1) else (q + 1, q)
  end.

(** Whether the decimal [q * 10^k] reads back as the positive finite
    number [m * 2^e]. *)
Definition reads_back (m : positive) (e : Z) (q k : Z) : bool :=
  SFeqb (of_decimal false q k) (S754_finite false m e).

(** The shortest digit string that reads back as the positive finite
    number [m * 2^e], and among the strings of that length the one
    nearest to the number: tries 1 to 17 significant digits, each time
    the decimal nearest to the number and then its neighbour on the
    other side (next to a power of two the nearest one may fail where
    the other reads back).  Returns the digits as an integer and its
    power of ten. *)
Fixpoint shortest_go (tries : nat) (p : Z) (m : positive) (e : Z)
    (n d pt : Z) : Z * Z :=
  let '(q, q') := round_scaled n d (p - pt) in
  match tries with
  | O => (q, pt - p)
  | S t =>
      if reads_back m e q (pt - p) then (q, pt - p)
      else if reads_back m e q' (pt - p) then (q', pt - p)
      else shortest_go t (p + 1) m e n d pt
  end.

Definition shortest (m : positive) (e : Z) : Z * Z :=
  let n := if 0 <=? e then Zpos m * 2 ^ e else Zpos m in
  let d := if 0 <=? e then 1 else 2 ^ (- e) in
  shortest_go 16 1 m e n d (decimal_point n d).

Definition rstrip_zeros (s : string) : string :=
  PyStr.rstrip_with (fun c => Ascii.eqb c "0") s.

Definition zeros (n : Z) : string := PyStr.repeat_char "0" (Z.to_nat n).

Definition exponent_repr (x : Z) : string :=
  let a := decimal (Z.abs x) in
  String "e" (String (if x <? 0 then "-"%char else "+"%char)
    (if Z.abs x <? 10 then String "0" a else a)).

(** Layout of [repr]: [ds] are the significant digits and [pt] the
    position of the point.  Exponent notation is used when [pt <= -4]
    or [pt > 16]. *)
Definition layout (ds : string) (pt : Z) : string :=
  let nd := Z.of_nat (String.length ds) in
  if (pt <=? -4) || (16 <? pt) then
    match ds with
    | String c EmptyString => String c (exponent_repr (pt - 1))
    | String c r => String c (String "." r) +:+ exponent_repr (pt - 1)
    | EmptyString => EmptyString
    end
  else if pt <=? 0 then "0." +:+ zeros (- pt) +:+ ds
  else if nd <=? pt then ds +:+ zeros (pt - nd) +:+ ".0"
  else PyStr.prefix (Z.to_nat pt) ds
       +:+ String "." (String.substring (Z.to_nat pt) (String.length ds) ds).

(** [repr(x)], which is also [str(x)], for a float. *)
Definition float_repr (x : spec_float) : string :=
  match x with
  | S754_nan => "nan"
  | S754_infinity s => if s then "-inf" else "inf"
  | S754_zero s => if s then "-0.0" else "0.0"
  | S754_finite s m e =>
      let '(q, k) := shortest m e in
      let all := decimal q in
      let body := layout (rstrip_zeros all) (k + Z.of_nat (String.length all)) in
      if s then String "-" body else body
  end.

End PyNum.
(** ** Values *)

(** The Python objects that occur as dict values in the program: a
    string, [None] (the reader's filler for a short row), an int (the
    literal [0] of [row.get('Amount', 0)] and of [sum]), a float, and
    the list of surplus cells that [DictReader] stores under the key
    [None]. *)
Inductive value : Type :=
| VStr (s : string)
| VNone
| VInt (n : Z)
| VFloat (x : spec_float)
| VList (l : list string).

(** A dict of the program: keys are field names, or [None] for the
    reader's rest key.  Equality of maps is equality of dicts. *)
Abbreviation row := (gmap (option string) value).

Module Py.

Definition quote : ascii := "034"%char.
Definition apostrophe : ascii := "039"%char.
Definition backslash : ascii := "092"%char.
Definition CR : ascii := "013"%char.
Definition LF : ascii := "010"%char.
Definition TAB : ascii := "009"%char.

Definition hex_digit (n : N) : ascii :=
  if (n <? 10)%N then ascii_of_N (48 + n) else ascii_of_N (87 + n).

(** One character inside [repr] of a string delimited by [q]. *)
Definition repr_char (q c : ascii) : string :=
  if Ascii.eqb c q || Ascii.eqb c backslash then String backslash (String c EmptyString)
  else if Ascii.eqb c TAB then String backslash "t"
  else if Ascii.eqb c LF then String backslash "n"
  else if Ascii.eqb c CR then String backslash "r"
  else if PyStr.in_range 32 126 c || PyStr.in_range 161 172 c
          || PyStr.in_range 174 255 c
  then String c EmptyString
  else String backslash
         (String "x" (String (hex_digit (PyStr.code c / 16))
                        (String (hex_digit (PyStr.code c mod 16)) EmptyString))).

Fixpoint repr_body (q : ascii) (s : string) : string :=
  match s with
  | EmptyString => EmptyString
  | String c r => repr_char q c +:+ repr_body q r
  end.

(** [repr(s)] for a string: double quotes only when the text has an
    apostrophe and no double quote. *)
Definition str_repr (s : string) : string :=
  let q :=
    if PyStr.contains (Ascii.eqb apostrophe) s
       && negb (PyStr.contains (Ascii.eqb quote) s)
    then quote else apostrophe in
  String q (repr_body q s) +:+ String q EmptyString.

(** [str(v)], also what an f-string field without format produces. *)
Definition str (v : value) : string :=
  match v with
  | VStr s => s
  | VNone => "None"
  | VInt n => PyNum.int_repr n
  | VFloat x => PyNum.float_repr x
  | VList l => "[" +:+ PyStr.join ", " (map str_repr l) +:+ "]"
  end.

(** [float(v)] *)
Definition float (v : value) : result spec_float :=
  match v with
  | VStr s =>
      match PyNum.float_of_string s with
      | Some x => Ok x
      | None => Raise ValueError
      end
  | VFloat x => Ok x
  | VInt n =>
      match PyNum.of_Z n with
      | S754_infinity _ => Raise OverflowError
      | x => Ok x
      end
  | VNone | VList _ => Raise TypeError
  end.

(** [a + b] *)
Definition add (a b : value) : result value :=
  match a, b with
  | VInt m, VInt n => Ok (VInt (m + n))
  | VFloat x, VFloat y => Ok (VFloat (PyNum.add x y))
  | VInt m, VFloat y => rbind (float a) (fun x => Ok (VFloat (PyNum.add x y)))
  | VFloat x, VInt n => rbind (float b) (fun y => Ok (VFloat (PyNum.add x y)))
  | VStr s, VStr t => Ok (VStr (s +:+ t))
  | VList k, VList l => Ok (VList (k ++ l))
  | _, _ => Raise TypeError
  end.

(** [- a] *)
Definition neg (a : value) : result value :=
  match a with
  | VInt n => Ok (VInt (- n))
  | VFloat x => Ok (VFloat (PyNum.neg x))
  | _ => Raise TypeError
  end.

(** [v.lower()] *)
Definition lower (v : value) : result string :=
  match v with
  | VStr s => Ok (PyStr.lower s)
  | _ => Raise AttributeError
  end.

(** [v[:n]] *)
Definition slice_to (n : nat) (v : value) : result value :=
  match v with
  | VStr s => Ok (VStr (PyStr.prefix n s))
  | VList l => Ok (VList (take n l))
  | _ => Raise TypeError
  end.

(** [d[k]] *)
Definition getitem (d : row) (k : string) : result value :=
  match d !! Some k with
  | Some v => Ok v
  | None => Raise KeyError
  end.

(** [d.get(k, dflt)] *)
Definition get (d : row) (k : string) (dflt : value) : value :=
  default dflt (d !! Some k).

(** [d.setdefault(k, dflt)]: inserts only when the key is absent; a key
    present with value [None] is left as it is. *)
Definition setdefault (d : row) (k : string) (dflt : value) : row :=
  match d !! Some k with
  | Some _ => d
  | None => <[Some k := dflt]> d
  end.

(** Whether [f"{v:<12}"] (a width and alignment only) succeeds. *)
Definition format_text (v : value) : result unit :=
  match v with
  | VStr _ | VInt _ | VFloat _ => Ok tt
  | VNone | VList _ => Raise TypeError
  end.

(** Whether [f"{v:>10.2f}"] or [f"{v:,.2f}"] succeeds.  An int is
    converted to a float first, which raises [OverflowError] when it is
    too large. *)
Definition format_fixed (v : value) : result unit :=
  match v with
  | VInt _ => rbind (float v) (fun _ => Ok tt)
  | VFloat _ => Ok tt
  | VStr _ => Raise ValueError
  | VNone | VList _ => Raise TypeError
  end.

End Py.

(** ** The world and the monad of the program *)

(** One constructor per [print] of the source. *)
Inductive msg : Type :=
| MsgCreated
| MsgHeadersFixed
| MsgSkipRow (r : row)
| MsgLoaded (n : nat)
| MsgLoadError (e : exn)
| MsgSaved
| MsgNoTransactions
| MsgNoRecords (kind : string)
| MsgShowing (kind : string)
| MsgTableHead
| MsgTableRule
| MsgTableRow (i : nat) (t : row)
| MsgBalance (b : value)
| MsgNoExpenses
| MsgMonthlyTitle
| MsgMonthlyLine (key : string) (total : value)
| MsgTitle (title : string)
| MsgInvalidAmount
| MsgIncomeAdded
| MsgExpenseAdded
| MsgNothingToUpdate
| MsgEditing (t : row)
| MsgKeepOldAmount
| MsgUpdated
| MsgInvalidNumber
| MsgInvalidInput
| MsgInvalidSalary
| MsgPayrollAdded (employee : string).

(** [file] is the text of bookkeeping.csv, [None] when it does not
    exist; [stdin] the lines still to be typed; [stdout] what was
    printed so far; [today] the current date as [%Y-%m-%d];
    [transactions] the list object that [main] hands to every action. *)
Record world : Type := World {
  file : option string;
  stdin : list string;
  stdout : list msg;
  today : string;
  transactions : list row
}.

Definition M (A : Type) : Type := world -> world * result A.

Definition ret {A} (a : A) : M A := fun w => (w, Ok a).

Definition bind {A B} (m : M A) (k : A -> M B) : M B :=
  fun w =>
    match m w with
    | (w', Ok a) => k a w'
    | (w', Raise e) => (w', Raise e)
    end.

Definition raise {A} (e : exn) : M A := fun w => (w, Raise e).

(** Lifts a pure computation that may raise. *)
Definition lift {A} (r : result A) : M A := fun w => (w, r).

(** [try: body except E: handler], where [catches] tells the exceptions
    that [E] covers.  The effects of [body] up to the exception stay. *)
Definition try_except {A} (body : M A) (catches : exn -> bool)
    (handler : exn -> M A) : M A :=
  fun w =>
    match body w with
    | (w', Raise e) => if catches e then handler e w' else (w', Raise e)
    | r => r
    end.

Declare Scope py_scope.
Delimit Scope py_scope with py.
Notation "x <- m ;; k" := (bind m (fun x => k))
  (at level 100, m at next level, right associativity) : py_scope.
Notation "m ;; k" := (bind m (fun _ => k))
  (at level 100, right associativity) : py_scope.
Local Open Scope py_scope.

Definition is_ValueError (e : exn) : bool :=
  match e with ValueError => true | _ => false end.

(** [except Exception] *)
Definition any_exception (e : exn) : bool := true.

Definition print (m : msg) : M unit :=
  fun w => (World (file w) (stdin w) (stdout w ++ [m]) (today w) (transactions w), Ok tt).

(** [input(prompt)]: the next line typed, [EOFError] when there is
    none.  The prompt text is not recorded. *)
Definition input : M string :=
  fun w =>
    match stdin w with
    | l :: ls => (World (file w) ls (stdout w) (today w) (transactions w), Ok l)
    | [] => (w, Raise EOFError)
    end.

Definition get_today : M string := fun w => (w, Ok (today w)).

Definition read_file : M (option string) := fun w => (w, Ok (file w)).

Definition set_file (f : option string) : M unit :=
  fun w => (World f (stdin w) (stdout w) (today w) (transactions w), Ok tt).

(** [f.write(text)] on the file opened for writing. *)
Definition write_file (text : string) : M unit :=
  fun w => (World (Some (default EmptyString (file w) +:+ text))
              (stdin w) (stdout w) (today w) (transactions w), Ok tt).

Definition get_transactions : M (list row) := fun w => (w, Ok (transactions w)).

Definition set_transactions (l : list row) : M unit :=
  fun w => (World (file w) (stdin w) (stdout w) (today w) l, Ok tt).

(** [for x in l: body x] *)
Fixpoint for_each {A} (l : list A) (body : A -> M unit) : M unit :=
  match l with
  | [] => ret tt
  | x :: r => body x ;; for_each r body
  end.

(** ** The csv module *)

Module Csv.

(** *** Writer (excel dialect: delimiter [,], quote character, double
    quoting, minimal quoting, line terminator CR LF) *)

Definition delimiter : ascii := ","%char.
Definition lineterminator : string := String Py.CR (String Py.LF EmptyString).

(** The characters whose presence makes the writer quote a field. *)
Definition special (c : ascii) : bool :=
  Ascii.eqb c delimiter || Ascii.eqb c Py.quote
  || Ascii.eqb c Py.CR || Ascii.eqb c Py.LF.

(** Copies the field, doubling each quote character. *)
Fixpoint escape (s : string) : string :=
  match s with
  | EmptyString => EmptyString
  | String c r =>
      if Ascii.eqb c Py.quote then String c (String c (escape r))
      else String c (escape r)
  end.

Definition render_field (s : string) : string :=
  if PyStr.contains special s
  then String Py.quote (escape s +:+ String Py.quote EmptyString)
  else s.

(** The text of a cell: a string as it is, [None] as the empty string,
    anything else through [str]. *)
Definition cell_text (v : value) : string :=
  match v with
  | VStr s => s
  | VNone => EmptyString
  | _ => Py.str v
  end.

(** [writer.writerow(cells)]: the text written.  A record made of one
    empty field is written as a pair of quotes. *)
Definition render_row (cells : list value) : string :=
  let body := PyStr.join (String delimiter EmptyString)
                (map (fun v => render_field (cell_text v)) cells) in
  match cells, body with
  | _ :: _, EmptyString =>
      String Py.quote (String Py.quote lineterminator)
  | _, _ => body +:+ lineterminator
  end.

(** *** File iteration with [newline='']: lines end at LF, at CR LF or
    at a lone CR, and keep their terminator. *)

Definition ends_line (c : ascii) (rest : string) : bool :=
  Ascii.eqb c Py.LF
  || (Ascii.eqb c Py.CR && negb (PyNum.head_is (Ascii.eqb Py.LF) rest)).

Fixpoint readlines (s : string) : list string :=
  match s with
  | EmptyString => []
  | String c r =>
      if ends_line c r then String c EmptyString :: readlines r
      else
        match readlines r with
        | [] => [String c EmptyString]
        | l :: ls => String c l :: ls
        end
  end.

(** [f.readline()] on a freshly opened file. *)
Definition readline (s : string) : string :=
  match readlines s with
  | l :: _ => l
  | [] => EmptyString
  end.

(** *** Reader: the character state machine.  The states that need an
    escape character do not occur: the dialect has none. *)

Inductive parser_state : Type :=
| START_RECORD
| START_FIELD
| IN_FIELD
| IN_QUOTED_FIELD
| QUOTE_IN_QUOTED_FIELD
| EAT_CRNL.

Record reader : Type := Reader {
  state : parser_state;
  fields : list string;
  field : string
}.

Definition parse_reset : reader := Reader START_RECORD [] EmptyString.

Definition parse_save_field (r : reader) (st : parser_state) : reader :=
  Reader st (fields r ++ [field r]) EmptyString.

Definition parse_add_char (r : reader) (st : parser_state) (c : ascii) : reader :=
  Reader st (fields r) (field r +:+ String c EmptyString).

Definition set_state (r : reader) (st : parser_state) : reader :=
  Reader st (fields r) (field r).

Definition is_newline (c : ascii) : bool :=
  Ascii.eqb c Py.LF || Ascii.eqb c Py.CR.

Definition start_field (r : reader) (c : ascii) : reader :=
  if is_newline c then parse_save_field r EAT_CRNL
  else if Ascii.eqb c Py.quote then set_state r IN_QUOTED_FIELD
  else if Ascii.eqb c delimiter then parse_save_field r START_FIELD
  else parse_add_char r IN_FIELD c.

(** [parse_process_char] on a character of the line. *)
Definition process_char (r : reader) (c : ascii) : result reader :=
  match state r with
  | START_RECORD =>
      if is_newline c then Ok (set_state r EAT_CRNL)
      else Ok (start_field r c)
  | START_FIELD => Ok (start_field r c)
  | IN_FIELD =>
      if is_newline c then Ok (parse_save_field r EAT_CRNL)
      else if Ascii.eqb c delimiter then Ok (parse_save_field r START_FIELD)
      else Ok (parse_add_char r IN_FIELD c)
  | IN_QUOTED_FIELD =>
      if Ascii.eqb c Py.quote then Ok (set_state r QUOTE_IN_QUOTED_FIELD)
      else Ok (parse_add_char r IN_QUOTED_FIELD c)
  | QUOTE_IN_QUOTED_FIELD =>
      if Ascii.eqb c Py.quote then Ok (parse_add_char r IN_QUOTED_FIELD c)
      else if Ascii.eqb c delimiter then Ok (parse_save_field r START_FIELD)
      else if is_newline c then Ok (parse_save_field r EAT_CRNL)
      else Ok (parse_add_char r IN_FIELD c)
  | EAT_CRNL =>
      if is_newline c then Ok r else Raise CsvError
  end.

(** [parse_process_char] on the end-of-line marker that follows every
    line. *)
Definition process_eol (r : reader) : reader :=
  match state r with
  | START_RECORD => r
  | START_FIELD | IN_FIELD | QUOTE_IN_QUOTED_FIELD =>
      parse_save_field r START_RECORD
  | IN_QUOTED_FIELD => r
  | EAT_CRNL => set_state r START_RECORD
  end.

Fixpoint process_chars (r : reader) (line : string) : result reader :=
  match line with
  | EmptyString => Ok r
  | String c rest => rbind (process_char r c) (fun r' => process_chars r' rest)
  end.

Definition process_line (r : reader) (line : string) : result reader :=
  rbind (process_chars r line) (fun r' => Ok (process_eol r')).

Definition is_start_record (st : parser_state) : bool :=
  match st with START_RECORD => true | _ => false end.

Definition is_in_quoted_field (st : parser_state) : bool :=
  match st with IN_QUOTED_FIELD => true | _ => false end.

(** All the records the reader yields from the lines, and the error
    that ends the iteration if there is one.  A record is complete when
    a line leaves the machine in [START_RECORD]; a quoted field may run
    over several lines; input that ends inside a field yields what was
    read. *)
Fixpoint read_records (r : reader) (lines : list string)
    : list (list string) * option exn :=
  match lines with
  | [] =>
      if negb (PyStr.is_empty (field r)) || is_in_quoted_field (state r)
      then ([fields (parse_save_field r START_RECORD)], None)
      else ([], None)
  | l :: ls =>
      match process_line r l with
      | Raise e => ([], Some e)
      | Ok r' =>
          if is_start_record (state r') then
            let '(rows, err) := read_records parse_reset ls in
            (fields r' :: rows, err)
          else read_records r' ls
      end
  end.

(** [csv.reader(f)] consumed to the end. *)
Definition reader_rows (text : string) : list (list string) * option exn :=
  read_records parse_reset (readlines text).

(** *** DictReader and DictWriter *)

(** The dict of one record: cells paired with the field names (a later
    duplicate name wins); surplus cells under the key [None]; missing
    cells filled with [None]. *)
Definition to_dict (fieldnames cells : list string) : row :=
  let d := foldl (fun d kv => <[Some (fst kv) := VStr (snd kv)]> d) ∅
             (zip fieldnames cells) in
  if (length fieldnames <? length cells)%nat
  then <[None := VList (drop (length fieldnames) cells)]> d
  else foldl (fun d k => <[Some k := VNone]> d) d
         (drop (length cells) fieldnames).

Definition is_blank_record (cells : list string) : bool :=
  match cells with [] => true | _ => false end.

(** [csv.DictReader(f)] consumed to the end: the first record gives the
    field names, empty records are skipped. *)
Definition dict_reader (text : string) : list row * option exn :=
  match reader_rows text with
  | ([], err) => ([], err)
  | (fieldnames :: records, err) =>
      (map (to_dict fieldnames)
         (filter (fun cells => negb (is_blank_record cells)) records), err)
  end.

(** [DictWriter._dict_to_list]: a key that is not a field name raises
    [ValueError]; a missing field is written as the empty string. *)
Definition dict_to_list (fieldnames : list string) (d : row) : result (list value) :=
  if bool_decide (dom d ⊆ list_to_set (Some <$> fieldnames))
  then Ok (map (fun k => default (VStr EmptyString) (d !! Some k)) fieldnames)
  else Raise ValueError.

Definition writeheader (fieldnames : list string) : M unit :=
  write_file (render_row (map VStr fieldnames)).

Definition writerow (fieldnames : list string) (d : row) : M unit :=
  (cells <- lift (dict_to_list fieldnames d) ;;
   write_file (render_row cells))%py.

Definition writerows (fieldnames : list string) (rows : list row) : M unit :=
  for_each rows (writerow fieldnames).

End Csv.

(** ** The program *)

Definition FIELDNAMES : list string :=
  ["Date"; "Description"; "Type"; "Category"; "Amount"].

(** [','.join(FIELDNAMES)] *)
Definition header_line : string := PyStr.join "," FIELDNAMES.

(** An insertion-ordered dict with string keys, as [monthly] in
    [calculate_monthly_expenses]. *)
Fixpoint odict_get (d : list (string * value)) (k : string) (dflt : value) : value :=
  match d with
  | [] => dflt
  | (k', v) :: r => if String.eqb k' k then v else odict_get r k dflt
  end.

(** [d[k] = v]: replaces the value in place, or appends a new key. *)
Fixpoint odict_set (d : list (string * value)) (k : string) (v : value)
    : list (string * value) :=
  match d with
  | [] => [(k, v)]
  | (k', v') :: r =>
      if String.eqb k' k then (k', v) :: r else (k', v') :: odict_set r k v
  end.

(** A loop that appends to a local list: [body] gives the element to
    append, or [None] for [continue].  An exception leaves the loop; it
    is returned with what was appended before it, for the enclosing
    [try]. *)
Fixpoint collect {A B} (l : list A) (body : A -> M (option B)) (acc : list B)
    : M (list B * option exn) :=
  match l with
  | [] => ret (acc, None)
  | x :: r =>
      fun w =>
        match body x w with
        | (w', Ok (Some b)) => collect r body (acc ++ [b]) w'
        | (w', Ok None) => collect r body acc w'
        | (w', Raise e) => (w', Ok (acc, Some e))
        end
  end.

(** *** CSV file handling *)

(** Lines 10-36.  The statement of lines 22-23 ([print] alone, then a
    parenthesised string) prints nothing.  The [try] of the repair
    covers the reading only: [data] keeps the rows read before an
    error, and the rewriting that follows is outside it. *)
Definition ensure_csv_file : M unit :=
  f <- read_file ;;
  match f with
  | None =>
      set_file (Some EmptyString) ;;
      Csv.writeheader FIELDNAMES ;;
      print MsgCreated
  | Some text =>
      let first_line := PyStr.strip (Csv.readline text) in
      if negb (String.eqb first_line header_line) then
        let data := fst (Csv.dict_reader text) in
        set_file (Some EmptyString) ;;
        Csv.writeheader FIELDNAMES ;;
        Csv.writerows FIELDNAMES data ;;
        print MsgHeadersFixed
      else ret tt
  end.

(** The body of the loop of [load_transactions], lines 48-55. *)
Definition load_row (r : row) : M (option row) :=
  amount <- try_except
              (x <- lift (Py.float (Py.get r "Amount" (VInt 0))) ;;
               ret (Some x))
              is_ValueError
              (fun _ => print (MsgSkipRow r) ;; ret None) ;;
  match amount with
  | None => ret None
  | Some x =>
      ret (Some (foldl (fun d key => Py.setdefault d key (VStr "N/A"))
                   (<[Some "Amount" := VFloat x]> r) FIELDNAMES))
  end.

(** Lines 40-59.  [ensure_csv_file] is called before the [try]; inside
    it, whatever escapes the loop is printed, and the rows collected so
    far are returned. *)
Definition load_transactions : M (list row) :=
  ensure_csv_file ;;
  f <- read_file ;;
  match f with
  | None => print (MsgLoadError FileNotFoundError) ;; ret []
  | Some text =>
      let '(rows, read_error) := Csv.dict_reader text in
      collected <- collect rows load_row [] ;;
      let '(transactions, loop_error) := collected in
      match loop_error, read_error with
      | Some e, _ => print (MsgLoadError e)
      | None, Some e => print (MsgLoadError e)
      | None, None => print (MsgLoaded (length transactions))
      end ;;
      ret transactions
  end.

(** Lines 62-69. *)
Definition save_transactions (transactions : list row) : M unit :=
  ensure_csv_file ;;
  set_file (Some EmptyString) ;;
  Csv.writeheader FIELDNAMES ;;
  Csv.writerows FIELDNAMES transactions ;;
  print MsgSaved.

(** *** Views *)

(** [t['Type'].lower() == kind] *)
Definition type_is (t : row) (kind : string) : result bool :=
  rbind (Py.getitem t "Type") (fun ty =>
  rbind (Py.lower ty) (fun low => Ok (String.eqb low kind))).

(** [[t for t in transactions if t['Type'].lower() == kind]] *)
Fixpoint select_type (kind : string) (transactions : list row) : result (list row) :=
  match transactions with
  | [] => Ok []
  | t :: r =>
      rbind (type_is t kind) (fun b =>
      rbind (select_type kind r) (fun r' => Ok (if b then t :: r' else r')))
  end.

(** One line of the table, lines 90-91: every field is looked up and
    formatted in turn. *)
Definition show_row (i : nat) (t : row) : M unit :=
  for_each ["Date"; "Description"; "Type"; "Category"]
    (fun k => v <- lift (Py.getitem t k) ;; lift (Py.format_text v)) ;;
  a <- lift (Py.getitem t "Amount") ;;
  lift (Py.format_fixed a) ;;
  print (MsgTableRow i t).

Fixpoint show_rows (i : nat) (transactions : list row) : M unit :=
  match transactions with
  | [] => ret tt
  | t :: r => show_row i t ;; show_rows (S i) r
  end.

Definition show_table (transactions : list row) : M unit :=
  print MsgTableHead ;;
  print MsgTableRule ;;
  show_rows 1 transactions.

(** Lines 72-91.  A filter that is [None] or empty is no filter. *)
Definition show_transactions (transactions : list row)
    (filter_type : option string) : M unit :=
  match transactions with
  | [] => print MsgNoTransactions
  | _ :: _ =>
      match filter_type with
      | Some kind =>
          if PyStr.is_empty kind then show_table transactions
          else
            selected <- lift (select_type (PyStr.lower kind) transactions) ;;
            match selected with
            | [] => print (MsgNoRecords (PyStr.lower kind))
            | _ :: _ => print (MsgShowing kind) ;; show_table selected
            end
      | None => show_table transactions
      end
  end.

(** The generator of lines 97-98 at one transaction. *)
Definition signed_amount (t : row) : result value :=
  rbind (type_is t "income") (fun income =>
  rbind (Py.getitem t "Amount") (fun a =>
  if income then Ok a else Py.neg a)).

(** [sum(f(t) for t in transactions)], continuing from [acc]. *)
Fixpoint sum_from (acc : value) (f : row -> result value)
    (transactions : list row) : result value :=
  match transactions with
  | [] => Ok acc
  | t :: r =>
      rbind (f t) (fun x =>
      rbind (Py.add acc x) (fun acc' => sum_from acc' f r))
  end.

(** Lines 94-100. *)
Definition calculate_balance (transactions : list row) : M unit :=
  balance <- lift (sum_from (VInt 0) signed_amount transactions) ;;
  lift (Py.format_fixed balance) ;;
  print (MsgBalance balance).

(** The body of the loop of lines 106-111. *)
Definition monthly_step (monthly : list (string * value)) (t : row)
    : result (list (string * value)) :=
  rbind (type_is t "expense") (fun expense =>
  if expense then
    rbind (Py.getitem t "Category") (fun category =>
    rbind (Py.getitem t "Date") (fun date =>
    rbind (Py.slice_to 7 date) (fun month =>
    let key := Py.str month +:+ " - " +:+ Py.str category in
    rbind (Py.getitem t "Amount") (fun a =>
    rbind (Py.add (odict_get monthly key (VInt 0)) a) (fun total =>
    Ok (odict_set monthly key total))))))
  else Ok monthly).

Fixpoint monthly_loop (monthly : list (string * value)) (transactions : list row)
    : result (list (string * value)) :=
  match transactions with
  | [] => Ok monthly
  | t :: r => rbind (monthly_step monthly t) (fun m => monthly_loop m r)
  end.

(** Lines 103-119. *)
Definition calculate_monthly_expenses (transactions : list row) : M unit :=
  monthly <- lift (monthly_loop [] transactions) ;;
  match monthly with
  | [] => print MsgNoExpenses
  | _ :: _ =>
      print MsgMonthlyTitle ;;
      for_each monthly (fun kv =>
        lift (Py.format_fixed (snd kv)) ;;
        print (MsgMonthlyLine (fst kv) (snd kv)))
  end.

(** *** Adding and updating *)

(** [transactions.append(t)] on the list that [main] owns. *)
Definition append_transaction (t : row) : M unit :=
  ts <- get_transactions ;;
  set_transactions (ts ++ [t]).

(** [input(...) or datetime.today().strftime('%Y-%m-%d')] *)
Definition input_date : M string :=
  typed <- input ;;
  if PyStr.is_empty typed then get_today else ret typed.

(** [try: amount = float(input(...)) except ValueError: print(...); return]:
    [None] when the function returns from the handler. *)
Definition input_amount (invalid : msg) : M (option spec_float) :=
  try_except
    (typed <- input ;;
     x <- lift (Py.float (VStr typed)) ;;
     ret (Some x))
    is_ValueError
    (fun _ => print invalid ;; ret None).

(** Lines 123-141.  The dict has no [Category] key. *)
Definition add_income : M unit :=
  print (MsgTitle "Add Income") ;;
  date_str <- input_date ;;
  description <- input ;;
  amount <- input_amount MsgInvalidAmount ;;
  match amount with
  | None => ret tt
  | Some x =>
      append_transaction
        (<[Some "Date" := VStr date_str]>
         (<[Some "Description" := VStr description]>
          (<[Some "Type" := VStr "Income"]>
           (<[Some "Amount" := VFloat x]> ∅)))) ;;
      print MsgIncomeAdded
  end.

(** Lines 144-163. *)
Definition add_expense : M unit :=
  print (MsgTitle "Add Expense") ;;
  date_str <- input_date ;;
  description <- input ;;
  typed <- input ;;
  let category := PyStr.or_default typed "Expense" in
  amount <- input_amount MsgInvalidAmount ;;
  match amount with
  | None => ret tt
  | Some x =>
      append_transaction
        (<[Some "Date" := VStr date_str]>
         (<[Some "Description" := VStr description]>
          (<[Some "Type" := VStr "Expense"]>
           (<[Some "Category" := VStr category]>
            (<[Some "Amount" := VFloat x]> ∅))))) ;;
      print MsgExpenseAdded
  end.

(** [t[key] = input(f"... ({t[key]}): ") or t[key]] on the dict at
    position [index] of the list: the prompt reads the old value, and
    an empty answer keeps it. *)
Definition update_field (index : nat) (key : string) : M unit :=
  ts <- get_transactions ;;
  match ts !! index with
  | None => ret tt
  | Some t =>
      old <- lift (Py.getitem t key) ;;
      typed <- input ;;
      let new := if PyStr.is_empty typed then old else VStr typed in
      set_transactions (<[index := <[Some key := new]> t]> ts)
  end.

(** Lines 182-187. *)
Definition update_amount (index : nat) : M unit :=
  try_except
    (ts <- get_transactions ;;
     match ts !! index with
     | None => ret tt
     | Some t =>
         old <- lift (Py.getitem t "Amount") ;;
         new_amount <- input ;;
         if PyStr.is_empty new_amount then ret tt
         else
           x <- lift (Py.float (VStr new_amount)) ;;
           set_transactions (<[index := <[Some "Amount" := VFloat x]> t]> ts)
     end)
    is_ValueError
    (fun _ => print MsgKeepOldAmount).

(** [int(s)] *)
Definition py_int (s : string) : result Z :=
  match PyNum.int_of_string s with
  | Some n => Ok n
  | None => Raise ValueError
  end.

(** Lines 166-192. *)
Definition update_transaction : M unit :=
  ts <- get_transactions ;;
  match ts with
  | [] => print MsgNothingToUpdate
  | _ :: _ =>
      show_transactions ts None ;;
      try_except
        (typed <- input ;;
         n <- lift (py_int typed) ;;
         let index := n - 1 in
         if (0 <=? index) && (index <? Z.of_nat (length ts)) then
           let i := Z.to_nat index in
           match ts !! i with
           | None => ret tt
           | Some t =>
               print (MsgEditing t) ;;
               update_field i "Description" ;;
               update_field i "Type" ;;
               update_field i "Category" ;;
               update_amount i ;;
               print MsgUpdated
           end
         else print MsgInvalidNumber)
        is_ValueError
        (fun _ => print MsgInvalidInput)
  end.

(** Lines 195-212. *)
Definition add_payroll : M unit :=
  print (MsgTitle "Payroll Entry") ;;
  employee <- input ;;
  salary <- input_amount MsgInvalidSalary ;;
  match salary with
  | None => ret tt
  | Some x =>
      date_str <- get_today ;;
      append_transaction
        (<[Some "Date" := VStr date_str]>
         (<[Some "Description" := VStr ("Payroll - " +:+ employee)]>
          (<[Some "Type" := VStr "Expense"]>
           (<[Some "Category" := VStr "Payroll"]>
            (<[Some "Amount" := VFloat x]> ∅))))) ;;
      print (MsgPayrollAdded employee)
  end.

(** *** The menu *)

(** The twelve lines printed at each turn of the loop, lines 220-231.
    A [print] of a fixed text is a [MsgTitle]; the title is kept
    without its rule of dashes, as the titles of the actions are. *)
Definition menu : list msg :=
  map MsgTitle
    [ "BSCS 1A BOOKKEEPING SYSTEM";
      "1. Add selled (income)"; "2. Add Expense"; "3. View All Transactions";
      "4. View Only Income"; "5. View Only Expenses"; "6. Update Transaction";
      "7. Show Balance"; "8. View Monthly Expenses"; "9. Add Payroll";
      "10. Save"; "11. Exit" ].

Definition goodbye : msg := MsgTitle "Goodbye! Data safely handled.".
Definition invalid_choice : msg := MsgTitle "Invalid choice. Try again.".

(** The dispatch of lines 235-262 on the choice typed; the result tells
    whether the loop ends ([break]). *)
Definition menu_action (choice : string) : M bool :=
  if String.eqb choice "1" then add_income ;; ret false
  else if String.eqb choice "2" then add_expense ;; ret false
  else if String.eqb choice "3" then
    ts <- get_transactions ;; show_transactions ts None ;; ret false
  else if String.eqb choice "4" then
    ts <- get_transactions ;; show_transactions ts (Some "Income") ;; ret false
  else if String.eqb choice "5" then
    ts <- get_transactions ;; show_transactions ts (Some "Expense") ;; ret false
  else if String.eqb choice "6" then update_transaction ;; ret false
  else if String.eqb choice "7" then
    ts <- get_transactions ;; calculate_balance ts ;; ret false
  else if String.eqb choice "8" then
    ts <- get_transactions ;; calculate_monthly_expenses ts ;; ret false
  else if String.eqb choice "9" then add_payroll ;; ret false
  else if String.eqb choice "10" then
    ts <- get_transactions ;; save_transactions ts ;; ret false
  else if String.eqb choice "11" then
    typed <- input ;;
    (if String.eqb (PyStr.lower typed) "y"
     then ts <- get_transactions ;; save_transactions ts
     else ret tt) ;;
    print goodbye ;;
    ret true
  else print invalid_choice ;; ret false.

(** The [while True] loop of lines 219-262, at most [turns] turns of
    it.  Each turn reads one line at least, so more turns than there
    are lines typed are never used up. *)
Fixpoint main_loop (turns : nat) : M unit :=
  match turns with
  | O => ret tt
  | S n =>
      for_each menu print ;;
      choice <- input ;;
      stop <- menu_action choice ;;
      if stop then ret tt else main_loop n
  end.

(** Lines 216-262. *)
Definition main : M unit :=
  ts <- load_transactions ;;
  set_transactions ts ;;
  fun w => main_loop (S (length (stdin w))) w.

(** * Specifications and sample data *)

Definition newline : string := String Py.LF EmptyString.

Definition set_stdin (w : world) (lines : list string) : world :=
  World (file w) lines (stdout w) (today w) (transactions w).

Definition add_stdout (w : world) (out : list msg) : world :=
  World (file w) (stdin w) (stdout w ++ out) (today w) (transactions w).

(** A full record: the five fields, four of text and a float amount. *)
Definition record (date description type category : string) (amount : spec_float) : row :=
  <[Some "Date" := VStr date]>
  (<[Some "Description" := VStr description]>
   (<[Some "Type" := VStr type]>
    (<[Some "Category" := VStr category]>
     (<[Some "Amount" := VFloat amount]> ∅)))).

Definition sample_store : string :=
  "Date,Description,Type,Category,Amount" +:+ Csv.lineterminator
  +:+ "2024-01-05,Rent,Expense,Housing,500.0" +:+ Csv.lineterminator.

Definition sample_world : world :=
  World (Some sample_store) [] [] "2024-05-01" [].

(** A file with a foreign header and one data row. *)
Definition foreign_store : string :=
  "a,b" +:+ newline +:+ "1,2" +:+ newline.

(** A file whose header line carries a trailing space, and a row of two
    cells. *)
Definition padded_store : string :=
  "Date,Description,Type,Category,Amount " +:+ newline
  +:+ "2024-01-05,Rent" +:+ newline.

(** A file with the exact header, a row of three cells, and a complete
    row after it. *)
Definition short_row_store : string :=
  "Date,Description,Type,Category,Amount" +:+ newline
  +:+ "2024-01-05,Rent,Expense" +:+ newline
  +:+ "2024-01-06,Sale,Income,Shop,5" +:+ newline.

Definition world_of_file (text : string) : world :=
  World (Some text) [] [] "2024-05-01" [].

(** *** Reading a record as the claims do *)

(** The [Type] and the [Amount] of a record hold a string and a
    float. *)
Definition is_entry (t : row) : Prop :=
  (exists s, t !! Some "Type" = Some (VStr s))
  /\ (exists x, t !! Some "Amount" = Some (VFloat x)).

Definition entry_type (t : row) : string :=
  match t !! Some "Type" with
  | Some (VStr s) => s
  | _ => EmptyString
  end.

Definition entry_amount (t : row) : spec_float :=
  match t !! Some "Amount" with
  | Some (VFloat x) => x
  | _ => S754_zero false
  end.

(** What a record contributes to the balance: its amount when its type,
    lower-cased, is [income]; the opposite of its amount otherwise. *)
Definition contribution (t : row) : spec_float :=
  if String.eqb (PyStr.lower (entry_type t)) "income"
  then entry_amount t
  else PyNum.neg (entry_amount t).

(** The balance of the claim: the contributions added from left to
    right, starting from zero.  [sum] of no record is the int [0]. *)
Definition balance_of (ts : list row) : value :=
  match ts with
  | [] => VInt 0
  | _ :: _ => VFloat (fold_left PyNum.add (map contribution ts) (S754_zero false))
  end.

Definition balance_sample : list row :=
  [ record "2024-01-01" "Sale" "Income" "Shop" (PyNum.of_Z 100);
    record "2024-01-02" "Rent" "Expense" "Housing" (PyNum.of_Z 30);
    record "2024-01-03" "To savings" "Transfer" "Bank" (PyNum.of_Z 10) ].

(** *** Updating *)

(** The position that [update_transaction] selects: the first line
    typed, read as a 1-based number. *)
Definition selected_position (w : world) : option nat :=
  match stdin w with
  | typed :: _ =>
      match PyNum.int_of_string typed with
      | Some n => if 1 <=? n then Some (Z.to_nat (n - 1)) else None
      | None => None
      end
  | [] => None
  end.

(** The transaction lists of two worlds differ at most at position [i],
    and there at most outside the [Date] field. *)
Definition touches_only (i : nat) (w w' : world) : Prop :=
  length (transactions w') = length (transactions w)
  /\ (forall j, j <> i -> transactions w' !! j = transactions w !! j)
  /\ (forall t t', transactions w !! i = Some t ->
                   transactions w' !! i = Some t' ->
                   t' !! Some "Date" = t !! Some "Date").

(** Two worlds differ at most by what was printed. *)
Definition printed_only (w w' : world) : Prop :=
  file w' = file w /\ stdin w' = stdin w /\ today w' = today w
  /\ transactions w' = transactions w.

(** Every run of [m] relates its initial and final worlds by [R],
    whether it returns or raises. *)
Definition preserves {A} (R : world -> world -> Prop) (m : M A) : Prop :=
  forall w, R w (fst (m w)).

(** A record as the data model has it: the five fields are present,
    four hold a string and [Amount] a float.  Other keys are allowed. *)
Definition is_record (t : row) : Prop :=
  exists d ds ty c a,
    t !! Some "Date" = Some (VStr d)
    /\ t !! Some "Description" = Some (VStr ds)
    /\ t !! Some "Type" = Some (VStr ty)
    /\ t !! Some "Category" = Some (VStr c)
    /\ t !! Some "Amount" = Some (VFloat a).

(** What [show_transactions] prints for a list without filter. *)
Fixpoint table_rows (i : nat) (ts : list row) : list msg :=
  match ts with
  | [] => []
  | t :: r => MsgTableRow i t :: table_rows (S i) r
  end.

Definition table (ts : list row) : list msg :=
  MsgTableHead :: MsgTableRule :: table_rows 1 ts.

(** The contract of the update, field by field: an empty replacement
    keeps the old value of a text field. *)
Definition replaced_text (typed : string) (old : option value) : option value :=
  if PyStr.is_empty typed then old else Some (VStr typed).

(** The amount is replaced only by a replacement that is not empty and
    that [float] accepts. *)
Definition replaced_amount (typed : string) (old : option value) : option value :=
  if PyStr.is_empty typed then old
  else
    match PyNum.float_of_string typed with
    | Some x => Some (VFloat x)
    | None => old
    end.

(** The replacement for the amount was typed and [float] rejects it. *)
Definition amount_rejected (typed : string) : bool :=
  negb (PyStr.is_empty typed)
  && match PyNum.float_of_string typed with Some _ => false | None => true end.

Definition update_sample : world :=
  World (Some sample_store)
    ["2"; ""; ""; "Housing"; "12x"; "left over"] [] "2024-05-01"
    [ record "2024-01-01" "Sale" "Income" "Shop" (PyNum.of_Z 100);
      record "2024-01-02" "Rent" "Expense" "Home" (PyNum.of_Z 30) ].


(** *** Monthly expenses as the claim states them *)

Definition entry_text (key : string) (t : row) : string :=
  match t !! Some key with
  | Some (VStr s) => s
  | _ => EmptyString
  end.








(** *** Round trip: the store and its reading *)

Definition is_finite (x : spec_float) : bool :=
  match x with
  | S754_zero _ | S754_finite _ _ _ => true
  | S754_infinity _ | S754_nan => false
  end.

(** A valid record: exactly the five fields, four of text and a finite
    amount whose printed form [float] reads back as the same number
    (the property of [repr] on which every exchange of floats as text
    rests). *)
Definition valid_record (t : row) : Prop :=
  exists d ds ty c a,
    t = record d ds ty c a
    /\ is_finite a = true
    /\ PyNum.float_of_string (PyNum.float_repr a) = Some a.

(** The line that [writer.writerow] produces for cells that are
    strings, without its terminator. *)
Definition render_cells (cells : list string) : string :=
  PyStr.join (String Csv.delimiter EmptyString) (map Csv.render_field cells).

(** The cells written for a record. *)
Definition record_cells (t : row) : list string :=
  map (fun k => Csv.cell_text (default (VStr EmptyString) (t !! Some k))) FIELDNAMES.

(** The text of the lines of records, one after the other. *)
Fixpoint lines_text (rows : list (list string)) : string :=
  match rows with
  | [] => EmptyString
  | cells :: r => render_cells cells +:+ Csv.lineterminator +:+ lines_text r
  end.

(** The file that [save_transactions] leaves. *)
Definition store_text (ts : list row) : string :=
  lines_text (FIELDNAMES :: map record_cells ts).

(** A line ends after [c] when [c] ends it or when the text ends. *)
Definition line_ends_after (c : ascii) (rest : string) : bool :=
  Csv.ends_line c rest || PyStr.is_empty rest.

(** The reader run over the whole text: the end-of-line marker is fed
    to the machine wherever a line of the file ends. *)
Fixpoint flat_records (r : Csv.reader) (text : string)
    : list (list string) * option exn :=
  match text with
  | EmptyString =>
      if negb (PyStr.is_empty (Csv.field r)) || Csv.is_in_quoted_field (Csv.state r)
      then ([Csv.fields (Csv.parse_save_field r Csv.START_RECORD)], None)
      else ([], None)
  | String c rest =>
      match Csv.process_char r c with
      | Raise e => ([], Some e)
      | Ok r1 =>
          if line_ends_after c rest then
            let r2 := Csv.process_eol r1 in
            if Csv.is_start_record (Csv.state r2) then
              let '(rows, err) := flat_records Csv.parse_reset rest in
              (Csv.fields r2 :: rows, err)
            else flat_records r2 rest
          else flat_records r1 rest
      end
  end.

Definition roundtrip_sample : list row :=
  [ record "2024-01-05" ("Rent, " +:+ String Py.quote "flat" +:+ String Py.quote
                           (String Py.LF "second line"))
      "Expense" "Housing" (PyNum.of_Z 500);
    record "" "" "Income" "" (PyNum.of_decimal false 1 (-1)) ].

(** The states in which a field can end. *)
Definition field_end_state (st : Csv.parser_state) : Prop :=
  st = Csv.START_FIELD \/ st = Csv.IN_FIELD \/ st = Csv.QUOTE_IN_QUOTED_FIELD.


(** *** Further properties: relations and shapes *)

(** Two worlds differ at most by messages appended to the output. *)
Definition output_appended (w w' : world) : Prop :=
  file w' = file w /\ stdin w' = stdin w /\ today w' = today w
  /\ transactions w' = transactions w
  /\ exists out, stdout w' = stdout w ++ out.

(** What every dict returned by [load_transactions] satisfies: the
    amount is a float and each of the five field names is a key. *)
Definition loaded_shape (t : row) : Prop :=
  (exists x, t !! Some "Amount" = Some (VFloat x))
  /\ forall k, In k FIELDNAMES -> is_Some (t !! Some k).

(** The rows of the table that a filter keeps. *)
Definition of_type (kind : string) (ts : list row) : list row :=
  List.filter (fun t => String.eqb (PyStr.lower (entry_type t)) (PyStr.lower kind)) ts.

(** What [show_transactions] prints for a filter that is not empty. *)
Definition filtered_view (kind : string) (ts : list row) : list msg :=
  match ts with
  | [] => [MsgNoTransactions]
  | _ :: _ =>
      match of_type kind ts with
      | [] => [MsgNoRecords (PyStr.lower kind)]
      | shown => MsgShowing kind :: table shown
      end
  end.

Definition view_sample : list row :=
  [ record "2024-01-01" "Sale" "INCOME" "Shop" (PyNum.of_Z 100);
    record "2024-01-02" "Rent" "Expense" "Home" (PyNum.of_Z 30);
    record "2024-01-03" "Fee" "income" "Shop" (PyNum.of_Z 5) ].



(** *** Saving any list of dicts *)

(** Every key of the dict is one of the five field names. *)
Definition keys_ok (t : row) : Prop :=
  forall k, is_Some (t !! k) -> exists name, k = Some name /\ In name FIELDNAMES.

(** The test of [DictWriter] for the five field names. *)
Definition keys_okb (t : row) : bool :=
  bool_decide (dom t ⊆ list_to_set (Some <$> FIELDNAMES)).

(** The dicts that come before the first one with a foreign key. *)
Fixpoint writable_prefix (ts : list row) : list row :=
  match ts with
  | [] => []
  | t :: r => if keys_okb t then t :: writable_prefix r else []
  end.

(** A dict that can be saved and read back: its keys are field names,
    its amount is a float that [float] reads back from its printed
    form, and each other field is absent, [None] or a string. *)
Definition storable (t : row) : Prop :=
  keys_ok t
  /\ (exists a, t !! Some "Amount" = Some (VFloat a)
                /\ PyNum.float_of_string (PyNum.float_repr a) = Some a)
  /\ forall k, In k ["Date"; "Description"; "Type"; "Category"] ->
       t !! Some k = None \/ t !! Some k = Some VNone
       \/ exists s, t !! Some k = Some (VStr s).

(** What a storable dict comes back as: a full record in which an
    absent field, or one that held [None], is the empty string. *)
Definition reloaded (t : row) : row :=
  record (entry_text "Date" t) (entry_text "Description" t)
    (entry_text "Type" t) (entry_text "Category" t) (entry_amount t).

(** The dict that [add_income] appends: no [Category] key. *)
Definition income_record (date description : string) (amount : spec_float) : row :=
  <[Some "Date" := VStr date]>
  (<[Some "Description" := VStr description]>
   (<[Some "Type" := VStr "Income"]>
    (<[Some "Amount" := VFloat amount]> ∅))).

Definition overlong_record : row :=
  <[None := VList ["extra"]]> (record "2024-01-05" "Rent" "Expense" "Home" (PyNum.of_Z 5)).

Definition mixed_sample : list row :=
  [ income_record "2024-01-05" "Sale" (PyNum.of_Z 12);
    record "2024-01-06" "Rent" "Expense" "Home" (PyNum.of_Z 5) ].


(** *** Loading a file of five-cell rows *)




(** *** Records stay records *)

(** A run that starts with records only ends with records only. *)
Definition keeps_records (w w' : world) : Prop :=
  Forall is_record (transactions w) -> Forall is_record (transactions w').

Definition expense_session : world :=
  World None ["1"; "Rent"; "Home"; "x"; "12"] [] "2024-05-01"
    [ record "2024-01-01" "Sale" "Income" "Shop" (PyNum.of_Z 100) ].

Definition income_session : world :=
  World None [""; "Sale"; "12.50"; "left over"] [] "2024-05-01"
    [ record "2024-01-01" "Rent" "Expense" "Home" (PyNum.of_Z 100) ].

(** *** The session *)

(** No line is put back on the input: [w'] has at most the lines of
    [w] still to read. *)
Definition input_left (w w' : world) : Prop :=
  (length (stdin w') <= length (stdin w))%nat.

(** One component of the world is what it was. *)
Definition kept {A} (field : world -> A) (w w' : world) : Prop :=
  field w' = field w.

(** Whether the choice typed at the menu, in the world where it was
    just read, leads to [save_transactions]: choice 10, and choice 11
    when the answer that follows is [y] or [Y]. *)
Definition asks_to_save (choice : string) (w : world) : bool :=
  if String.eqb choice "10" then true
  else if String.eqb choice "11" then
    match stdin w with
    | typed :: _ => String.eqb (PyStr.lower typed) "y"
    | [] => false
    end
  else false.

(** The choices that call a function which changes the list. *)
Definition edits_list (choice : string) : bool :=
  existsb (String.eqb choice) ["1"; "2"; "6"; "9"].

(** The contributions of the records added from left to right, as a
    float. *)
Definition total (ts : list row) : spec_float :=
  fold_left PyNum.add (map contribution ts) (S754_zero false).

(** [action(transactions)] followed by [calculate_balance(transactions)],
    as choices 1, 2 or 9 followed by choice 7 run them. *)
Definition then_balance (action : M unit) : M unit :=
  action ;; ts <- get_transactions ;; calculate_balance ts.

(** *** The dict of [add_income] in a first session *)

(** A first session: no file yet, an empty list, and the lines typed
    after choice 1 (an empty date, a description, an amount). *)
Definition first_income : world :=
  World None [""; "Sale"; "12.50"] [] "2024-05-01" [].

(** The dict that [add_income] appends in that session: no [Category]. *)
Definition sale : row :=
  income_record "2024-05-01" "Sale" (PyNum.of_decimal false 125 (-1)).

(** The world after choice 1 in that session. *)
Definition after_income : world :=
  World None [] [MsgTitle "Add Income"; MsgIncomeAdded] "2024-05-01" [sale].

(** The dict that comes back for it from the file. *)
Definition sale_reloaded : row :=
  record "2024-05-01" "Sale" "Income" "" (PyNum.of_decimal false 125 (-1)).

(** * Properties *)

(** ** Header check *)

(** C9. On a file whose first line, stripped as the program strips it,
    is [Date,Description,Type,Category,Amount], [ensure_csv_file]
    returns without raising and leaves the world as it found it: the
    text of the file is the same, and nothing is printed.  Running it a
    second time is again a no-op. *)
Theorem ensure_csv_file_valid_header_noop (w : world) (text : string) :
  file w = Some text ->
  PyStr.strip (Csv.readline text) = "Date,Description,Type,Category,Amount" ->
  ensure_csv_file w = (w, Ok tt)
  /\ (ensure_csv_file ;; ensure_csv_file) w = (w, Ok tt).
Proof.
  intros Hfile Hline.
  assert (Hone : ensure_csv_file w = (w, Ok tt)).
  { unfold ensure_csv_file, bind, read_file. rewrite Hfile. cbn zeta.
    rewrite Hline. reflexivity. }
  split; [exact Hone|].
  unfold bind at 1. rewrite Hone. exact Hone.
Qed.

Lemma ensure_csv_file_valid_header_noop_witness :
  ensure_csv_file sample_world = (sample_world, Ok tt)
  /\ (ensure_csv_file ;; ensure_csv_file) sample_world = (sample_world, Ok tt).
Proof.
  apply (ensure_csv_file_valid_header_noop sample_world sample_store);
    reflexivity.
Defined.

(** ** Repair of a foreign header *)

(** C5 (the code departs from the claim).  On a file with header [a,b]
    and one data row, the repair reads the row as a dict with keys [a]
    and [b]; [DictWriter.writerows], outside the [try], rejects those
    keys.  [ensure_csv_file] raises [ValueError], after the file was
    truncated and the header written: the data row is gone. *)
Theorem ensure_csv_file_repair_raises :
  ensure_csv_file (world_of_file foreign_store)
  = (world_of_file (header_line +:+ Csv.lineterminator), Raise ValueError).
Proof. vm_compute. reflexivity. Qed.

(** ** Loading rows with missing cells *)

(** C6 (the code departs from the claim).  The header line with a
    trailing space passes the check of [ensure_csv_file], which strips
    the line before comparing.  The row of two cells is loaded: its
    [Amount] is absent, so [float(0)] is stored; its [Type] and
    [Category] were set to [None] by the reader, and [setdefault] does
    not replace a value that is present.  The returned record carries
    [None], not [N/A]. *)
Theorem load_transactions_keeps_none :
  snd (load_transactions (world_of_file padded_store))
  = Ok [ <[Some "Amount" := VFloat (S754_zero false)]>
         (<[Some "Amount " := VNone]>
          (<[Some "Category" := VNone]>
           (<[Some "Type" := VNone]>
            (<[Some "Description" := VStr "Rent"]>
             (<[Some "Date" := VStr "2024-01-05"]> ∅))))) ].
Proof. vm_compute. reflexivity. Qed.

(** C4 (the code departs from the claim).  With the exact header, a row
    of three cells has [Amount] set to [None] by the reader; [float]
    raises [TypeError], which the [except ValueError] of the loop does
    not catch.  The outer handler ends the load: the complete row that
    follows, whose amount parses, is not loaded. *)
Theorem load_transactions_stops_at_short_row :
  load_transactions (world_of_file short_row_store)
  = (add_stdout (world_of_file short_row_store) [MsgLoadError TypeError],
     Ok []).
Proof. vm_compute. reflexivity. Qed.

(** ** Adding a transaction *)

(** C8. When the line typed for the amount is not accepted by [float],
    each of [add_income], [add_expense] and [add_payroll] returns
    normally after printing its warning, and the transaction list is
    the one it started with: nothing was appended.  The lines typed
    before the amount (date, description, category, employee) are
    arbitrary. *)
Theorem add_aborts_on_invalid_amount (w : world)
    (date description category employee amount : string) (rest : list string) :
  PyNum.float_of_string amount = None ->
  (exists w',
      add_income (set_stdin w (date :: description :: amount :: rest)) = (w', Ok tt)
      /\ transactions w' = transactions w
      /\ stdout w' = stdout w ++ [MsgTitle "Add Income"; MsgInvalidAmount])
  /\ (exists w',
      add_expense (set_stdin w (date :: description :: category :: amount :: rest))
      = (w', Ok tt)
      /\ transactions w' = transactions w
      /\ stdout w' = stdout w ++ [MsgTitle "Add Expense"; MsgInvalidAmount])
  /\ (exists w',
      add_payroll (set_stdin w (employee :: amount :: rest)) = (w', Ok tt)
      /\ transactions w' = transactions w
      /\ stdout w' = stdout w ++ [MsgTitle "Payroll Entry"; MsgInvalidSalary]).
Proof.
  intros Hbad.
  repeat split.
  - unfold add_income, input_date, input_amount, bind, try_except, print,
      input, lift, get_today, ret, set_stdin; cbn.
    destruct (PyStr.is_empty date); cbn; rewrite Hbad; cbn;
      (eexists; split; [reflexivity|]; cbn; split;
       [reflexivity | rewrite <- app_assoc; reflexivity]).
  - unfold add_expense, input_date, input_amount, bind, try_except, print,
      input, lift, get_today, ret, set_stdin; cbn.
    destruct (PyStr.is_empty date); cbn; rewrite Hbad; cbn;
      (eexists; split; [reflexivity|]; cbn; split;
       [reflexivity | rewrite <- app_assoc; reflexivity]).
  - unfold add_payroll, input_amount, bind, try_except, print,
      input, lift, ret, set_stdin; cbn.
    rewrite Hbad; cbn.
    eexists; split; [reflexivity|]; cbn; split;
      [reflexivity | rewrite <- app_assoc; reflexivity].
Qed.

Lemma add_aborts_on_invalid_amount_witness :
  (exists w',
      add_income (set_stdin sample_world [""; "Widget"; "abc"]) = (w', Ok tt)
      /\ transactions w' = transactions sample_world
      /\ stdout w' = stdout sample_world ++ [MsgTitle "Add Income"; MsgInvalidAmount])
  /\ (exists w',
      add_expense (set_stdin sample_world [""; "Widget"; "Supplies"; "abc"])
      = (w', Ok tt)
      /\ transactions w' = transactions sample_world
      /\ stdout w' = stdout sample_world ++ [MsgTitle "Add Expense"; MsgInvalidAmount])
  /\ (exists w',
      add_payroll (set_stdin sample_world ["Ana"; "abc"]) = (w', Ok tt)
      /\ transactions w' = transactions sample_world
      /\ stdout w' = stdout sample_world ++ [MsgTitle "Payroll Entry"; MsgInvalidSalary]).
Proof.
  apply (add_aborts_on_invalid_amount sample_world "" "Widget" "Supplies" "Ana" "abc" []).
  reflexivity.
Defined.

(** ** Balance *)

Lemma record_is_entry (d ds ty c : string) (a : spec_float) :
  is_entry (record d ds ty c a).
Proof. split; eexists; reflexivity. Qed.

Lemma signed_amount_entry (t : row) :
  is_entry t -> signed_amount t = Ok (VFloat (contribution t)).
Proof.
  intros [[s Hs] [x Hx]].
  unfold signed_amount, type_is, contribution, entry_type, entry_amount,
    Py.getitem.
  rewrite Hs, Hx. cbn.
  destruct (String.eqb (PyStr.lower s) "income"); reflexivity.
Qed.

Lemma sum_from_float (ts : list row) (acc : spec_float) :
  Forall is_entry ts ->
  sum_from (VFloat acc) signed_amount ts
  = Ok (VFloat (fold_left PyNum.add (map contribution ts) acc)).
Proof.
  intros Hts. revert acc.
  induction Hts as [|t ts Ht _ IH]; intros acc; cbn.
  - reflexivity.
  - rewrite (signed_amount_entry t Ht). cbn. apply IH.
Qed.

Lemma sum_from_zero (ts : list row) :
  Forall is_entry ts ->
  sum_from (VInt 0) signed_amount ts = Ok (balance_of ts).
Proof.
  intros Hts. destruct Hts as [|t ts Ht Hts]; cbn.
  - reflexivity.
  - rewrite (signed_amount_entry t Ht). cbn.
    apply (sum_from_float ts _ Hts).
Qed.

(** C2. For records whose [Type] is a string and whose [Amount] is a
    float, [calculate_balance] prints the balance in which each record
    counts for its amount when its type lower-cased is [income] and for
    the opposite of its amount otherwise, whatever the other type is.
    For an income of 100, an expense of 30 and a transfer of 10 the
    balance printed is the float 60. *)
Theorem calculate_balance_sum (w : world) (ts : list row) :
  Forall is_entry ts ->
  calculate_balance ts w = (add_stdout w [MsgBalance (balance_of ts)], Ok tt)
  /\ calculate_balance balance_sample w
     = (add_stdout w [MsgBalance (VFloat (PyNum.of_Z 60))], Ok tt)
  /\ PyNum.float_repr (PyNum.of_Z 60) = "60.0".
Proof.
  intros Hts.
  assert (Hgen : forall l, Forall is_entry l ->
            calculate_balance l w = (add_stdout w [MsgBalance (balance_of l)], Ok tt)).
  { intros l Hl. unfold calculate_balance, bind, lift.
    rewrite (sum_from_zero l Hl).
    destruct l; reflexivity. }
  split; [exact (Hgen ts Hts)|]. split.
  - rewrite Hgen.
    + reflexivity.
    + repeat constructor; apply record_is_entry.
  - vm_compute. reflexivity.
Qed.

Lemma calculate_balance_sum_witness :
  calculate_balance balance_sample sample_world
  = (add_stdout sample_world [MsgBalance (balance_of balance_sample)], Ok tt)
  /\ calculate_balance balance_sample sample_world
     = (add_stdout sample_world [MsgBalance (VFloat (PyNum.of_Z 60))], Ok tt)
  /\ PyNum.float_repr (PyNum.of_Z 60) = "60.0".
Proof.
  apply (calculate_balance_sum sample_world balance_sample).
  repeat constructor; apply record_is_entry.
Defined.

(** ** Updating: what is left alone *)

Section Preservation.

Variable R : world -> world -> Prop.
Hypothesis R_refl : forall w, R w w.
Hypothesis R_trans : forall w1 w2 w3, R w1 w2 -> R w2 w3 -> R w1 w3.
Hypothesis R_print : forall w m, R w (fst (print m w)).

Lemma preserves_ret {A} (a : A) : preserves R (ret a).
Proof. intros w. apply R_refl. Qed.

Lemma preserves_lift {A} (r : result A) : preserves R (lift r).
Proof. intros w. apply R_refl. Qed.

Lemma preserves_print (m : msg) : preserves R (print m).
Proof. intros w. apply R_print. Qed.

Lemma preserves_bind {A B} (m : M A) (k : A -> M B) :
  preserves R m -> (forall a, preserves R (k a)) -> preserves R (bind m k).
Proof.
  intros Hm Hk w. unfold bind.
  specialize (Hm w). destruct (m w) as [w1 [a|e]]; cbn in *.
  - eapply R_trans; [exact Hm | apply Hk].
  - exact Hm.
Qed.

Lemma preserves_try_except {A} (body : M A) (c : exn -> bool) (h : exn -> M A) :
  preserves R body -> (forall e, preserves R (h e)) ->
  preserves R (try_except body c h).
Proof.
  intros Hb Hh w. unfold try_except.
  specialize (Hb w). destruct (body w) as [w1 [a|e]]; cbn in *.
  - exact Hb.
  - destruct (c e); cbn.
    + eapply R_trans; [exact Hb | apply Hh].
    + exact Hb.
Qed.

Lemma preserves_for_each {A} (l : list A) (body : A -> M unit) :
  (forall x, preserves R (body x)) -> preserves R (for_each l body).
Proof.
  intros Hb. induction l as [|x l IH]; cbn.
  - apply preserves_ret.
  - apply preserves_bind; [apply Hb | intros _; exact IH].
Qed.

Lemma preserves_show_rows (ts : list row) (n : nat) :
  preserves R (show_rows n ts).
Proof.
  revert n. induction ts as [|t ts IH]; intros n; cbn.
  - apply preserves_ret.
  - apply preserves_bind; [|intros; apply IH].
    unfold show_row.
    apply preserves_bind; [|intros].
    { apply preserves_for_each. intros k.
      apply preserves_bind; [|intros]; apply preserves_lift. }
    apply preserves_bind; [apply preserves_lift|intros].
    apply preserves_bind; [apply preserves_lift|intros].
    apply preserves_print.
Qed.

Lemma preserves_show_table (ts : list row) : preserves R (show_table ts).
Proof.
  unfold show_table.
  apply preserves_bind; [apply preserves_print|intros].
  apply preserves_bind; [apply preserves_print|intros].
  apply preserves_show_rows.
Qed.

Lemma preserves_show_transactions (ts : list row) (f : option string) :
  preserves R (show_transactions ts f).
Proof.
  unfold show_transactions.
  destruct ts as [|t ts]; [apply preserves_print|].
  destruct f as [kind|]; [|apply preserves_show_table].
  destruct (PyStr.is_empty kind); [apply preserves_show_table|].
  apply preserves_bind; [apply preserves_lift|].
  intros [|s sel]; [apply preserves_print|].
  apply preserves_bind; [apply preserves_print | intros; apply preserves_show_table].
Qed.

End Preservation.

Lemma printed_only_refl (w : world) : printed_only w w.
Proof. repeat split. Qed.

Lemma printed_only_trans (w1 w2 w3 : world) :
  printed_only w1 w2 -> printed_only w2 w3 -> printed_only w1 w3.
Proof.
  intros (H1 & H2 & H3 & H4) (H5 & H6 & H7 & H8).
  repeat split; congruence.
Qed.

Lemma printed_only_print (w : world) (m : msg) : printed_only w (fst (print m w)).
Proof. repeat split. Qed.

(** [show_transactions] only prints, whatever the records are. *)
Lemma show_transactions_printed_only (ts : list row) (f : option string) (w : world) :
  printed_only w (fst (show_transactions ts f w)).
Proof.
  apply (preserves_show_transactions printed_only
           printed_only_refl printed_only_trans printed_only_print).
Qed.

Lemma touches_only_same (i : nat) (w w' : world) :
  transactions w' = transactions w -> touches_only i w w'.
Proof.
  intros H. unfold touches_only. rewrite H.
  split; [reflexivity|]. split; [reflexivity|].
  intros t t' H1 H2. congruence.
Qed.

Lemma touches_only_trans (i : nat) (w1 w2 w3 : world) :
  touches_only i w1 w2 -> touches_only i w2 w3 -> touches_only i w1 w3.
Proof.
  intros (Hl1 & Ho1 & Hd1) (Hl2 & Ho2 & Hd2).
  split; [congruence|]. split.
  - intros j Hj. rewrite (Ho2 j Hj). apply Ho1, Hj.
  - intros t t'' H1 H3.
    destruct (transactions w2 !! i) as [t'|] eqn:H2.
    + rewrite (Hd2 t' t'' eq_refl H3). apply (Hd1 t t' H1 eq_refl).
    + apply lookup_lt_Some in H1. apply lookup_ge_None in H2. lia.
Qed.

(** Storing a value under a key other than [Date] in the dict at
    position [i]. *)
Lemma touches_only_store (i : nat) (w : world) (t : row) (key : string) (v : value) :
  key <> "Date" ->
  transactions w !! i = Some t ->
  touches_only i w
    (fst (set_transactions (<[i := <[Some key := v]> t]> (transactions w)) w)).
Proof.
  intros Hkey Ht. unfold touches_only; cbn.
  split; [apply length_insert|]. split.
  - intros j Hj. apply list_lookup_insert_ne. congruence.
  - intros t0 t' H0 H'.
    rewrite list_lookup_insert_eq in H' by (eapply lookup_lt_Some; eauto).
    assert (t0 = t) by congruence. subst t0.
    injection H' as <-. apply lookup_insert_ne. congruence.
Qed.

Lemma preserves_update_field (i : nat) (key : string) :
  key <> "Date" -> preserves (touches_only i) (update_field i key).
Proof.
  intros Hkey w.
  unfold update_field, bind, get_transactions, lift, input.
  destruct (transactions w !! i) as [t|] eqn:Ht;
    [|apply touches_only_same; reflexivity].
  destruct (Py.getitem t key) as [old|e];
    [|apply touches_only_same; reflexivity].
  destruct (stdin w) as [|typed rest] eqn:Hin;
    [apply touches_only_same; reflexivity|].
  apply (touches_only_trans i w (set_stdin w rest));
    [apply touches_only_same; reflexivity|].
  apply (touches_only_store i (set_stdin w rest) t key _ Hkey Ht).
Qed.

Lemma preserves_update_amount (i : nat) :
  preserves (touches_only i) (update_amount i).
Proof.
  unfold update_amount.
  apply preserves_try_except.
  { apply touches_only_trans. }
  2: { intros e w. apply touches_only_same. reflexivity. }
  intros w.
  unfold bind, get_transactions, lift, input, ret.
  destruct (transactions w !! i) as [t|] eqn:Ht;
    [|apply touches_only_same; reflexivity].
  destruct (Py.getitem t "Amount") as [old|e];
    [|apply touches_only_same; reflexivity].
  destruct (stdin w) as [|typed rest] eqn:Hin;
    [apply touches_only_same; reflexivity|].
  destruct (PyStr.is_empty typed);
    [apply touches_only_same; reflexivity|].
  destruct (Py.float (VStr typed)) as [x|e];
    [|apply touches_only_same; reflexivity].
  apply (touches_only_trans i w (set_stdin w rest));
    [apply touches_only_same; reflexivity|].
  apply (touches_only_store i (set_stdin w rest) t "Amount" _);
    [discriminate|exact Ht].
Qed.

(** The steps that follow the choice of position [i]. *)
Lemma preserves_edit (i : nat) (t : row) :
  preserves (touches_only i)
    (print (MsgEditing t) ;;
     update_field i "Description" ;;
     update_field i "Type" ;;
     update_field i "Category" ;;
     update_amount i ;;
     print MsgUpdated).
Proof.
  assert (Hp : forall m, preserves (touches_only i) (print m)).
  { intros m w. apply touches_only_same. reflexivity. }
  assert (Hf : forall key, key <> "Date" ->
            preserves (touches_only i) (update_field i key)).
  { intros key Hkey. apply preserves_update_field, Hkey. }
  apply preserves_bind; [apply touches_only_trans|apply Hp|intros _].
  apply preserves_bind; [apply touches_only_trans|apply Hf; discriminate|intros _].
  apply preserves_bind; [apply touches_only_trans|apply Hf; discriminate|intros _].
  apply preserves_bind; [apply touches_only_trans|apply Hf; discriminate|intros _].
  apply preserves_bind; [apply touches_only_trans|apply preserves_update_amount|intros _].
  apply Hp.
Qed.

(** C10. Whatever is typed and whatever the list holds, and whether
    [update_transaction] returns or raises, the list keeps its length,
    the [Date] of every record is what it was, and every record other
    than the one at the selected position is unchanged. *)
Theorem update_transaction_frame (w : world) :
  let ts := transactions w in
  let ts' := transactions (fst (update_transaction w)) in
  length ts' = length ts
  /\ (forall i t t', ts !! i = Some t -> ts' !! i = Some t' ->
        t' !! Some "Date" = t !! Some "Date")
  /\ (forall i, selected_position w <> Some i -> ts' !! i = ts !! i).
Proof.
  cbn zeta.
  cut (exists k, touches_only k w (fst (update_transaction w))
                 /\ (selected_position w = Some k
                     \/ transactions (fst (update_transaction w)) = transactions w)).
  { intros (k & (Hlen & Hother & Hdate) & Hsel).
    split; [exact Hlen|]. split.
    - intros i t t' Ht Ht'. destruct (decide (i = k)) as [->|Hne].
      + eauto.
      + rewrite (Hother i Hne) in Ht'. congruence.
    - intros i Hi. destruct Hsel as [Hsel|Hsame].
      + apply Hother. congruence.
      + rewrite Hsame. reflexivity. }
  cut (forall w', fst (update_transaction w) = w' ->
         exists k, touches_only k w w'
                   /\ (selected_position w = Some k
                       \/ transactions w' = transactions w)).
  { intros H. apply (H _ eq_refl). }
  intros w'.
  unfold update_transaction, bind at 1, get_transactions. cbv beta iota.
  destruct (transactions w) as [|t0 ts0] eqn:Hts.
  { intros <-. exists O. split; [apply touches_only_same|right]; cbn; congruence. }
  rewrite <- Hts.
  unfold bind at 1.
  destruct (show_transactions_printed_only (transactions w) None w)
    as (_ & Hin & _ & Htr).
  destruct (show_transactions (transactions w) None w) as [w1 [[]|e]];
    cbn in Hin, Htr;
    [|intros <-; exists O; split; [apply touches_only_same|right]; cbn; congruence].
  unfold try_except, bind at 1, input.
  destruct (stdin w1) as [|typed rest] eqn:Hw1.
  { intros <-. exists O. split; [apply touches_only_same|right]; cbn; congruence. }
  set (w2 := World (file w1) rest (stdout w1) (today w1) (transactions w1)).
  unfold bind at 1, lift, py_int.
  destruct (PyNum.int_of_string typed) as [n|] eqn:Hn; cbv beta iota.
  2: { intros <-. exists O. split; [apply touches_only_same|right]; cbn; congruence. }
  destruct ((0 <=? n - 1) && (n - 1 <? Z.of_nat (length (transactions w))))
    eqn:Hrange.
  2: { intros <-. exists O. split; [apply touches_only_same|right]; cbn; congruence. }
  assert (Hsel : selected_position w = Some (Z.to_nat (n - 1))).
  { unfold selected_position. rewrite <- Hin, Hn.
    apply andb_prop in Hrange as [H0 _].
    destruct (1 <=? n) eqn:H1; [reflexivity|lia]. }
  assert (Hw2 : touches_only (Z.to_nat (n - 1)) w w2).
  { apply touches_only_same. cbn. exact Htr. }
  destruct (transactions w !! Z.to_nat (n - 1)) as [t|].
  2: { intros <-. exists (Z.to_nat (n - 1)). split; [exact Hw2|left; exact Hsel]. }
  pose proof (preserves_edit (Z.to_nat (n - 1)) t w2) as Hedit.
  destruct ((print (MsgEditing t) ;;
             update_field (Z.to_nat (n - 1)) "Description" ;;
             update_field (Z.to_nat (n - 1)) "Type" ;;
             update_field (Z.to_nat (n - 1)) "Category" ;;
             update_amount (Z.to_nat (n - 1)) ;; print MsgUpdated) w2)
    as [w3 [[]|e]]; cbn in Hedit.
  - intros <-. exists (Z.to_nat (n - 1)). split; [|left; exact Hsel].
    eapply touches_only_trans; eauto.
  - intros <-. exists (Z.to_nat (n - 1)). split; [|left; exact Hsel].
    eapply touches_only_trans; [exact Hw2|].
    destruct (is_ValueError e); cbn;
      [eapply touches_only_trans; [exact Hedit|apply touches_only_same; reflexivity]
      | exact Hedit].
Qed.

(** ** Updating: the contract *)

Lemma bind_ok {A B} (m : M A) (k : A -> M B) (w w1 : world) (a : A) :
  m w = (w1, Ok a) -> bind m k w = k a w1.
Proof. intros H. unfold bind. rewrite H. reflexivity. Qed.

Lemma bind_raise {A B} (m : M A) (k : A -> M B) (w w1 : world) (e : exn) :
  m w = (w1, Raise e) -> bind m k w = (w1, Raise e).
Proof. intros H. unfold bind. rewrite H. reflexivity. Qed.

Lemma try_except_ok {A} (body : M A) (c : exn -> bool) (h : exn -> M A)
    (w w1 : world) (a : A) :
  body w = (w1, Ok a) -> try_except body c h w = (w1, Ok a).
Proof. intros H. unfold try_except. rewrite H. reflexivity. Qed.

Lemma try_except_caught {A} (body : M A) (c : exn -> bool) (h : exn -> M A)
    (w w1 : world) (e : exn) :
  body w = (w1, Raise e) -> c e = true -> try_except body c h w = h e w1.
Proof. intros H Hc. unfold try_except. rewrite H, Hc. reflexivity. Qed.

Lemma record_is_record (d ds ty c : string) (a : spec_float) :
  is_record (record d ds ty c a).
Proof. exists d, ds, ty, c, a. repeat split. Qed.

Lemma show_row_run (n : nat) (t : row) f i o d l :
  is_record t ->
  show_row n t (World f i o d l) = (World f i (o ++ [MsgTableRow n t]) d l, Ok tt).
Proof.
  intros (x1 & x2 & x3 & x4 & x5 & H1 & H2 & H3 & H4 & H5).
  unfold show_row, for_each, bind, lift, Py.getitem, ret, print.
  rewrite H1, H2, H3, H4, H5. reflexivity.
Qed.

Lemma show_rows_run (ts : list row) (n : nat) f i o d l :
  Forall is_record ts ->
  show_rows n ts (World f i o d l)
  = (World f i (o ++ table_rows n ts) d l, Ok tt).
Proof.
  intros Hts. revert n o.
  induction Hts as [|t ts Ht _ IH]; intros n o; cbn [show_rows table_rows].
  - unfold ret. rewrite app_nil_r. reflexivity.
  - rewrite (bind_ok _ _ _ _ _ (show_row_run n t f i o d l Ht)).
    rewrite IH, <- app_assoc. reflexivity.
Qed.

Lemma show_transactions_run (ts : list row) f i o d l :
  ts <> [] -> Forall is_record ts ->
  show_transactions ts None (World f i o d l)
  = (World f i (o ++ table ts) d l, Ok tt).
Proof.
  intros Hne Hts. destruct ts as [|t ts]; [congruence|].
  unfold show_transactions, show_table, table.
  unfold bind at 1, print at 1. cbn [stdout file stdin today transactions].
  unfold bind at 1, print at 1. cbn [stdout file stdin today transactions].
  rewrite (show_rows_run (t :: ts) 1 _ _ _ _ _ Hts).
  rewrite <- !app_assoc. reflexivity.
Qed.

Lemma update_field_run (n : nat) (key typed : string) (t : row) (old : value)
    f rest o d l :
  l !! n = Some t ->
  t !! Some key = Some old ->
  update_field n key (World f (typed :: rest) o d l)
  = (World f rest o d
       (<[n := <[Some key := if PyStr.is_empty typed then old else VStr typed]> t]> l),
     Ok tt).
Proof.
  intros Hl Hk.
  unfold update_field, bind, get_transactions, lift, input, set_transactions,
    Py.getitem; cbn.
  rewrite Hl, Hk. reflexivity.
Qed.

Lemma update_amount_run (n : nat) (typed : string) (t : row) (old : value)
    f rest o d l :
  l !! n = Some t ->
  t !! Some "Amount" = Some old ->
  update_amount n (World f (typed :: rest) o d l)
  = (World f rest
       (o ++ if amount_rejected typed then [MsgKeepOldAmount] else [])
       d
       (if PyStr.is_empty typed then l
        else match PyNum.float_of_string typed with
             | Some x => <[n := <[Some "Amount" := VFloat x]> t]> l
             | None => l
             end),
     Ok tt).
Proof.
  intros Hl Hk.
  unfold update_amount, try_except, bind, get_transactions, lift, input,
    set_transactions, Py.getitem, amount_rejected, ret, print, Py.float.
  cbn [stdin file stdout today transactions].
  rewrite Hl, Hk.
  destruct typed as [|c s]; cbn -[PyNum.float_of_string].
  - rewrite app_nil_r. reflexivity.
  - destruct (PyNum.float_of_string (String c s)); cbn.
    + rewrite app_nil_r. reflexivity.
    + reflexivity.
Qed.

(** X17. [update_transaction] on a non-empty list of full records, with [pos]
    the line typed for the position.
    - If [pos] is not a number, or is a number outside [1 .. len], the
      function prints the table and its complaint, and the list is
      untouched.
    - Otherwise the record at that position is replaced by one in which
      each of [Description], [Type] and [Category] keeps its value when
      the replacement typed is empty and takes the replacement
      otherwise; [Amount] keeps its value when the replacement is empty
      or rejected by [float] (a warning is printed in the second case
      only) and takes the parsed number otherwise; every other key is
      as before.  No other record changes. *)
Theorem update_transaction_contract (w : world) (pos : string) (more : list string) :
  transactions w <> [] ->
  Forall is_record (transactions w) ->
  stdin w = pos :: more ->
  let ts := transactions w in
  let shown := stdout w ++ table ts in
  let in_range n := (1 <=? n) && (n <=? Z.of_nat (length ts)) in
  match PyNum.int_of_string pos with
  | None =>
      update_transaction w
      = (World (file w) more (shown ++ [MsgInvalidInput]) (today w) ts, Ok tt)
  | Some n =>
      (in_range n = false ->
       update_transaction w
       = (World (file w) more (shown ++ [MsgInvalidNumber]) (today w) ts, Ok tt))
      /\ (in_range n = true ->
          forall d ty c a rest, more = d :: ty :: c :: a :: rest ->
          exists t t',
            ts !! Z.to_nat (n - 1) = Some t
            /\ update_transaction w
               = (World (file w) rest
                    (shown ++ [MsgEditing t]
                     ++ (if amount_rejected a then [MsgKeepOldAmount] else [])
                     ++ [MsgUpdated])
                    (today w) (<[Z.to_nat (n - 1) := t']> ts), Ok tt)
            /\ t' !! Some "Description" = replaced_text d (t !! Some "Description")
            /\ t' !! Some "Type" = replaced_text ty (t !! Some "Type")
            /\ t' !! Some "Category" = replaced_text c (t !! Some "Category")
            /\ t' !! Some "Amount" = replaced_amount a (t !! Some "Amount")
            /\ (forall k, k <> Some "Description" -> k <> Some "Type" ->
                          k <> Some "Category" -> k <> Some "Amount" ->
                          t' !! k = t !! k))
  end.
Proof.
  destruct w as [f i o dd l]. cbn [transactions stdin stdout file today].
  intros Hne Hrec ->. cbv zeta.
  assert (Hstart :
            update_transaction (World f (pos :: more) o dd l)
            = try_except
                (n <- lift (py_int pos) ;;
                 (if (0 <=? n - 1) && (n - 1 <? Z.of_nat (length l)) then
                    match l !! Z.to_nat (n - 1) with
                    | Some t =>
                        print (MsgEditing t) ;;
                        update_field (Z.to_nat (n - 1)) "Description" ;;
                        update_field (Z.to_nat (n - 1)) "Type" ;;
                        update_field (Z.to_nat (n - 1)) "Category" ;;
                        update_amount (Z.to_nat (n - 1)) ;;
                        print MsgUpdated
                    | None => ret tt
                    end
                  else print MsgInvalidNumber))
                is_ValueError (fun _ => print MsgInvalidInput)
                (World f more (o ++ table l) dd l)).
  { unfold update_transaction.
    unfold bind at 1, get_transactions. cbn [transactions].
    destruct l as [|t0 l0] eqn:El; [congruence|]. rewrite <- El in *.
    rewrite (bind_ok _ _ _ _ _ (show_transactions_run l f _ o dd l Hne Hrec)).
    unfold try_except, bind at 1, input. cbn [stdin file stdout today transactions].
    reflexivity. }
  rewrite Hstart. clear Hstart.
  unfold py_int.
  destruct (PyNum.int_of_string pos) as [n|] eqn:Hpos.
  2: { reflexivity. }
  split.
  - intros Hout.
    assert (Hc : (0 <=? n - 1) && (n - 1 <? Z.of_nat (length l)) = false).
    { apply andb_false_iff in Hout. apply andb_false_iff. lia. }
    unfold try_except, bind, lift. rewrite Hc. reflexivity.
  - intros Hin d ty c a rest ->.
    assert (Hc : (0 <=? n - 1) && (n - 1 <? Z.of_nat (length l)) = true).
    { apply andb_true_iff in Hin. apply andb_true_iff. lia. }
    set (k := Z.to_nat (n - 1)).
    assert (Hk : (k < length l)%nat).
    { apply andb_true_iff in Hin. unfold k. lia. }
    destruct (lookup_lt_is_Some_2 l k Hk) as [t Ht].
    assert (Ht_rec : is_record t).
    { eapply Forall_lookup_1; eauto. }
    destruct Ht_rec as (x1 & x2 & x3 & x4 & x5 & H1 & H2 & H3 & H4 & H5).
    exists t.
    set (t1 := <[Some "Description" := if PyStr.is_empty d then VStr x2 else VStr d]> t).
    set (t2 := <[Some "Type" := if PyStr.is_empty ty then VStr x3 else VStr ty]> t1).
    set (t3 := <[Some "Category" := if PyStr.is_empty c then VStr x4 else VStr c]> t2).
    assert (Hbody :
      (print (MsgEditing t) ;;
       update_field k "Description" ;;
       update_field k "Type" ;;
       update_field k "Category" ;;
       update_amount k ;;
       print MsgUpdated) (World f (d :: ty :: c :: a :: rest) (o ++ table l) dd l)
      = (World f rest
           (o ++ table l ++ [MsgEditing t]
            ++ (if amount_rejected a then [MsgKeepOldAmount] else [])
            ++ [MsgUpdated]) dd
           (if PyStr.is_empty a then <[k := t3]> l
            else match PyNum.float_of_string a with
                 | Some x => <[k := <[Some "Amount" := VFloat x]> t3]> l
                 | None => <[k := t3]> l
                 end), Ok tt)).
    { unfold bind at 1, print at 1. cbn [stdin file stdout today transactions].
      rewrite (bind_ok _ _ _ _ _
                 (update_field_run k "Description" d t (VStr x2) f _ _ dd l Ht H2)).
      fold t1.
      assert (Hl1 : <[k := t1]> l !! k = Some t1)
        by (apply list_lookup_insert_eq, Hk).
      assert (H13 : t1 !! Some "Type" = Some (VStr x3))
        by (unfold t1; rewrite lookup_insert_ne by discriminate; exact H3).
      rewrite (bind_ok _ _ _ _ _
                 (update_field_run k "Type" ty t1 (VStr x3) f _ _ dd _ Hl1 H13)).
      rewrite list_insert_insert_eq. fold t2.
      assert (Hl2 : <[k := t2]> l !! k = Some t2)
        by (apply list_lookup_insert_eq, Hk).
      assert (H24 : t2 !! Some "Category" = Some (VStr x4)).
      { unfold t2, t1. rewrite !lookup_insert_ne by discriminate. exact H4. }
      rewrite (bind_ok _ _ _ _ _
                 (update_field_run k "Category" c t2 (VStr x4) f _ _ dd _ Hl2 H24)).
      rewrite list_insert_insert_eq. fold t3.
      assert (Hl3 : <[k := t3]> l !! k = Some t3)
        by (apply list_lookup_insert_eq, Hk).
      assert (H35 : t3 !! Some "Amount" = Some (VFloat x5)).
      { unfold t3, t2, t1. rewrite !lookup_insert_ne by discriminate. exact H5. }
      rewrite (bind_ok _ _ _ _ _
                 (update_amount_run k a t3 (VFloat x5) f _ _ dd _ Hl3 H35)).
      unfold print. cbn [stdin file stdout today transactions].
      rewrite <- !app_assoc.
      destruct (PyStr.is_empty a); [reflexivity|].
      destruct (PyNum.float_of_string a); [|reflexivity].
      rewrite list_insert_insert_eq. reflexivity. }
    assert (Hrun :
      try_except
        (n0 <- lift match Some n with Some n0 => Ok n0 | None => Raise ValueError end ;;
         (if (0 <=? n0 - 1) && (n0 - 1 <? Z.of_nat (length l)) then
            match l !! Z.to_nat (n0 - 1) with
            | Some t =>
                print (MsgEditing t) ;;
                update_field (Z.to_nat (n0 - 1)) "Description" ;;
                update_field (Z.to_nat (n0 - 1)) "Type" ;;
                update_field (Z.to_nat (n0 - 1)) "Category" ;;
                update_amount (Z.to_nat (n0 - 1)) ;;
                print MsgUpdated
            | None => ret tt
            end
          else print MsgInvalidNumber))
        is_ValueError (fun _ => print MsgInvalidInput)
        (World f (d :: ty :: c :: a :: rest) (o ++ table l) dd l)
      = (World f rest
           (o ++ table l ++ [MsgEditing t]
            ++ (if amount_rejected a then [MsgKeepOldAmount] else [])
            ++ [MsgUpdated]) dd
           (if PyStr.is_empty a then <[k := t3]> l
            else match PyNum.float_of_string a with
                 | Some x => <[k := <[Some "Amount" := VFloat x]> t3]> l
                 | None => <[k := t3]> l
                 end), Ok tt)).
    { apply try_except_ok.
      unfold bind at 1, lift. rewrite Hc. fold k. rewrite Ht. exact Hbody. }
    rewrite Hrun. clear Hrun Hbody.
    assert (Hother : forall key : option string,
              key <> Some "Description" -> key <> Some "Type" ->
              key <> Some "Category" -> t3 !! key = t !! key).
    { intros key Ha Hb Hcc. unfold t3, t2, t1.
      rewrite !lookup_insert_ne by congruence. reflexivity. }
    assert (Hd3 : t3 !! Some "Description" = replaced_text d (t !! Some "Description")).
    { unfold t3, t2, t1, replaced_text.
      rewrite !lookup_insert_ne by discriminate. rewrite lookup_insert_eq, H2.
      destruct (PyStr.is_empty d); reflexivity. }
    assert (Ht3 : t3 !! Some "Type" = replaced_text ty (t !! Some "Type")).
    { unfold t3, t2, t1, replaced_text.
      rewrite !lookup_insert_ne by discriminate. rewrite lookup_insert_eq, H3.
      destruct (PyStr.is_empty ty); reflexivity. }
    assert (Hc3 : t3 !! Some "Category" = replaced_text c (t !! Some "Category")).
    { unfold t3, replaced_text. rewrite lookup_insert_eq, H4.
      destruct (PyStr.is_empty c); reflexivity. }
    assert (Ha3 : t3 !! Some "Amount" = t !! Some "Amount").
    { apply Hother; discriminate. }
    unfold replaced_amount.
    destruct (PyStr.is_empty a) eqn:Ea;
      [|destruct (PyNum.float_of_string a) as [x|] eqn:Ex].
    + exists t3.
      split; [exact Ht|]. split; [rewrite <- !app_assoc; reflexivity|].
      repeat split; try assumption.
      intros key Ka Kb Kc _. apply Hother; assumption.
    + exists (<[Some "Amount" := VFloat x]> t3).
      split; [exact Ht|]. split; [rewrite <- !app_assoc; reflexivity|].
      repeat split.
      * rewrite lookup_insert_ne by discriminate. exact Hd3.
      * rewrite lookup_insert_ne by discriminate. exact Ht3.
      * rewrite lookup_insert_ne by discriminate. exact Hc3.
      * apply lookup_insert_eq.
      * intros key Ka Kb Kc Kd. rewrite lookup_insert_ne by congruence.
        apply Hother; assumption.
    + exists t3.
      split; [exact Ht|]. split; [rewrite <- !app_assoc; reflexivity|].
      repeat split; try assumption.
      intros key Ka Kb Kc _. apply Hother; assumption.
Qed.

Lemma update_transaction_contract_witness :
  exists t',
    transactions (fst (update_transaction update_sample))
    = <[1%nat := t']> (transactions update_sample)
    /\ snd (update_transaction update_sample) = Ok tt
    /\ t' !! Some "Description" = Some (VStr "Rent")
    /\ t' !! Some "Type" = Some (VStr "Expense")
    /\ t' !! Some "Category" = Some (VStr "Housing")
    /\ t' !! Some "Amount" = Some (VFloat (PyNum.of_Z 30)).
Proof.
  pose proof (update_transaction_contract update_sample "2"
                [""; ""; "Housing"; "12x"; "left over"]) as H.
  assert (H1 : transactions update_sample <> []) by discriminate.
  assert (H2 : Forall is_record (transactions update_sample)).
  { repeat constructor; apply record_is_record. }
  specialize (H H1 H2 eq_refl). cbv zeta in H.
  change (PyNum.int_of_string "2") with (Some 2) in H.
  destruct H as [_ H].
  destruct (H eq_refl "" "" "Housing" "12x" ["left over"] eq_refl)
    as (t & t' & Ht & Hrun & Hd & Hty & Hc & Ha & _).
  exists t'. rewrite Hrun.
  injection Ht as <-.
  split; [reflexivity|]. split; [reflexivity|].
  split; [exact Hd|]. split; [exact Hty|]. split; [exact Hc|exact Ha].
Defined.

(** C7 (the code departs from the claim).  In a first session, choice 1
    with an amount that parses leaves in the list the dict that
    [add_income] built, which has no [Category].  [update_transaction]
    prints the table before it asks for a position, and the row of that
    dict raises [KeyError]: the function raises before it reads any
    line.  So a position out of range (5, with one record) is not
    reported, and with position 1 and four empty replies nothing is
    kept and confirmed; in both cases the caller gets the exception. *)
Theorem update_transaction_raises_after_income :
  add_income first_income = (after_income, Ok tt)
  /\ transactions after_income = [sale]
  /\ (let w := set_stdin after_income ["5"] in
      update_transaction w
      = (add_stdout w [MsgTableHead; MsgTableRule], Raise KeyError))
  /\ (let w := set_stdin after_income ["1"; ""; ""; ""; ""] in
      update_transaction w
      = (add_stdout w [MsgTableHead; MsgTableRule], Raise KeyError)).
Proof. repeat split; vm_compute; reflexivity. Qed.

(** ** Monthly expenses *)





Section OrderedDict.

Variable f : string -> value.





End OrderedDict.



Lemma type_is_record (t : row) (kind : string) :
  is_record t ->
  type_is t kind = Ok (String.eqb (PyStr.lower (entry_type t)) kind).
Proof.
  intros (x1 & x2 & x3 & x4 & x5 & H1 & H2 & H3 & H4 & H5).
  unfold type_is, entry_type, Py.getitem. rewrite H3. reflexivity.
Qed.






(** ** Round trip through the file *)

(** *** Strings *)

Lemma append_cons (x : ascii) (a b : string) :
  String x a +:+ b = String x (a +:+ b).
Proof. reflexivity. Qed.

Lemma append_nil_l (b : string) : EmptyString +:+ b = b.
Proof. reflexivity. Qed.

Lemma append_assoc (a b c : string) : (a +:+ b) +:+ c = a +:+ (b +:+ c).
Proof.
  induction a as [|x a IH]; [reflexivity|].
  rewrite !append_cons, IH. reflexivity.
Qed.

Lemma append_nil_r (a : string) : a +:+ EmptyString = a.
Proof.
  induction a as [|x a IH]; [reflexivity|].
  rewrite append_cons, IH. reflexivity.
Qed.

(** *** Lines of the file and the flat reading *)

Lemma readlines_nonempty (c : ascii) (rest : string) :
  Csv.readlines (String c rest) <> [].
Proof.
  cbn. destruct (Csv.ends_line c rest); [discriminate|].
  destruct (Csv.readlines rest); discriminate.
Qed.

Lemma read_records_flat (text : string) (r : Csv.reader) :
  Csv.read_records r (Csv.readlines text) = flat_records r text.
Proof.
  revert r. induction text as [|c rest IH]; intros r.
  - reflexivity.
  - cbn [Csv.readlines flat_records]. unfold line_ends_after.
    destruct (Csv.ends_line c rest) eqn:Hend.
    + cbn [orb Csv.read_records]. unfold Csv.process_line. cbn [Csv.process_chars].
      destruct (Csv.process_char r c) as [r1|e]; cbn [rbind]; [|reflexivity].
      rewrite !IH. reflexivity.
    + cbn [orb]. destruct rest as [|c' rest'].
      * cbn [Csv.readlines PyStr.is_empty Csv.read_records].
        unfold Csv.process_line. cbn [Csv.process_chars].
        destruct (Csv.process_char r c) as [r1|e]; cbn [rbind]; [|reflexivity].
        reflexivity.
      * cbn [PyStr.is_empty].
        destruct (Csv.readlines (String c' rest')) as [|l ls] eqn:Hl.
        { exfalso. exact (readlines_nonempty c' rest' Hl). }
        cbn [Csv.read_records]. unfold Csv.process_line. cbn [Csv.process_chars].
        destruct (Csv.process_char r c) as [r1|e]; cbn [rbind]; [|reflexivity].
        rewrite <- IH. cbn [Csv.read_records]. reflexivity.
Qed.

(** *** One character at a time *)

Lemma flat_step (r r1 : Csv.reader) (c : ascii) (rest : string) :
  Csv.process_char r c = Ok r1 ->
  line_ends_after c rest = false ->
  flat_records r (String c rest) = flat_records r1 rest.
Proof. intros H1 H2. cbn [flat_records]. rewrite H1, H2. reflexivity. Qed.

(** Inside a quoted field the end of a line changes nothing. *)
Lemma flat_step_quoted (r r1 : Csv.reader) (c : ascii) (rest : string) :
  Csv.process_char r c = Ok r1 ->
  Csv.state r1 = Csv.IN_QUOTED_FIELD ->
  flat_records r (String c rest) = flat_records r1 rest.
Proof.
  intros H1 H2. cbn [flat_records]. rewrite H1.
  destruct (line_ends_after c rest); [|reflexivity].
  unfold Csv.process_eol. rewrite H2. cbn. rewrite H2. reflexivity.
Qed.

Lemma special_false (c : ascii) :
  Csv.special c = false ->
  Ascii.eqb c Csv.delimiter = false /\ Ascii.eqb c Py.quote = false
  /\ Csv.is_newline c = false.
Proof.
  unfold Csv.special, Csv.is_newline. intros H.
  destruct (Ascii.eqb c Csv.delimiter), (Ascii.eqb c Py.quote),
    (Ascii.eqb c Py.CR), (Ascii.eqb c Py.LF); cbn in *; auto; discriminate.
Qed.

Lemma no_line_end (c : ascii) (rest : string) :
  Csv.is_newline c = false -> rest <> EmptyString ->
  line_ends_after c rest = false.
Proof.
  unfold line_ends_after, Csv.ends_line, Csv.is_newline.
  intros H Hrest. apply orb_false_iff in H as [H1 H2]. rewrite H1, H2.
  destruct rest; [congruence|reflexivity].
Qed.

Lemma append_nonempty (a : string) (c : ascii) (b : string) :
  a +:+ String c b <> EmptyString.
Proof. destruct a; discriminate. Qed.

(** *** Fields *)

Lemma flat_plain_chars (s : string) :
  PyStr.contains Csv.special s = false ->
  forall fs buf k, k <> EmptyString ->
  flat_records (Csv.Reader Csv.IN_FIELD fs buf) (s +:+ k)
  = flat_records (Csv.Reader Csv.IN_FIELD fs (buf +:+ s)) k.
Proof.
  induction s as [|c s IH]; intros Hs fs buf k Hk.
  - rewrite append_nil_l, append_nil_r. reflexivity.
  - cbn [PyStr.contains] in Hs. apply orb_false_iff in Hs as [Hc Hs].
    destruct (special_false c Hc) as (Hd & Hq & Hn).
    rewrite append_cons.
    rewrite (flat_step _ (Csv.Reader Csv.IN_FIELD fs (buf +:+ String c EmptyString))).
    + rewrite (IH Hs _ _ _ Hk), append_assoc. reflexivity.
    + unfold Csv.process_char. cbn [Csv.state]. rewrite Hn, Hd. reflexivity.
    + apply no_line_end; [exact Hn|]. destruct s; [exact Hk|discriminate].
Qed.

(** An unquoted field, read from the start of a field. *)
Lemma flat_unquoted_field (s : string) (fs : list string) (k : string) :
  PyStr.contains Csv.special s = false -> k <> EmptyString ->
  flat_records (Csv.Reader Csv.START_FIELD fs EmptyString) (s +:+ k)
  = flat_records
      (Csv.Reader (if PyStr.is_empty s then Csv.START_FIELD else Csv.IN_FIELD) fs s) k.
Proof.
  intros Hs Hk. destruct s as [|c s]; [reflexivity|].
  cbn [PyStr.contains] in Hs. apply orb_false_iff in Hs as [Hc Hs].
  destruct (special_false c Hc) as (Hd & Hq & Hn).
  rewrite append_cons.
  rewrite (flat_step _ (Csv.Reader Csv.IN_FIELD fs (String c EmptyString))).
  - rewrite (flat_plain_chars s Hs _ _ _ Hk). reflexivity.
  - unfold Csv.process_char, Csv.start_field. cbn [Csv.state].
    rewrite Hn, Hq, Hd. reflexivity.
  - apply no_line_end; [exact Hn|]. destruct s; [exact Hk|discriminate].
Qed.

Lemma flat_quoted_body (s : string) :
  forall fs buf k,
  flat_records (Csv.Reader Csv.IN_QUOTED_FIELD fs buf) (Csv.escape s +:+ k)
  = flat_records (Csv.Reader Csv.IN_QUOTED_FIELD fs (buf +:+ s)) k.
Proof.
  induction s as [|c s IH]; intros fs buf k.
  - rewrite append_nil_r. reflexivity.
  - cbn [Csv.escape].
    destruct (Ascii.eqb c Py.quote) eqn:Hq.
    + apply Ascii.eqb_eq in Hq. subst c.
      rewrite !append_cons.
      rewrite (flat_step _ (Csv.Reader Csv.QUOTE_IN_QUOTED_FIELD fs buf));
        [|reflexivity|apply no_line_end; [reflexivity|discriminate]].
      rewrite (flat_step_quoted _
                 (Csv.Reader Csv.IN_QUOTED_FIELD fs (buf +:+ String Py.quote EmptyString)));
        [|reflexivity|reflexivity].
      rewrite IH, append_assoc. reflexivity.
    + rewrite append_cons.
      rewrite (flat_step_quoted _
                 (Csv.Reader Csv.IN_QUOTED_FIELD fs (buf +:+ String c EmptyString))).
      * rewrite IH, append_assoc. reflexivity.
      * unfold Csv.process_char. cbn [Csv.state]. rewrite Hq. reflexivity.
      * reflexivity.
Qed.

(** A quoted field, read from the start of a field up to its closing
    quote. *)
Lemma flat_quoted_field (s : string) (fs : list string) (k : string) :
  k <> EmptyString ->
  flat_records (Csv.Reader Csv.START_FIELD fs EmptyString)
    (String Py.quote (Csv.escape s +:+ String Py.quote k))
  = flat_records (Csv.Reader Csv.QUOTE_IN_QUOTED_FIELD fs s) k.
Proof.
  intros Hk.
  rewrite (flat_step_quoted _ (Csv.Reader Csv.IN_QUOTED_FIELD fs EmptyString));
    [|reflexivity|reflexivity].
  rewrite flat_quoted_body, append_nil_l.
  apply flat_step; [reflexivity|].
  apply no_line_end; [reflexivity|exact Hk].
Qed.

Lemma flat_delimiter (st : Csv.parser_state) (fs : list string) (buf more : string) :
  field_end_state st -> more <> EmptyString ->
  flat_records (Csv.Reader st fs buf) (String Csv.delimiter more)
  = flat_records (Csv.Reader Csv.START_FIELD (fs ++ [buf]) EmptyString) more.
Proof.
  intros Hst Hmore. apply flat_step.
  - destruct Hst as [ -> | [ -> | -> ] ]; reflexivity.
  - apply no_line_end; [reflexivity|exact Hmore].
Qed.

Lemma flat_lineterminator (st : Csv.parser_state) (fs : list string) (buf rest : string) :
  field_end_state st ->
  flat_records (Csv.Reader st fs buf) (Csv.lineterminator +:+ rest)
  = let '(rows, err) := flat_records Csv.parse_reset rest in
    ((fs ++ [buf]) :: rows, err).
Proof.
  intros Hst. unfold Csv.lineterminator. rewrite !append_cons, append_nil_l.
  rewrite (flat_step _ (Csv.Reader Csv.EAT_CRNL (fs ++ [buf]) EmptyString)).
  - cbn [flat_records]. unfold Csv.process_char. cbn [Csv.state].
    change (Csv.is_newline Py.LF) with true. cbv iota.
    unfold line_ends_after, Csv.ends_line.
    change (Ascii.eqb Py.LF Py.LF) with true. cbn [orb].
    reflexivity.
  - destruct Hst as [ -> | [ -> | -> ] ]; reflexivity.
  - reflexivity.
Qed.

Lemma render_field_end (s : string) (fs : list string) (k : string) :
  k <> EmptyString ->
  exists st, field_end_state st
    /\ flat_records (Csv.Reader Csv.START_FIELD fs EmptyString) (Csv.render_field s +:+ k)
       = flat_records (Csv.Reader st fs s) k.
Proof.
  intros Hk. unfold Csv.render_field.
  destruct (PyStr.contains Csv.special s) eqn:Hs.
  - exists Csv.QUOTE_IN_QUOTED_FIELD. split; [right; right; reflexivity|].
    rewrite append_cons, append_assoc, append_cons, append_nil_l.
    apply flat_quoted_field, Hk.
  - exists (if PyStr.is_empty s then Csv.START_FIELD else Csv.IN_FIELD). split.
    + destruct (PyStr.is_empty s); [left|right; left]; reflexivity.
    + apply flat_unquoted_field; assumption.
Qed.

(** *** Records *)

Lemma render_cells_one (s : string) : render_cells [s] = Csv.render_field s.
Proof. reflexivity. Qed.

Lemma render_cells_cons (s s2 : string) (cells : list string) :
  render_cells (s :: s2 :: cells)
  = Csv.render_field s +:+ String Csv.delimiter EmptyString
    +:+ render_cells (s2 :: cells).
Proof. reflexivity. Qed.

(** The cells of a written line, read from the start of a field. *)
Lemma flat_cells (cells : list string) :
  cells <> [] ->
  forall fs rest,
  flat_records (Csv.Reader Csv.START_FIELD fs EmptyString)
    (render_cells cells +:+ Csv.lineterminator +:+ rest)
  = let '(rows, err) := flat_records Csv.parse_reset rest in
    ((fs ++ cells) :: rows, err).
Proof.
  induction cells as [|s cells IH]; intros Hne fs rest; [congruence|].
  destruct cells as [|s2 cells].
  - rewrite render_cells_one.
    destruct (render_field_end s fs (Csv.lineterminator +:+ rest))
      as (st & Hst & Heq).
    { discriminate. }
    rewrite Heq. apply flat_lineterminator, Hst.
  - rewrite render_cells_cons, !append_assoc.
    destruct (render_field_end s fs
                (String Csv.delimiter EmptyString +:+
                 render_cells (s2 :: cells) +:+ Csv.lineterminator +:+ rest))
      as (st & Hst & Heq).
    { discriminate. }
    rewrite Heq. clear Heq.
    rewrite append_cons, append_nil_l.
    rewrite (flat_delimiter st fs s _ Hst).
    + rewrite IH by discriminate. rewrite <- app_assoc. reflexivity.
    + unfold Csv.lineterminator. rewrite append_cons. apply append_nonempty.
Qed.

(** At the start of a record a character that is not a newline is
    handled as at the start of a field. *)
Lemma flat_start_record (c : ascii) (text : string) (fs : list string) (buf : string) :
  Csv.is_newline c = false ->
  flat_records (Csv.Reader Csv.START_RECORD fs buf) (String c text)
  = flat_records (Csv.Reader Csv.START_FIELD fs buf) (String c text).
Proof.
  intros Hc. cbn [flat_records]. unfold Csv.process_char. cbn [Csv.state].
  rewrite Hc. reflexivity.
Qed.

Lemma render_field_head (s k : string) :
  k <> EmptyString ->
  (forall c t, k = String c t -> Csv.is_newline c = false) ->
  exists c t, Csv.render_field s +:+ k = String c t /\ Csv.is_newline c = false.
Proof.
  intros Hk Hhead. unfold Csv.render_field.
  destruct (PyStr.contains Csv.special s) eqn:Hs.
  - eexists _, _. split; [apply append_cons|reflexivity].
  - destruct s as [|c s].
    + destruct k as [|c t]; [congruence|]. exists c, t. split; [reflexivity|].
      apply (Hhead c t eq_refl).
    + exists c, (s +:+ k). split; [apply append_cons|].
      cbn [PyStr.contains] in Hs. apply orb_false_iff in Hs as [Hc _].
      apply (special_false c Hc).
Qed.

(** A written line of two cells or more, read from the start of a
    record. *)
Lemma flat_record (s s2 : string) (cells : list string) (rest : string) :
  flat_records Csv.parse_reset
    (render_cells (s :: s2 :: cells) +:+ Csv.lineterminator +:+ rest)
  = let '(rows, err) := flat_records Csv.parse_reset rest in
    ((s :: s2 :: cells) :: rows, err).
Proof.
  etransitivity;
    [|exact (flat_cells (s :: s2 :: cells) ltac:(discriminate) [] rest)].
  rewrite render_cells_cons, !append_assoc.
  destruct (render_field_head s
              (String Csv.delimiter EmptyString +:+
               render_cells (s2 :: cells) +:+ Csv.lineterminator +:+ rest))
    as (c & t & Heq & Hc).
  - discriminate.
  - intros c t Hk. rewrite append_cons in Hk. injection Hk as <- _. reflexivity.
  - rewrite Heq. apply flat_start_record, Hc.
Qed.

(** The records of a text of written lines are the cells written. *)
Lemma flat_lines (rows : list (list string)) :
  Forall (fun cells => (2 <= length cells)%nat) rows ->
  flat_records Csv.parse_reset (lines_text rows) = (rows, None).
Proof.
  induction 1 as [|cells rows Hlen _ IH]; [reflexivity|].
  cbn [lines_text].
  destruct cells as [|s [|s2 cells]]; cbn in Hlen; [lia|lia|].
  rewrite flat_record, IH. reflexivity.
Qed.

Lemma reader_rows_lines (rows : list (list string)) :
  Forall (fun cells => (2 <= length cells)%nat) rows ->
  Csv.reader_rows (lines_text rows) = (rows, None).
Proof.
  intros H. unfold Csv.reader_rows. rewrite read_records_flat.
  apply flat_lines, H.
Qed.

Lemma record_cells_length (t : row) : length (record_cells t) = 5%nat.
Proof. reflexivity. Qed.

Lemma filter_not_blank (rows : list (list string)) :
  Forall (fun cells => (2 <= length cells)%nat) rows ->
  filter (fun cells => negb (Csv.is_blank_record cells)) rows = rows.
Proof.
  induction 1 as [|cells rows Hlen _ IH]; [reflexivity|].
  rewrite filter_cons_True.
  - rewrite IH. reflexivity.
  - destruct cells; [cbn in Hlen; lia|exact I].
Qed.

(** [DictReader] on the file that was saved: one dict per record,
    built from the cells that were written. *)
Lemma dict_reader_store (ts : list row) :
  Csv.dict_reader (store_text ts)
  = (map (fun t => Csv.to_dict FIELDNAMES (record_cells t)) ts, None).
Proof.
  assert (Hrows : Forall (fun cells => (2 <= length cells)%nat) (map record_cells ts)).
  { apply Forall_forall. intros cells Hin.
    apply list_elem_of_In, in_map_iff in Hin as (t & <- & _).
    rewrite record_cells_length. lia. }
  unfold Csv.dict_reader, store_text.
  rewrite reader_rows_lines.
  - rewrite (filter_not_blank _ Hrows), map_map. reflexivity.
  - constructor; [cbn; lia|exact Hrows].
Qed.

(** *** Writing *)

Lemma record_cells_record (d ds ty c : string) (a : spec_float) :
  record_cells (record d ds ty c a) = [d; ds; ty; c; PyNum.float_repr a].
Proof. reflexivity. Qed.

Lemma dict_to_list_record (d ds ty c : string) (a : spec_float) :
  Csv.dict_to_list FIELDNAMES (record d ds ty c a)
  = Ok [VStr d; VStr ds; VStr ty; VStr c; VFloat a].
Proof. reflexivity. Qed.

Lemma render_row_cells (v1 v2 : value) (l : list value) :
  Csv.render_row (v1 :: v2 :: l)
  = render_cells (map Csv.cell_text (v1 :: v2 :: l)) +:+ Csv.lineterminator.
Proof.
  unfold Csv.render_row, render_cells. rewrite map_map.
  cbn [map PyStr.join].
  destruct (Csv.render_field (Csv.cell_text v1)); reflexivity.
Qed.

Lemma writerow_record (t : row) (text : string) i o dd l :
  valid_record t ->
  Csv.writerow FIELDNAMES t (World (Some text) i o dd l)
  = (World (Some (text +:+ render_cells (record_cells t) +:+ Csv.lineterminator))
       i o dd l, Ok tt).
Proof.
  intros (d & ds & ty & c & a & -> & _ & _).
  unfold Csv.writerow, bind, lift. rewrite dict_to_list_record.
  rewrite render_row_cells, record_cells_record. reflexivity.
Qed.

Lemma writerows_records (ts : list row) :
  Forall valid_record ts ->
  forall text i o dd l,
  Csv.writerows FIELDNAMES ts (World (Some text) i o dd l)
  = (World (Some (text +:+ lines_text (map record_cells ts))) i o dd l, Ok tt).
Proof.
  induction 1 as [|t ts Ht _ IH]; intros text i o dd l.
  - cbn [map lines_text]. rewrite append_nil_r. reflexivity.
  - unfold Csv.writerows. cbn [for_each].
    rewrite (bind_ok _ _ _ _ _ (writerow_record t text i o dd l Ht)).
    fold (Csv.writerows FIELDNAMES ts). rewrite IH.
    cbn [map lines_text]. rewrite !append_assoc. reflexivity.
Qed.

(** [save_transactions] leaves the header line and one line per
    record, whatever the file held, once [ensure_csv_file] has
    returned. *)
Lemma save_transactions_store (ts : list row) (w w0 : world) :
  Forall valid_record ts ->
  ensure_csv_file w = (w0, Ok tt) ->
  save_transactions ts w
  = (World (Some (store_text ts)) (stdin w0) (stdout w0 ++ [MsgSaved])
       (today w0) (transactions w0), Ok tt).
Proof.
  intros Hts Hens. unfold save_transactions.
  rewrite (bind_ok _ _ _ _ _ Hens).
  unfold bind at 1, set_file. unfold bind at 1, Csv.writeheader, write_file.
  cbn [file stdin stdout today transactions default].
  rewrite (bind_ok _ _ _ _ _ (writerows_records ts Hts _ _ _ _ _)).
  unfold print. cbn [file stdin stdout today transactions].
  unfold store_text. cbn [lines_text].
  change (Csv.render_row (map VStr FIELDNAMES))
    with (render_cells FIELDNAMES +:+ Csv.lineterminator).
  unfold id. rewrite append_nil_l, append_assoc. reflexivity.
Qed.

(** *** Reading back *)

Lemma load_row_record (t : row) (w : world) :
  valid_record t ->
  load_row (Csv.to_dict FIELDNAMES (record_cells t)) w = (w, Ok (Some t)).
Proof.
  intros (d & ds & ty & c & a & -> & _ & Hrepr).
  rewrite record_cells_record.
  unfold load_row, try_except, bind, lift, ret.
  change (Py.get (Csv.to_dict FIELDNAMES [d; ds; ty; c; PyNum.float_repr a])
            "Amount" (VInt 0))
    with (VStr (PyNum.float_repr a)).
  cbn [Py.float]. rewrite Hrepr. reflexivity.
Qed.

Lemma collect_records (ts : list row) :
  Forall valid_record ts ->
  forall acc w,
  collect (map (fun t => Csv.to_dict FIELDNAMES (record_cells t)) ts) load_row acc w
  = (w, Ok (acc ++ ts, None)).
Proof.
  induction 1 as [|t ts Ht _ IH]; intros acc w; cbn [map collect].
  - unfold ret. rewrite app_nil_r. reflexivity.
  - rewrite (load_row_record t w Ht). rewrite IH, <- app_assoc. reflexivity.
Qed.

Lemma readline_store (rest : string) :
  PyStr.strip
    (Csv.readline (render_cells FIELDNAMES +:+ Csv.lineterminator +:+ rest))
  = header_line.
Proof. reflexivity. Qed.

(** [load_transactions] on a saved file returns the records saved. *)
Lemma load_transactions_store (ts : list row) i o dd l :
  Forall valid_record ts ->
  load_transactions (World (Some (store_text ts)) i o dd l)
  = (World (Some (store_text ts)) i (o ++ [MsgLoaded (length ts)]) dd l, Ok ts).
Proof.
  intros Hts.
  assert (Hens : ensure_csv_file (World (Some (store_text ts)) i o dd l)
                 = (World (Some (store_text ts)) i o dd l, Ok tt)).
  { unfold ensure_csv_file, bind, read_file. cbn [file].
    unfold store_text at 1. cbn [lines_text]. rewrite readline_store.
    reflexivity. }
  unfold load_transactions.
  rewrite (bind_ok _ _ _ _ _ Hens).
  unfold bind at 1, read_file. cbn [file].
  rewrite dict_reader_store.
  rewrite (bind_ok _ _ _ _ _ (collect_records ts Hts [] _)).
  cbn [app]. unfold bind, print, ret. reflexivity.
Qed.

(** [ensure_csv_file] returns when the file is absent and when its
    first line is the header. *)
Lemma ensure_csv_file_returns (w : world) :
  file w = None
  \/ (exists text, file w = Some text
                   /\ PyStr.strip (Csv.readline text) = header_line) ->
  snd (ensure_csv_file w) = Ok tt.
Proof.
  unfold ensure_csv_file, bind, read_file.
  intros [Hnone|(text & Hsome & Hline)].
  - rewrite Hnone. reflexivity.
  - rewrite Hsome. cbv zeta. rewrite Hline. reflexivity.
Qed.

(** X18. For a list [R] of full records whose amounts are finite
    floats that [float] reads back from their printed form, and a file
    on which [ensure_csv_file] returns, [save_transactions R] returns
    and [load_transactions], run next, returns [R] itself: the same
    records in the same order, every field with the value it had.
    Texts may hold commas, quotes and line breaks. *)
Theorem save_load_roundtrip (w : world) (R : list row) :
  Forall valid_record R ->
  snd (ensure_csv_file w) = Ok tt ->
  exists w1 w2,
    save_transactions R w = (w1, Ok tt)
    /\ load_transactions w1 = (w2, Ok R)
    /\ file w2 = file w1.
Proof.
  intros HR Hens.
  destruct (ensure_csv_file w) as [w0 r] eqn:He. cbn in Hens. subst r.
  eexists _, _. split.
  - apply (save_transactions_store R w w0 HR He).
  - split; [apply (load_transactions_store R _ _ _ _ HR)|reflexivity].
Qed.

Lemma save_load_roundtrip_witness :
  exists w1 w2,
    save_transactions roundtrip_sample sample_world = (w1, Ok tt)
    /\ load_transactions w1 = (w2, Ok roundtrip_sample)
    /\ file w2 = file w1.
Proof.
  apply (save_load_roundtrip sample_world roundtrip_sample).
  - repeat constructor;
      (eexists _, _, _, _, _; split; [reflexivity|split; vm_compute; reflexivity]).
  - reflexivity.
Defined.

(** C1 (the code departs from the claim).  In a first session, choice 1
    with an amount that parses leaves in the list the dict that
    [add_income] built, which has no [Category].  [save_transactions]
    writes that list with an empty cell for the category, and
    [load_transactions], run next, returns a dict whose [Category] is
    the empty string: [setdefault] finds the key present and does not
    fill in [N/A].  The list loaded is not the list saved. *)
Theorem save_load_changes_income_record :
  add_income first_income = (after_income, Ok tt)
  /\ transactions after_income = [sale]
  /\ exists w2 w3,
       save_transactions [sale] after_income = (w2, Ok tt)
       /\ file w2 = Some (store_text [sale])
       /\ load_transactions w2 = (w3, Ok [sale_reloaded])
       /\ [sale_reloaded] <> [sale]
       /\ sale !! Some "Category" = None
       /\ sale_reloaded !! Some "Category" = Some (VStr "").
Proof.
  split; [vm_compute; reflexivity|]. split; [reflexivity|].
  exists (World (Some (store_text [sale])) []
            [MsgTitle "Add Income"; MsgIncomeAdded; MsgCreated; MsgSaved]
            "2024-05-01" [sale]).
  exists (World (Some (store_text [sale])) []
            [MsgTitle "Add Income"; MsgIncomeAdded; MsgCreated; MsgSaved; MsgLoaded 1]
            "2024-05-01" [sale]).
  split; [vm_compute; reflexivity|].
  split; [reflexivity|].
  split; [vm_compute; reflexivity|].
  split; [|split; reflexivity].
  intros H.
  apply (f_equal (fun l : list row =>
                    match l with
                    | t :: _ => t !! Some "Category"
                    | [] => None
                    end)) in H.
  vm_compute in H. discriminate H.
Qed.

(** * Further properties of the program *)

(** ** The views only print *)

Lemma output_appended_refl (w : world) : output_appended w w.
Proof. repeat split. exists []. rewrite app_nil_r. reflexivity. Qed.

Lemma output_appended_trans (w1 w2 w3 : world) :
  output_appended w1 w2 -> output_appended w2 w3 -> output_appended w1 w3.
Proof.
  intros (H1 & H2 & H3 & H4 & out1 & H5) (H6 & H7 & H8 & H9 & out2 & H10).
  repeat split; try congruence.
  exists (out1 ++ out2). rewrite H10, H5, app_assoc. reflexivity.
Qed.

Lemma output_appended_print (w : world) (m : msg) :
  output_appended w (fst (print m w)).
Proof. repeat split. exists [m]. reflexivity. Qed.

(** X1. [show_transactions], [calculate_balance] and
    [calculate_monthly_expenses] leave the file, the pending input, the
    date and the transaction list as they are, and only append to the
    output; this holds for every list of dicts and every filter,
    whether the function returns or raises. *)
Theorem views_only_print (w : world) (ts : list row) (filter_type : option string) :
  output_appended w (fst (show_transactions ts filter_type w))
  /\ output_appended w (fst (calculate_balance ts w))
  /\ output_appended w (fst (calculate_monthly_expenses ts w)).
Proof.
  pose proof output_appended_refl as Hr.
  pose proof output_appended_trans as Ht.
  pose proof output_appended_print as Hp.
  split; [|split].
  - apply (preserves_show_transactions output_appended Hr Ht Hp).
  - unfold calculate_balance.
    apply (preserves_bind _ Ht); [apply (preserves_lift _ Hr)|intros b].
    apply (preserves_bind _ Ht); [apply (preserves_lift _ Hr)|intros _].
    apply (preserves_print _ Hp).
  - unfold calculate_monthly_expenses.
    apply (preserves_bind _ Ht); [apply (preserves_lift _ Hr)|intros m].
    destruct m as [|kv m]; [apply (preserves_print _ Hp)|].
    apply (preserves_bind _ Ht); [apply (preserves_print _ Hp)|intros _].
    apply (preserves_for_each _ Hr Ht). intros x.
    apply (preserves_bind _ Ht); [apply (preserves_lift _ Hr)|intros _].
    apply (preserves_print _ Hp).
Qed.

(** ** The filtered table *)

Lemma select_type_records (kind : string) (ts : list row) :
  Forall is_record ts ->
  select_type kind ts
  = Ok (List.filter (fun t => String.eqb (PyStr.lower (entry_type t)) kind) ts).
Proof.
  induction 1 as [|t ts Ht _ IH]; [reflexivity|].
  cbn [select_type List.filter].
  rewrite (type_is_record t kind Ht), IH. cbn [rbind].
  destruct (String.eqb (PyStr.lower (entry_type t)) kind); reflexivity.
Qed.

Lemma Forall_filter_records (f : row -> bool) (ts : list row) :
  Forall is_record ts -> Forall is_record (List.filter f ts).
Proof.
  induction 1 as [|t ts Ht _ IH]; cbn; [constructor|].
  destruct (f t); [constructor; assumption|assumption].
Qed.

Lemma show_table_run (ts : list row) f i o d l :
  Forall is_record ts ->
  show_table ts (World f i o d l) = (World f i (o ++ table ts) d l, Ok tt).
Proof.
  intros Hts. unfold show_table, table.
  unfold bind at 1, print at 1. cbn [stdout file stdin today transactions].
  unfold bind at 1, print at 1. cbn [stdout file stdin today transactions].
  rewrite (show_rows_run ts 1 _ _ _ _ _ Hts), <- !app_assoc. reflexivity.
Qed.

(** X2. On a list of records, [show_transactions] with a filter that is
    not empty prints the records whose type equals the filter when
    both are lower-cased, in list order and numbered from 1 (the
    numbers are positions in the filtered table, not in the list);
    when no record matches it prints that no such record was found;
    on the empty list it prints that there are no transactions.  It
    returns normally in each case. *)
Theorem show_transactions_filtered (w : world) (ts : list row) (kind : string) :
  Forall is_record ts ->
  kind <> EmptyString ->
  show_transactions ts (Some kind) w
  = (add_stdout w (filtered_view kind ts), Ok tt).
Proof.
  intros Hts Hkind. destruct w as [f i o d l].
  unfold show_transactions, filtered_view, add_stdout.
  cbn [file stdin stdout today transactions].
  destruct ts as [|t ts]; [reflexivity|].
  destruct kind as [|c kind]; [congruence|]. cbn [PyStr.is_empty].
  unfold bind at 1, lift.
  rewrite (select_type_records _ _ Hts). fold (of_type (String c kind) (t :: ts)).
  pose proof (Forall_filter_records
                (fun t => String.eqb (PyStr.lower (entry_type t))
                            (PyStr.lower (String c kind))) _ Hts) as Hsel.
  fold (of_type (String c kind) (t :: ts)) in Hsel.
  destruct (of_type (String c kind) (t :: ts)) as [|s sel]; [reflexivity|].
  unfold bind at 1, print at 1. cbn [stdout file stdin today transactions].
  rewrite (show_table_run (s :: sel) _ _ _ _ _ Hsel), <- app_assoc. reflexivity.
Qed.

Lemma show_transactions_filtered_witness :
  show_transactions view_sample (Some "Income") sample_world
  = (add_stdout sample_world (filtered_view "Income" view_sample), Ok tt).
Proof.
  apply (show_transactions_filtered sample_world view_sample "Income").
  - repeat constructor; apply record_is_record.
  - discriminate.
Defined.

(** ** Loading: what always holds *)

Lemma setdefault_lookup_other (d : row) (k : string) (v : value) (k' : option string) :
  is_Some (d !! k') -> Py.setdefault d k v !! k' = d !! k'.
Proof.
  intros Hk'. unfold Py.setdefault.
  destruct (d !! Some k) eqn:Hk; [reflexivity|].
  rewrite lookup_insert_ne; [reflexivity|]. intros <-.
  rewrite Hk in Hk'. destruct Hk' as [? ?]. discriminate.
Qed.

Lemma setdefault_is_Some (d : row) (k : string) (v : value) :
  is_Some (Py.setdefault d k v !! Some k).
Proof.
  unfold Py.setdefault. destruct (d !! Some k) eqn:Hk.
  - rewrite Hk. eauto.
  - rewrite lookup_insert_eq. eauto.
Qed.

(** Filling the defaults keeps what is there and makes every field
    name a key. *)
Lemma fill_defaults_shape (names : list string) (d : row) (v : value) :
  let d' := foldl (fun d key => Py.setdefault d key v) d names in
  (forall k', is_Some (d !! k') -> d' !! k' = d !! k')
  /\ (forall k, In k names -> is_Some (d' !! Some k)).
Proof.
  cbv zeta. revert d. induction names as [|n names IH]; intros d; cbn [foldl].
  - split; [reflexivity|]. intros k [].
  - destruct (IH (Py.setdefault d n v)) as [Hkeep Hall]. split.
    + intros k' Hk'. rewrite Hkeep.
      * apply setdefault_lookup_other, Hk'.
      * rewrite setdefault_lookup_other by exact Hk'. exact Hk'.
    + intros k [<-|Hin]; [|apply Hall, Hin].
      rewrite Hkeep by apply setdefault_is_Some. apply setdefault_is_Some.
Qed.

Lemma load_row_shape (r : row) (w : world) :
  exists w' res,
    load_row r w = (w', res)
    /\ file w' = file w
    /\ match res with
       | Ok (Some t) => loaded_shape t
       | Ok None => True
       | Raise e => e <> ValueError
       end.
Proof.
  unfold load_row, try_except, bind, lift, ret, print.
  destruct (Py.float (Py.get r "Amount" (VInt 0))) as [x|e].
  - eexists _, _. split; [reflexivity|]. split; [reflexivity|].
    destruct (fill_defaults_shape FIELDNAMES (<[Some "Amount" := VFloat x]> r)
                (VStr "N/A")) as [Hkeep Hall].
    split; [|exact Hall].
    exists x. rewrite Hkeep; rewrite lookup_insert_eq; eauto.
  - destruct e; cbn; eexists _, _; (split; [reflexivity|]);
      (split; [reflexivity|]); try discriminate. exact I.
Qed.

Lemma collect_load_rows (rows : list row) :
  forall acc w, Forall loaded_shape acc ->
  exists w' l err,
    collect rows load_row acc w = (w', Ok (l, err))
    /\ file w' = file w /\ Forall loaded_shape l.
Proof.
  induction rows as [|r rows IH]; intros acc w Hacc; cbn [collect].
  - eexists _, _, _. split; [reflexivity|]. split; [reflexivity|exact Hacc].
  - destruct (load_row_shape r w) as (w1 & res & Hrun & Hfile & Hres).
    rewrite Hrun. destruct res as [[t|]|e].
    + destruct (IH (acc ++ [t]) w1) as (w' & l & err & H1 & H2 & H3).
      { apply Forall_app. split; [exact Hacc|]. constructor; [exact Hres|constructor]. }
      eexists _, _, _. split; [exact H1|]. split; [congruence|exact H3].
    + destruct (IH acc w1 Hacc) as (w' & l & err & H1 & H2 & H3).
      eexists _, _, _. split; [exact H1|]. split; [congruence|exact H3].
    + eexists _, _, _. split; [reflexivity|]. split; [exact Hfile|exact Hacc].
Qed.

(** X3. [load_transactions] raises only what [ensure_csv_file] raised,
    with the world that call left.  When [ensure_csv_file] returns,
    [load_transactions] returns a list whatever the file holds, does
    not change the file any further, and every dict of the list has a
    float under [Amount] and has each of the five field names as a
    key. *)
Theorem load_transactions_total (w : world) :
  match ensure_csv_file w with
  | (w1, Raise e) => load_transactions w = (w1, Raise e)
  | (w1, Ok _) =>
      exists w2 l,
        load_transactions w = (w2, Ok l)
        /\ file w2 = file w1
        /\ Forall loaded_shape l
  end.
Proof.
  unfold load_transactions.
  destruct (ensure_csv_file w) as [w1 [[]|e]] eqn:Hens;
    [|apply (bind_raise _ _ _ _ _ Hens)].
  rewrite (bind_ok _ _ _ _ _ Hens).
  unfold bind at 1, read_file.
  destruct (file w1) as [text|] eqn:Hfile.
  - destruct (Csv.dict_reader text) as [rows read_error].
    destruct (collect_load_rows rows [] w1 (List.Forall_nil _))
      as (w' & l & err & Hrun & Hf & Hl).
    unfold bind at 1. rewrite Hrun.
    exists (fst ((match err, read_error with
                  | Some e, _ => print (MsgLoadError e)
                  | None, Some e => print (MsgLoadError e)
                  | None, None => print (MsgLoaded (length l))
                  end) w')), l.
    split; [|split; [|exact Hl]].
    + destruct err as [e|]; [|destruct read_error as [e|]]; reflexivity.
    + destruct err as [e|]; [|destruct read_error as [e|]]; cbn; congruence.
  - eexists _, _. split; [reflexivity|]. split; [cbn; congruence|constructor].
Qed.

(** X4. When bookkeeping.csv does not exist, [load_transactions]
    creates it with the header line alone, reports the creation and
    zero transactions, and returns the empty list. *)
Theorem load_transactions_absent_file (i : list string) (o : list msg)
    (d : string) (l : list row) :
  load_transactions (World None i o d l)
  = (World (Some (header_line +:+ Csv.lineterminator)) i
       (o ++ [MsgCreated; MsgLoaded 0]) d l, Ok []).
Proof.
  transitivity (World (Some (header_line +:+ Csv.lineterminator)) i
                  ((o ++ [MsgCreated]) ++ [MsgLoaded 0]) d l, @Ok (list row) []).
  - vm_compute. reflexivity.
  - rewrite <- app_assoc. reflexivity.
Qed.

(** ** The header check settles *)

Lemma writerow_run (t : row) (text : string) i o d l :
  Csv.writerow FIELDNAMES t (World (Some text) i o d l)
  = match Csv.dict_to_list FIELDNAMES t with
    | Ok cells => (World (Some (text +:+ Csv.render_row cells)) i o d l, Ok tt)
    | Raise e => (World (Some text) i o d l, Raise e)
    end.
Proof.
  unfold Csv.writerow, bind, lift, write_file.
  destruct (Csv.dict_to_list FIELDNAMES t); reflexivity.
Qed.

Lemma writerows_appends (rows : list row) :
  forall text i o d l,
  exists more r,
    Csv.writerows FIELDNAMES rows (World (Some text) i o d l)
    = (World (Some (text +:+ more)) i o d l, r).
Proof.
  induction rows as [|t rows IH]; intros text i o d l.
  - exists EmptyString, (Ok tt). rewrite append_nil_r. reflexivity.
  - unfold Csv.writerows. cbn [for_each]. fold (Csv.writerows FIELDNAMES rows).
    pose proof (writerow_run t text i o d l) as Hrow.
    destruct (Csv.dict_to_list FIELDNAMES t) as [cells|e].
    + rewrite (bind_ok _ _ _ _ _ Hrow).
      destruct (IH (text +:+ Csv.render_row cells) i o d l) as (more & r & Hrun).
      rewrite Hrun. exists (Csv.render_row cells +:+ more), r.
      rewrite append_assoc. reflexivity.
    + rewrite (bind_raise _ _ _ _ _ Hrow).
      exists EmptyString, (Raise e). rewrite append_nil_r. reflexivity.
Qed.

Lemma ensure_csv_file_on_header (rest : string) i o d l :
  ensure_csv_file
    (World (Some (render_cells FIELDNAMES +:+ Csv.lineterminator +:+ rest)) i o d l)
  = (World (Some (render_cells FIELDNAMES +:+ Csv.lineterminator +:+ rest)) i o d l,
     Ok tt).
Proof.
  unfold ensure_csv_file, bind, read_file. cbn [file].
  rewrite readline_store. reflexivity.
Qed.

(** The three ways [ensure_csv_file] can go: in each the file ends up
    with the header as its first line. *)
Lemma ensure_csv_file_result (f : option string) i o d l :
  (exists text, f = Some text
                /\ ensure_csv_file (World f i o d l) = (World f i o d l, Ok tt)
                /\ PyStr.strip (Csv.readline text) = header_line)
  \/ (exists more out r,
        ensure_csv_file (World f i o d l)
        = (World (Some (render_cells FIELDNAMES +:+ Csv.lineterminator +:+ more))
             i (o ++ out) d l, r)).
Proof.
  destruct f as [text|].
  - destruct (String.eqb_spec (PyStr.strip (Csv.readline text)) header_line)
      as [Heq|Hne].
    + left. exists text. split; [reflexivity|]. split; [|exact Heq].
      unfold ensure_csv_file, bind, read_file. cbn [file].
      rewrite Heq. reflexivity.
    + right.
      assert (Hcheck : negb (String.eqb (PyStr.strip (Csv.readline text)) header_line)
                       = true).
      { apply negb_true_iff, String.eqb_neq, Hne. }
      unfold ensure_csv_file. unfold bind at 1, read_file. cbn [file].
      cbv zeta. rewrite Hcheck.
      unfold bind at 1, set_file. cbn [file stdin stdout today transactions].
      unfold bind at 1, Csv.writeheader, write_file.
      cbn [file stdin stdout today transactions default].
      change (id EmptyString +:+ Csv.render_row (map VStr FIELDNAMES))
        with (render_cells FIELDNAMES +:+ Csv.lineterminator).
      destruct (writerows_appends (fst (Csv.dict_reader text))
                  (render_cells FIELDNAMES +:+ Csv.lineterminator) i o d l)
        as (more & r & Hrun).
      unfold bind. rewrite Hrun, append_assoc.
      destruct r as [[]|e].
      * exists more, [MsgHeadersFixed], (Ok tt). reflexivity.
      * exists more, [], (Raise e). rewrite app_nil_r. reflexivity.
  - right. exists EmptyString, [MsgCreated], (Ok tt). reflexivity.
Qed.

(** X5. After [ensure_csv_file] has run once, on any file and whether
    it returned or raised, the first line of the file is the header:
    running it again returns normally and changes nothing.  The call
    never touches the pending input or the transaction list. *)
Theorem ensure_csv_file_settles (w : world) :
  let w1 := fst (ensure_csv_file w) in
  ensure_csv_file w1 = (w1, Ok tt)
  /\ stdin w1 = stdin w
  /\ transactions w1 = transactions w.
Proof.
  cbv zeta. destruct w as [f i o d l].
  destruct (ensure_csv_file_result f i o d l)
    as [(text & -> & Hrun & _)|(more & out & r & Hrun)]; rewrite Hrun; cbn [fst].
  - split; [exact Hrun|split; reflexivity].
  - split; [apply ensure_csv_file_on_header|split; reflexivity].
Qed.

(** ** Saving any list of dicts *)

Lemma keys_okb_spec (t : row) : keys_okb t = true <-> keys_ok t.
Proof.
  unfold keys_okb, keys_ok. rewrite bool_decide_eq_true. split.
  - intros Hsub k Hk. apply elem_of_dom in Hk. apply Hsub in Hk.
    apply elem_of_list_to_set, list_elem_of_fmap in Hk as (name & -> & Hin).
    exists name. split; [reflexivity|]. apply list_elem_of_In, Hin.
  - intros H k Hk. apply elem_of_dom in Hk.
    destruct (H k Hk) as (name & -> & Hin).
    apply elem_of_list_to_set, list_elem_of_fmap.
    exists name. split; [reflexivity|]. apply list_elem_of_In, Hin.
Qed.

Lemma writerow_general (t : row) (text : string) i o d l :
  Csv.writerow FIELDNAMES t (World (Some text) i o d l)
  = if keys_okb t
    then (World (Some (text +:+ render_cells (record_cells t) +:+ Csv.lineterminator))
            i o d l, Ok tt)
    else (World (Some text) i o d l, Raise ValueError).
Proof.
  rewrite writerow_run. unfold Csv.dict_to_list. fold (keys_okb t).
  destruct (keys_okb t); [|reflexivity].
  cbn [map FIELDNAMES]. rewrite render_row_cells. reflexivity.
Qed.

Lemma writerows_general (ts : list row) :
  forall text i o d l,
  Csv.writerows FIELDNAMES ts (World (Some text) i o d l)
  = (World (Some (text +:+ lines_text (map record_cells (writable_prefix ts)))) i o d l,
     if forallb keys_okb ts then Ok tt else Raise ValueError).
Proof.
  induction ts as [|t ts IH]; intros text i o d l.
  - cbn [writable_prefix map lines_text forallb]. rewrite append_nil_r. reflexivity.
  - unfold Csv.writerows. cbn [for_each writable_prefix forallb].
    fold (Csv.writerows FIELDNAMES ts).
    pose proof (writerow_general t text i o d l) as Hrow.
    destruct (keys_okb t).
    + rewrite (bind_ok _ _ _ _ _ Hrow), IH.
      cbn [map lines_text andb]. rewrite !append_assoc. reflexivity.
    + rewrite (bind_raise _ _ _ _ _ Hrow).
      cbn [map lines_text andb]. rewrite append_nil_r. reflexivity.
Qed.

Lemma forallb_keys_ok (ts : list row) :
  forallb keys_okb ts = true <-> Forall keys_ok ts.
Proof.
  rewrite forallb_forall, List.Forall_forall. split; intros H t Ht.
  - apply keys_okb_spec, H, Ht.
  - apply keys_okb_spec, H, Ht.
Qed.

Lemma writable_prefix_all (ts : list row) :
  forallb keys_okb ts = true -> writable_prefix ts = ts.
Proof.
  induction ts as [|t ts IH]; cbn; [reflexivity|].
  destruct (keys_okb t); cbn; [|discriminate].
  intros H. rewrite IH by exact H. reflexivity.
Qed.

Lemma save_transactions_general (ts : list row) (w w0 : world) :
  ensure_csv_file w = (w0, Ok tt) ->
  save_transactions ts w
  = if forallb keys_okb ts
    then (World (Some (store_text (writable_prefix ts))) (stdin w0)
            (stdout w0 ++ [MsgSaved]) (today w0) (transactions w0), Ok tt)
    else (World (Some (store_text (writable_prefix ts))) (stdin w0)
            (stdout w0) (today w0) (transactions w0), Raise ValueError).
Proof.
  intros Hens. unfold save_transactions.
  rewrite (bind_ok _ _ _ _ _ Hens).
  unfold bind at 1, set_file. unfold bind at 1, Csv.writeheader, write_file.
  cbn [file stdin stdout today transactions default].
  change (id EmptyString +:+ Csv.render_row (map VStr FIELDNAMES))
    with (render_cells FIELDNAMES +:+ Csv.lineterminator).
  unfold bind. rewrite writerows_general, append_assoc.
  destruct (forallb keys_okb ts); reflexivity.
Qed.

(** X6. Once [ensure_csv_file] has returned, [save_transactions]
    replaces the file by the header line and the lines of the dicts
    that come before the first dict with a key outside the five field
    names.  When no dict has such a key these are all the dicts and
    the function returns; otherwise it raises [ValueError], and the
    dicts from the offending one on are not in the file. *)
Theorem save_transactions_outcome (w : world) (ts : list row) :
  snd (ensure_csv_file w) = Ok tt ->
  file (fst (save_transactions ts w)) = Some (store_text (writable_prefix ts))
  /\ (Forall keys_ok ts ->
      writable_prefix ts = ts /\ snd (save_transactions ts w) = Ok tt)
  /\ (~ Forall keys_ok ts -> snd (save_transactions ts w) = Raise ValueError).
Proof.
  intros Hens.
  destruct (ensure_csv_file w) as [w0 r] eqn:He. cbn in Hens. subst r.
  rewrite (save_transactions_general ts w w0 He).
  pose proof (forallb_keys_ok ts) as Hall.
  destruct (forallb keys_okb ts) eqn:Hb; cbn [fst snd file].
  - split; [reflexivity|]. split.
    + intros _. split; [apply writable_prefix_all, Hb|reflexivity].
    + intros Hno. exfalso. apply Hno, Hall. reflexivity.
  - split; [reflexivity|]. split.
    + intros Hyes. apply Hall in Hyes. discriminate.
    + reflexivity.
Qed.

Lemma save_transactions_outcome_witness :
  file (fst (save_transactions (mixed_sample ++ [overlong_record]) sample_world))
  = Some (store_text (writable_prefix (mixed_sample ++ [overlong_record])))
  /\ (Forall keys_ok (mixed_sample ++ [overlong_record]) ->
      writable_prefix (mixed_sample ++ [overlong_record])
      = mixed_sample ++ [overlong_record]
      /\ snd (save_transactions (mixed_sample ++ [overlong_record]) sample_world)
         = Ok tt)
  /\ (~ Forall keys_ok (mixed_sample ++ [overlong_record]) ->
      snd (save_transactions (mixed_sample ++ [overlong_record]) sample_world)
      = Raise ValueError).
Proof.
  apply (save_transactions_outcome sample_world (mixed_sample ++ [overlong_record])).
  reflexivity.
Defined.

(** ** Saving and loading dicts with missing fields *)

Lemma load_row_cells (d ds ty c s : string) (w : world) :
  load_row (Csv.to_dict FIELDNAMES [d; ds; ty; c; s]) w
  = match PyNum.float_of_string s with
    | Some x => (w, Ok (Some (record d ds ty c x)))
    | None =>
        (add_stdout w [MsgSkipRow (Csv.to_dict FIELDNAMES [d; ds; ty; c; s])], Ok None)
    end.
Proof.
  unfold load_row, try_except, bind, lift, ret.
  change (Py.get (Csv.to_dict FIELDNAMES [d; ds; ty; c; s]) "Amount" (VInt 0))
    with (VStr s).
  cbn [Py.float]. destruct (PyNum.float_of_string s); reflexivity.
Qed.

Lemma field_cell (t : row) (k : string) :
  t !! Some k = None \/ t !! Some k = Some VNone
  \/ (exists s, t !! Some k = Some (VStr s)) ->
  Csv.cell_text (default (VStr EmptyString) (t !! Some k)) = entry_text k t.
Proof.
  unfold entry_text. intros [H|[H|[s H]]]; rewrite H; reflexivity.
Qed.

Lemma record_cells_storable (t : row) :
  storable t ->
  record_cells t
  = [entry_text "Date" t; entry_text "Description" t; entry_text "Type" t;
     entry_text "Category" t; PyNum.float_repr (entry_amount t)]
  /\ PyNum.float_of_string (PyNum.float_repr (entry_amount t)) = Some (entry_amount t).
Proof.
  intros (_ & (a & Ha & Hrepr) & Htext).
  unfold record_cells. cbn [map FIELDNAMES].
  rewrite !field_cell by (apply Htext; cbn; tauto).
  unfold entry_amount. rewrite Ha. split; [reflexivity|exact Hrepr].
Qed.

Lemma collect_storable (ts : list row) :
  Forall storable ts ->
  forall acc w,
  collect (map (fun t => Csv.to_dict FIELDNAMES (record_cells t)) ts) load_row acc w
  = (w, Ok (acc ++ map reloaded ts, None)).
Proof.
  induction 1 as [|t ts Ht _ IH]; intros acc w; cbn [map collect].
  - unfold ret. rewrite app_nil_r. reflexivity.
  - destruct (record_cells_storable t Ht) as [Hcells Hrepr].
    rewrite Hcells, load_row_cells, Hrepr.
    fold (reloaded t). rewrite IH, <- app_assoc. reflexivity.
Qed.

Lemma storable_keys_ok (ts : list row) :
  Forall storable ts -> forallb keys_okb ts = true.
Proof.
  intros H. apply forallb_keys_ok.
  eapply List.Forall_impl; [|exact H]. intros t Ht. apply Ht.
Qed.

Lemma record_storable (d ds ty c : string) (a : spec_float) :
  PyNum.float_of_string (PyNum.float_repr a) = Some a ->
  storable (record d ds ty c a).
Proof.
  intros Hrepr. split; [apply keys_okb_spec; reflexivity|]. split.
  - exists a. split; [reflexivity|exact Hrepr].
  - intros k Hk. right. right. cbn in Hk.
    destruct Hk as [<-|[<-|[<-|[<-|[]]]]]; eexists; reflexivity.
Qed.

Lemma income_record_storable (d ds : string) (a : spec_float) :
  PyNum.float_of_string (PyNum.float_repr a) = Some a ->
  storable (income_record d ds a).
Proof.
  intros Hrepr. split; [apply keys_okb_spec; reflexivity|]. split.
  - exists a. split; [reflexivity|exact Hrepr].
  - intros k Hk. cbn in Hk.
    destruct Hk as [<-|[<-|[<-|[<-|[]]]]];
      first [ left; reflexivity | right; right; eexists; reflexivity ].
Qed.

(** X7. For dicts whose keys are field names, whose amount is a float
    that reads back from its printed form, and whose other fields are
    absent, [None] or strings: once [ensure_csv_file] has returned,
    [save_transactions] returns and [load_transactions], run next,
    returns the same number of dicts in the same order, each a full
    record in which an absent or [None] field has become the empty
    string.  So the dict that [add_income] builds, which has no
    [Category], comes back with [Category] equal to the empty
    string. *)
Theorem save_load_fills_missing (w : world) (ts : list row) :
  Forall storable ts ->
  snd (ensure_csv_file w) = Ok tt ->
  (exists w1 w2,
      save_transactions ts w = (w1, Ok tt)
      /\ load_transactions w1 = (w2, Ok (map reloaded ts)))
  /\ forall date description amount,
       reloaded (income_record date description amount)
       = record date description "Income" EmptyString amount.
Proof.
  intros Hts Hens. split; [|reflexivity].
  destruct (ensure_csv_file w) as [w0 r] eqn:He. cbn in Hens. subst r.
  pose proof (save_transactions_general ts w w0 He) as Hsave.
  rewrite (storable_keys_ok ts Hts) in Hsave.
  rewrite (writable_prefix_all ts (storable_keys_ok ts Hts)) in Hsave.
  eexists _, _. split; [exact Hsave|].
  unfold load_transactions.
  rewrite (bind_ok _ _ _ _ _
             (ensure_csv_file_on_header (lines_text (map record_cells ts)) _ _ _ _)).
  unfold bind at 1, read_file. cbn [file].
  change (render_cells FIELDNAMES +:+ Csv.lineterminator +:+
          lines_text (map record_cells ts)) with (store_text ts).
  rewrite dict_reader_store.
  rewrite (bind_ok _ _ _ _ _ (collect_storable ts Hts [] _)).
  cbn [app]. unfold bind, print, ret. reflexivity.
Qed.

Lemma save_load_fills_missing_witness :
  (exists w1 w2,
      save_transactions mixed_sample sample_world = (w1, Ok tt)
      /\ load_transactions w1 = (w2, Ok (map reloaded mixed_sample)))
  /\ forall date description amount,
       reloaded (income_record date description amount)
       = record date description "Income" EmptyString amount.
Proof.
  apply (save_load_fills_missing sample_world mixed_sample).
  - constructor; [apply income_record_storable; vm_compute; reflexivity|].
    constructor; [apply record_storable; vm_compute; reflexivity|constructor].
  - reflexivity.
Defined.

(** ** Loading a file of five-cell rows *)





(** ** Records stay records *)

Lemma is_record_insert_text (t : row) (key s : string) :
  is_record t -> key <> "Amount" -> is_record (<[Some key := VStr s]> t).
Proof.
  intros (x1 & x2 & x3 & x4 & x5 & H1 & H2 & H3 & H4 & H5) Hkey.
  exists (if decide (key = "Date") then s else x1),
         (if decide (key = "Description") then s else x2),
         (if decide (key = "Type") then s else x3),
         (if decide (key = "Category") then s else x4), x5.
  repeat split.
  - destruct (decide (key = "Date")) as [->|Hne];
      [apply lookup_insert_eq|rewrite lookup_insert_ne by congruence; exact H1].
  - destruct (decide (key = "Description")) as [->|Hne];
      [apply lookup_insert_eq|rewrite lookup_insert_ne by congruence; exact H2].
  - destruct (decide (key = "Type")) as [->|Hne];
      [apply lookup_insert_eq|rewrite lookup_insert_ne by congruence; exact H3].
  - destruct (decide (key = "Category")) as [->|Hne];
      [apply lookup_insert_eq|rewrite lookup_insert_ne by congruence; exact H4].
  - rewrite lookup_insert_ne by congruence. exact H5.
Qed.

Lemma is_record_insert_amount (t : row) (x : spec_float) :
  is_record t -> is_record (<[Some "Amount" := VFloat x]> t).
Proof.
  intros (x1 & x2 & x3 & x4 & x5 & H1 & H2 & H3 & H4 & H5).
  exists x1, x2, x3, x4, x.
  repeat split; try (rewrite lookup_insert_ne by discriminate; assumption).
  apply lookup_insert_eq.
Qed.

Lemma Forall_list_insert (P : row -> Prop) (ts : list row) (i : nat) (t : row) :
  Forall P ts -> P t -> Forall P (<[i := t]> ts).
Proof. intros Hts Ht. apply Forall_insert; assumption. Qed.

Lemma keeps_records_refl (w : world) : keeps_records w w.
Proof. intros H. exact H. Qed.

Lemma keeps_records_trans (w1 w2 w3 : world) :
  keeps_records w1 w2 -> keeps_records w2 w3 -> keeps_records w1 w3.
Proof. unfold keeps_records. auto. Qed.

Lemma keeps_records_print (w : world) (m : msg) : keeps_records w (fst (print m w)).
Proof. intros H. exact H. Qed.

Lemma keeps_records_same (w w' : world) :
  transactions w' = transactions w -> keeps_records w w'.
Proof. unfold keeps_records. intros ->. auto. Qed.

Lemma keeps_records_update_field (i : nat) (key : string) :
  key <> "Amount" -> preserves keeps_records (update_field i key).
Proof.
  intros Hkey w.
  unfold update_field, bind, get_transactions, lift, input.
  destruct (transactions w !! i) as [t|] eqn:Ht;
    [|apply keeps_records_same; reflexivity].
  destruct (Py.getitem t key) as [old|e] eqn:Hold;
    [|apply keeps_records_same; reflexivity].
  destruct (stdin w) as [|typed rest];
    [apply keeps_records_same; reflexivity|].
  intros Hts. cbn [fst set_transactions transactions].
  apply Forall_list_insert; [exact Hts|].
  assert (Hrec : is_record t) by (eapply Forall_lookup_1; eauto).
  destruct (PyStr.is_empty typed).
  - unfold Py.getitem in Hold. destruct (t !! Some key) as [v|] eqn:Hv; [|discriminate].
    injection Hold as ->. rewrite (insert_id t (Some key) old Hv). exact Hrec.
  - apply is_record_insert_text; assumption.
Qed.

Lemma keeps_records_update_amount (i : nat) :
  preserves keeps_records (update_amount i).
Proof.
  unfold update_amount.
  apply (preserves_try_except _ keeps_records_trans);
    [|intros e; apply (preserves_print _ keeps_records_print)].
  intros w.
  unfold bind, get_transactions, lift, input, ret.
  destruct (transactions w !! i) as [t|] eqn:Ht;
    [|apply keeps_records_same; reflexivity].
  destruct (Py.getitem t "Amount") as [old|e];
    [|apply keeps_records_same; reflexivity].
  destruct (stdin w) as [|typed rest];
    [apply keeps_records_same; reflexivity|].
  destruct (PyStr.is_empty typed);
    [apply keeps_records_same; reflexivity|].
  destruct (Py.float (VStr typed)) as [x|e];
    [|apply keeps_records_same; reflexivity].
  intros Hts. cbn [fst set_transactions transactions].
  apply Forall_list_insert; [exact Hts|].
  apply is_record_insert_amount. eapply Forall_lookup_1; eauto.
Qed.

Lemma keeps_records_update_transaction :
  preserves keeps_records update_transaction.
Proof.
  pose proof keeps_records_refl as Hr.
  pose proof keeps_records_trans as Ht.
  pose proof keeps_records_print as Hp.
  assert (Hin : preserves keeps_records input).
  { intros w. apply keeps_records_same. unfold input.
    destruct (stdin w); reflexivity. }
  unfold update_transaction.
  apply (preserves_bind _ Ht).
  { intros w. apply keeps_records_same. reflexivity. }
  intros ts. destruct ts as [|t0 ts0]; [apply (preserves_print _ Hp)|].
  apply (preserves_bind _ Ht);
    [apply (preserves_show_transactions _ Hr Ht Hp)|intros _].
  apply (preserves_try_except _ Ht); [|intros e; apply (preserves_print _ Hp)].
  apply (preserves_bind _ Ht); [exact Hin|intros typed].
  apply (preserves_bind _ Ht); [apply (preserves_lift _ Hr)|intros n].
  destruct ((0 <=? n - 1) && (n - 1 <? Z.of_nat (length (t0 :: ts0))));
    [|apply (preserves_print _ Hp)].
  destruct ((t0 :: ts0) !! Z.to_nat (n - 1)) as [t|]; [|apply (preserves_ret _ Hr)].
  apply (preserves_bind _ Ht); [apply (preserves_print _ Hp)|intros _].
  apply (preserves_bind _ Ht);
    [apply keeps_records_update_field; discriminate|intros _].
  apply (preserves_bind _ Ht);
    [apply keeps_records_update_field; discriminate|intros _].
  apply (preserves_bind _ Ht);
    [apply keeps_records_update_field; discriminate|intros _].
  apply (preserves_bind _ Ht); [apply keeps_records_update_amount|intros _].
  apply (preserves_print _ Hp).
Qed.

Lemma keeps_records_append (t : row) :
  is_record t -> preserves keeps_records (append_transaction t).
Proof.
  intros Ht w Hts. unfold append_transaction, bind, get_transactions, set_transactions.
  cbn [fst transactions]. apply Forall_app. split; [exact Hts|].
  constructor; [exact Ht|constructor].
Qed.

Lemma keeps_records_input_amount (m : msg) :
  preserves keeps_records (input_amount m).
Proof.
  intros w. apply keeps_records_same.
  unfold input_amount, try_except, bind, input, lift, ret, print.
  destruct (stdin w) as [|typed rest]; [reflexivity|].
  cbn [Py.float]. destruct (PyNum.float_of_string typed); reflexivity.
Qed.

(** X9. [add_expense], [add_payroll] and [update_transaction] keep the
    list a list of full records: if every dict of the list has the
    five fields, four holding a string and [Amount] a float, so has
    every dict of the list afterwards, whatever is typed and whether
    the function returns or raises. *)
Theorem records_stay_records (w : world) :
  Forall is_record (transactions w) ->
  Forall is_record (transactions (fst (add_expense w)))
  /\ Forall is_record (transactions (fst (add_payroll w)))
  /\ Forall is_record (transactions (fst (update_transaction w))).
Proof.
  intros Hts.
  pose proof keeps_records_refl as Hr.
  pose proof keeps_records_trans as Ht.
  pose proof keeps_records_print as Hp.
  assert (Hin : preserves keeps_records input).
  { intros w0. apply keeps_records_same. unfold input.
    destruct (stdin w0); reflexivity. }
  assert (Hdate : preserves keeps_records input_date).
  { unfold input_date. apply (preserves_bind _ Ht); [exact Hin|intros typed].
    destruct (PyStr.is_empty typed); [|apply (preserves_ret _ Hr)].
    intros w0. apply keeps_records_same. reflexivity. }
  split; [|split].
  - revert Hts. generalize w. change (preserves keeps_records add_expense).
    unfold add_expense.
    apply (preserves_bind _ Ht); [apply (preserves_print _ Hp)|intros _].
    apply (preserves_bind _ Ht); [exact Hdate|intros date_str].
    apply (preserves_bind _ Ht); [exact Hin|intros description].
    apply (preserves_bind _ Ht); [exact Hin|intros typed].
    apply (preserves_bind _ Ht); [apply keeps_records_input_amount|intros amount].
    destruct amount as [x|]; [|apply (preserves_ret _ Hr)].
    apply (preserves_bind _ Ht); [|intros _; apply (preserves_print _ Hp)].
    apply keeps_records_append.
    apply (record_is_record date_str description "Expense"
             (PyStr.or_default typed "Expense") x).
  - revert Hts. generalize w. change (preserves keeps_records add_payroll).
    unfold add_payroll.
    apply (preserves_bind _ Ht); [apply (preserves_print _ Hp)|intros _].
    apply (preserves_bind _ Ht); [exact Hin|intros employee].
    apply (preserves_bind _ Ht); [apply keeps_records_input_amount|intros amount].
    destruct amount as [x|]; [|apply (preserves_ret _ Hr)].
    apply (preserves_bind _ Ht).
    { intros w0. apply keeps_records_same. reflexivity. }
    intros date_str.
    apply (preserves_bind _ Ht); [|intros _; apply (preserves_print _ Hp)].
    apply keeps_records_append.
    apply (record_is_record date_str ("Payroll - " +:+ employee) "Expense" "Payroll" x).
  - apply keeps_records_update_transaction, Hts.
Qed.

Lemma records_stay_records_witness :
  Forall is_record (transactions (fst (add_expense expense_session)))
  /\ Forall is_record (transactions (fst (add_payroll expense_session)))
  /\ Forall is_record (transactions (fst (update_transaction expense_session))).
Proof.
  apply (records_stay_records expense_session).
  repeat constructor. apply record_is_record.
Defined.

(** ** A dict without category *)






(** ** The menu and the session *)

(** Proves [preserves R m] along the structure of [m], with [leaf] for
    the calls and [bind_lemma] for the sequencing. *)
Ltac frames bind_lemma leaf :=
  repeat first
    [ leaf
    | apply bind_lemma; [|intros ?]
    | match goal with
      | |- preserves _ (match ?x with _ => _ end) => destruct x
      end ].

Section Frames.

Variable R : world -> world -> Prop.
Hypothesis R_refl : forall w, R w w.
Hypothesis R_trans : forall w1 w2 w3, R w1 w2 -> R w2 w3 -> R w1 w3.
Hypothesis R_print : forall w m, R w (fst (print m w)).
Hypothesis R_input : preserves R input.
Hypothesis R_file : forall f, preserves R (set_file f).
Hypothesis R_write : forall text, preserves R (write_file text).
Hypothesis R_list : forall l, preserves R (set_transactions l).

Lemma frame_bind {A B} (m : M A) (k : A -> M B) :
  preserves R m -> (forall a, preserves R (k a)) -> preserves R (bind m k).
Proof. apply preserves_bind, R_trans. Qed.

Lemma frame_try {A} (body : M A) (c : exn -> bool) (h : exn -> M A) :
  preserves R body -> (forall e, preserves R (h e)) ->
  preserves R (try_except body c h).
Proof. apply preserves_try_except, R_trans. Qed.

Lemma frame_for_each {A} (l : list A) (body : A -> M unit) :
  (forall x, preserves R (body x)) -> preserves R (for_each l body).
Proof. apply preserves_for_each; assumption. Qed.

Lemma frame_get :
  preserves R get_today /\ preserves R read_file /\ preserves R get_transactions.
Proof. repeat split; intros w; apply R_refl. Qed.

Lemma frame_collect {A B} (l : list A) (body : A -> M (option B)) :
  (forall x, preserves R (body x)) ->
  forall acc, preserves R (collect l body acc).
Proof.
  intros Hb. induction l as [|x l IH]; intros acc w; cbn.
  - apply R_refl.
  - specialize (Hb x w). destruct (body x w) as [w1 [[b|]|e]]; cbn in Hb.
    + eapply R_trans; [exact Hb | apply IH].
    + eapply R_trans; [exact Hb | apply IH].
    + exact Hb.
Qed.

Ltac frame_leaf :=
  first [ apply preserves_ret, R_refl | apply preserves_lift, R_refl
        | apply preserves_print, R_print | apply frame_get
        | apply R_input | apply R_file | apply R_write | apply R_list
        | apply frame_try; [|intros ?]
        | apply frame_for_each; intros ?
        | apply preserves_show_transactions; assumption ].

Lemma frame_ensure_csv_file : preserves R ensure_csv_file.
Proof.
  unfold ensure_csv_file, Csv.writeheader, Csv.writerows, Csv.writerow.
  frames @frame_bind frame_leaf.
Qed.

Lemma frame_load_transactions : preserves R load_transactions.
Proof.
  unfold load_transactions.
  frames @frame_bind
    ltac:(first [ frame_leaf | apply frame_ensure_csv_file
                | apply frame_collect; intros ?; unfold load_row ]).
Qed.

Lemma frame_save_transactions (ts : list row) : preserves R (save_transactions ts).
Proof.
  unfold save_transactions, Csv.writeheader, Csv.writerows, Csv.writerow.
  frames @frame_bind ltac:(first [frame_leaf | apply frame_ensure_csv_file]).
Qed.

Lemma frame_calculate_balance (ts : list row) : preserves R (calculate_balance ts).
Proof. unfold calculate_balance. frames @frame_bind frame_leaf. Qed.

Lemma frame_calculate_monthly_expenses (ts : list row) :
  preserves R (calculate_monthly_expenses ts).
Proof. unfold calculate_monthly_expenses. frames @frame_bind frame_leaf. Qed.

Lemma frame_add_income : preserves R add_income.
Proof.
  unfold add_income, input_date, input_amount, append_transaction.
  frames @frame_bind frame_leaf.
Qed.

Lemma frame_add_expense : preserves R add_expense.
Proof.
  unfold add_expense, input_date, input_amount, append_transaction.
  frames @frame_bind frame_leaf.
Qed.

Lemma frame_add_payroll : preserves R add_payroll.
Proof.
  unfold add_payroll, input_amount, append_transaction.
  frames @frame_bind frame_leaf.
Qed.

Lemma frame_update_transaction : preserves R update_transaction.
Proof.
  unfold update_transaction, update_field, update_amount.
  frames @frame_bind frame_leaf.
Qed.

Ltac frame_call :=
  first [ frame_leaf | apply frame_save_transactions
        | apply frame_calculate_balance | apply frame_calculate_monthly_expenses
        | apply frame_add_income | apply frame_add_expense | apply frame_add_payroll
        | apply frame_update_transaction ].

Lemma frame_menu_action (choice : string) : preserves R (menu_action choice).
Proof. unfold menu_action. frames @frame_bind frame_call. Qed.

Lemma frame_menu_action_unsaved (choice : string) :
  String.eqb choice "10" = false -> String.eqb choice "11" = false ->
  preserves R (menu_action choice).
Proof.
  intros E10 E11. unfold menu_action. rewrite E10, E11. cbv iota.
  frames @frame_bind frame_call.
Qed.

Lemma frame_menu_action_unedited (choice : string) :
  edits_list choice = false -> preserves R (menu_action choice).
Proof.
  unfold edits_list. cbn [existsb]. intros H.
  apply orb_false_elim in H as [E1 H].
  apply orb_false_elim in H as [E2 H].
  apply orb_false_elim in H as [E6 H].
  apply orb_false_elim in H as [E9 _].
  unfold menu_action. rewrite E1, E2, E6, E9. cbv iota.
  frames @frame_bind frame_call.
Qed.

End Frames.

Lemma kept_refl {A} (field : world -> A) (w : world) : kept field w w.
Proof. reflexivity. Qed.

Lemma kept_trans {A} (field : world -> A) (w1 w2 w3 : world) :
  kept field w1 w2 -> kept field w2 w3 -> kept field w1 w3.
Proof. unfold kept. congruence. Qed.

Lemma input_left_refl (w : world) : input_left w w.
Proof. unfold input_left. lia. Qed.

Lemma input_left_trans (w1 w2 w3 : world) :
  input_left w1 w2 -> input_left w2 w3 -> input_left w1 w3.
Proof. unfold input_left. lia. Qed.

Lemma input_left_input : preserves input_left input.
Proof.
  intros w. unfold input, input_left.
  destruct (stdin w) eqn:E; cbn; rewrite ?E; cbn; lia.
Qed.

Lemma kept_input {A} (field : world -> A) :
  (forall f i i' o d l, field (World f i o d l) = field (World f i' o d l)) ->
  preserves (kept field) input.
Proof.
  intros H [f i o d l]. unfold input, kept.
  destruct i as [|typed rest]; cbn; [reflexivity|apply H].
Qed.

Lemma input_left_menu_action (choice : string) :
  preserves input_left (menu_action choice).
Proof.
  apply frame_menu_action;
    first [ apply input_left_refl | apply input_left_trans | apply input_left_input
          | unfold preserves, input_left; intros; cbn; lia ].
Qed.

Lemma menu_action_exit :
  menu_action "11"
  = (typed <- input ;;
     (if String.eqb (PyStr.lower typed) "y"
      then ts <- get_transactions ;; save_transactions ts
      else ret tt) ;;
     print goodbye ;;
     ret true).
Proof. reflexivity. Qed.

(** X11. What one turn of the menu can change.  The file is as before
    unless the choice is 10, or 11 followed by [y]; the list of
    transactions is as before unless the choice is 1, 2, 6 or 9; the
    date is as before; and no line is put back on the input.  This holds
    whether the action returns or raises. *)
Theorem menu_action_frame (choice : string) (w : world) :
  let w' := fst (menu_action choice w) in
  (asks_to_save choice w = false -> file w' = file w)
  /\ (edits_list choice = false -> transactions w' = transactions w)
  /\ today w' = today w
  /\ (length (stdin w') <= length (stdin w))%nat.
Proof.
  cbn zeta. split; [|split; [|split]].
  - unfold asks_to_save. intros H.
    destruct (String.eqb choice "10") eqn:E10; [discriminate|].
    destruct (String.eqb choice "11") eqn:E11.
    + apply String.eqb_eq in E11. subst choice. rewrite menu_action_exit.
      unfold bind, input. destruct (stdin w) as [|typed rest]; [reflexivity|].
      rewrite H. reflexivity.
    + apply (frame_menu_action_unsaved (kept file));
        first [ apply kept_refl | apply kept_trans | assumption
              | apply kept_input; reflexivity
              | unfold preserves, kept; intros; reflexivity ].
  - intros H.
    apply (frame_menu_action_unedited (kept transactions));
      first [ apply kept_refl | apply kept_trans | assumption
            | apply kept_input; reflexivity
            | unfold preserves, kept; intros; reflexivity ].
  - apply (frame_menu_action (kept today));
      first [ apply kept_refl | apply kept_trans
            | apply kept_input; reflexivity
            | unfold preserves, kept; intros; reflexivity ].
  - apply input_left_menu_action.
Qed.

Lemma for_each_print (ms : list msg) (w : world) :
  for_each ms print w = (add_stdout w ms, Ok tt).
Proof.
  revert w. induction ms as [|m ms IH]; intros [f i o d l].
  - unfold add_stdout. cbn. rewrite app_nil_r. reflexivity.
  - cbn [for_each]. unfold bind at 1. cbn [print file stdin stdout today transactions].
    rewrite IH. unfold add_stdout. cbn. rewrite <- app_assoc. reflexivity.
Qed.

Lemma main_loop_turn (n : nat) f i o d l :
  main_loop (S n) (World f i o d l)
  = match i with
    | [] => (World f [] (o ++ menu) d l, Raise EOFError)
    | choice :: rest =>
        match menu_action choice (World f rest (o ++ menu) d l) with
        | (w1, Ok true) => (w1, Ok tt)
        | (w1, Ok false) => main_loop n w1
        | (w1, Raise e) => (w1, Raise e)
        end
    end.
Proof.
  cbn [main_loop]. unfold bind. rewrite for_each_print.
  unfold add_stdout, input. cbn [file stdin stdout today transactions].
  destruct i as [|choice rest]; [reflexivity|].
  cbn [file stdin stdout today transactions].
  destruct (menu_action choice (World f rest (o ++ menu) d l)) as [w1 [[|]|e]];
    reflexivity.
Qed.

Lemma main_loop_turns (n : nat) :
  forall (m : nat) (w : world),
  (length (stdin w) < n)%nat -> (length (stdin w) < m)%nat ->
  main_loop n w = main_loop m w.
Proof.
  induction n as [|n IH]; intros m w Hn Hm; [lia|].
  destruct m as [|m]; [lia|].
  destruct w as [f i o d l]. rewrite !main_loop_turn.
  cbn [stdin] in Hn, Hm.
  destruct i as [|choice rest]; [reflexivity|].
  cbn [length] in Hn, Hm.
  pose proof (input_left_menu_action choice (World f rest (o ++ menu) d l)) as Hle.
  destruct (menu_action choice (World f rest (o ++ menu) d l)) as [w1 [[|]|e]];
    try reflexivity.
  unfold input_left in Hle. cbn in Hle.
  apply IH; lia.
Qed.

Lemma menu_action_stops (choice : string) (w w1 : world) :
  menu_action choice w = (w1, Ok true) ->
  choice = "11" /\ exists out, stdout w1 = out ++ [goodbye].
Proof.
  assert (Hno : forall A (m : M A) w0, snd ((m ;; ret false) w0) <> Ok true).
  { intros A m w0. unfold bind, ret. destruct (m w0) as [w2 [a|e]]; cbn; congruence. }
  assert (Hno2 : forall A B (m : M A) (k : A -> M B) w0,
             snd ((x <- m ;; k x ;; ret false) w0) <> Ok true).
  { intros A B m k w0. unfold bind, ret.
    destruct (m w0) as [w2 [a|e]]; cbn; [|congruence].
    destruct (k a w2) as [w3 [b|e]]; cbn; congruence. }
  intros H.
  destruct (String.eqb choice "11") eqn:E11.
  - apply String.eqb_eq in E11. subst choice. split; [reflexivity|].
    rewrite menu_action_exit in H. revert H. unfold bind, input.
    destruct (stdin w) as [|typed rest]; [discriminate|].
    destruct (String.eqb (PyStr.lower typed) "y").
    + cbn [get_transactions].
      match goal with
      | |- context [save_transactions ?ts ?w0] =>
          destruct (save_transactions ts w0) as [w2 [[]|e]]
      end; [|discriminate].
      unfold print, ret. intros [= <-]. eexists. reflexivity.
    + unfold print, ret. intros [= <-]. eexists. reflexivity.
  - exfalso. apply (f_equal snd) in H. cbn [snd] in H. revert H.
    unfold menu_action. rewrite E11.
    repeat match goal with
           | |- context [if String.eqb choice ?s then _ else _] =>
               destruct (String.eqb choice s)
           end;
      first [ apply Hno | apply Hno2 ].
Qed.

(** X12. The menu loop ends on every input.  With more turns allowed
    than there are lines left to type, as [main] allows, allowing more
    makes no difference: every turn reads a line.  The loop returns only
    after the good-bye of choice 11; on an input that ends before, it
    raises, and with nothing left to type what it raises is [EOFError],
    after printing the menu once. *)
Theorem main_loop_ends (w : world) (more : nat) :
  let turns := S (length (stdin w)) in
  main_loop (turns + more) w = main_loop turns w
  /\ match main_loop turns w with
     | (w', Ok _) => exists out, stdout w' = out ++ [goodbye]
     | (w', Raise _) => True
     end
  /\ (stdin w = [] -> main_loop turns w = (add_stdout w menu, Raise EOFError)).
Proof.
  cbn zeta. split; [apply main_loop_turns; lia|]. split.
  - generalize (Nat.lt_succ_diag_r (length (stdin w))).
    generalize (S (length (stdin w))) as n. intros n. revert w.
    induction n as [|n IH]; intros w Hn; [lia|].
    destruct w as [f i o d l]. rewrite main_loop_turn. cbn [stdin] in Hn.
    destruct i as [|choice rest]; [exact I|]. cbn [length] in Hn.
    pose proof (input_left_menu_action choice (World f rest (o ++ menu) d l)) as Hle.
    destruct (menu_action choice (World f rest (o ++ menu) d l))
      as [w1 [[|]|e]] eqn:Hact; [| |exact I].
    + apply (menu_action_stops _ _ _ Hact).
    + unfold input_left in Hle. cbn in Hle. apply IH. lia.
  - destruct w as [f i o d l]. cbn [stdin]. intros ->.
    rewrite main_loop_turn. reflexivity.
Qed.




Lemma calculate_balance_entries (ts : list row) (w : world) :
  Forall is_entry ts ->
  calculate_balance ts w = (add_stdout w [MsgBalance (balance_of ts)], Ok tt).
Proof.
  intros Hts. unfold calculate_balance, bind, lift.
  rewrite (sum_from_zero ts Hts).
  destruct ts; reflexivity.
Qed.

Lemma balance_of_snoc (ts : list row) (t : row) :
  balance_of (ts ++ [t]) = VFloat (PyNum.add (total ts) (contribution t)).
Proof.
  unfold total.
  destruct ts as [|t0 ts]; [reflexivity|].
  cbn [app balance_of].
  change (t0 :: ts ++ [t]) with ((t0 :: ts) ++ [t]).
  rewrite map_app, fold_left_app. reflexivity.
Qed.

Lemma income_record_is_entry (d ds : string) (x : spec_float) :
  is_entry (income_record d ds x).
Proof. split; eexists; reflexivity. Qed.

Lemma then_balance_run (action : M unit) (w w1 : world) :
  action w = (w1, Ok tt) ->
  Forall is_entry (transactions w1) ->
  then_balance action w
  = (add_stdout w1 [MsgBalance (balance_of (transactions w1))], Ok tt).
Proof.
  intros Hact Hts. unfold then_balance.
  rewrite (bind_ok _ _ _ _ _ Hact).
  unfold bind, get_transactions. apply calculate_balance_entries, Hts.
Qed.

(** X14. Adding a transaction and asking for the balance.  When [float]
    accepts the amount typed as [x], each of [add_income], [add_expense]
    and [add_payroll] appends one dict to the list and returns; the
    balance printed next is the balance of the list before, plus [x]
    after an income and minus [x] after an expense or a payroll entry.
    An empty date is replaced by today's, an empty category by
    [Expense]; a payroll entry is an expense of category [Payroll] dated
    today and described as [Payroll - ] followed by the name. *)
Theorem balance_after_adding (w : world)
    (date description category employee amount : string) (rest : list string)
    (x : spec_float) :
  PyNum.float_of_string amount = Some x ->
  Forall is_entry (transactions w) ->
  let ts := transactions w in
  let day := PyStr.or_default date (today w) in
  let after (title : string) (done : msg) (t : row) (b : spec_float)
      : world * result unit :=
    (World (file w) rest
       (stdout w ++ [MsgTitle title; done; MsgBalance (VFloat b)])
       (today w) (ts ++ [t]), Ok tt) in
  then_balance add_income (set_stdin w (date :: description :: amount :: rest))
  = after "Add Income" MsgIncomeAdded (income_record day description x)
      (PyNum.add (total ts) x)
  /\ then_balance add_expense
       (set_stdin w (date :: description :: category :: amount :: rest))
     = after "Add Expense" MsgExpenseAdded
         (record day description "Expense" (PyStr.or_default category "Expense") x)
         (PyNum.add (total ts) (PyNum.neg x))
  /\ then_balance add_payroll (set_stdin w (employee :: amount :: rest))
     = after "Payroll Entry" (MsgPayrollAdded employee)
         (record (today w) ("Payroll - " +:+ employee) "Expense" "Payroll" x)
         (PyNum.add (total ts) (PyNum.neg x)).
Proof.
  intros Hamount Hts. cbv zeta.
  destruct w as [f i o d l]. unfold set_stdin.
  cbn [file stdin stdout today transactions] in *.
  assert (Hsnoc : forall t, is_entry t -> Forall is_entry (l ++ [t])).
  { intros t Ht. apply Forall_app. split; [exact Hts|]. constructor; [exact Ht|constructor]. }
  split; [|split].
  - erewrite then_balance_run with
      (w1 := World f rest (o ++ [MsgTitle "Add Income"; MsgIncomeAdded]) d
               (l ++ [income_record (PyStr.or_default date d) description x])).
    + unfold add_stdout. cbn [file stdin stdout today transactions].
      rewrite balance_of_snoc, <- app_assoc. reflexivity.
    + unfold add_income, input_date, input_amount, append_transaction, bind,
        try_except, print, input, lift, get_today, ret, get_transactions,
        set_transactions, income_record.
      destruct date as [|c date]; cbn -[PyNum.float_of_string insert];
        rewrite Hamount; cbn -[insert]; rewrite <- app_assoc; reflexivity.
    + apply Hsnoc, income_record_is_entry.
  - erewrite then_balance_run with
      (w1 := World f rest (o ++ [MsgTitle "Add Expense"; MsgExpenseAdded]) d
               (l ++ [record (PyStr.or_default date d) description "Expense"
                        (PyStr.or_default category "Expense") x])).
    + unfold add_stdout. cbn [file stdin stdout today transactions].
      rewrite balance_of_snoc, <- app_assoc. reflexivity.
    + unfold add_expense, input_date, input_amount, append_transaction, bind,
        try_except, print, input, lift, get_today, ret, get_transactions,
        set_transactions, record.
      destruct date as [|c date]; cbn -[PyNum.float_of_string insert PyStr.or_default];
        rewrite Hamount; cbn -[insert PyStr.or_default];
        rewrite <- app_assoc; reflexivity.
    + apply Hsnoc, record_is_entry.
  - erewrite then_balance_run with
      (w1 := World f rest (o ++ [MsgTitle "Payroll Entry"; MsgPayrollAdded employee]) d
               (l ++ [record d ("Payroll - " +:+ employee) "Expense" "Payroll" x])).
    + unfold add_stdout. cbn [file stdin stdout today transactions].
      rewrite balance_of_snoc, <- app_assoc. reflexivity.
    + unfold add_payroll, input_amount, append_transaction, bind,
        try_except, print, input, lift, get_today, ret, get_transactions,
        set_transactions, record.
      cbn -[PyNum.float_of_string insert String.append].
      rewrite Hamount. cbn -[insert String.append].
      rewrite <- app_assoc. reflexivity.
    + apply Hsnoc, record_is_entry.
Qed.

Lemma balance_after_adding_witness :
  let w := income_session in
  let x := PyNum.of_decimal false 125 (-1) in
  let ts := transactions w in
  let after (title : string) (done : msg) (t : row) (b : spec_float)
      : world * result unit :=
    (World (file w) ["left over"]
       (stdout w ++ [MsgTitle title; done; MsgBalance (VFloat b)])
       (today w) (ts ++ [t]), Ok tt) in
  then_balance add_income (set_stdin w [""; "Sale"; "12.50"; "left over"])
  = after "Add Income" MsgIncomeAdded (income_record "2024-05-01" "Sale" x)
      (PyNum.add (total ts) x)
  /\ then_balance add_expense (set_stdin w [""; "Sale"; ""; "12.50"; "left over"])
     = after "Add Expense" MsgExpenseAdded
         (record "2024-05-01" "Sale" "Expense" "Expense" x)
         (PyNum.add (total ts) (PyNum.neg x))
  /\ then_balance add_payroll (set_stdin w ["Ann"; "12.50"; "left over"])
     = after "Payroll Entry" (MsgPayrollAdded "Ann")
         (record "2024-05-01" "Payroll - Ann" "Expense" "Payroll" x)
         (PyNum.add (total ts) (PyNum.neg x)).
Proof.
  apply (balance_after_adding income_session "" "Sale" "" "Ann" "12.50" ["left over"]
           (PyNum.of_decimal false 125 (-1))).
  - vm_compute. reflexivity.
  - constructor; [apply record_is_entry | constructor].
Defined.

Lemma valid_records_keys_ok (ts : list row) :
  Forall valid_record ts -> forallb keys_okb ts = true.
Proof.
  induction 1 as [|t ts Ht _ IH]; [reflexivity|].
  cbn [forallb]. rewrite IH, andb_true_r.
  destruct Ht as (d0 & ds & ty & c & a & -> & _). reflexivity.
Qed.

Lemma session_run (ts : list row) (choice : string) (action : M unit)
    (typed : list string) (answer : string) (rest : list string)
    (o out : list msg) (d : string) (l : list row) (t : row) :
  Forall valid_record ts ->
  keys_okb t = true ->
  PyStr.lower answer = "y" ->
  menu_action choice = (action ;; ret false) ->
  (forall f o0,
     action (World f (typed ++ "11" :: answer :: rest) o0 d ts)
     = (World f ("11" :: answer :: rest) (o0 ++ out) d (ts ++ [t]), Ok tt)) ->
  main (World (Some (store_text ts)) (choice :: typed ++ "11" :: answer :: rest) o d l)
  = (World (Some (store_text (ts ++ [t]))) rest
       (o ++ [MsgLoaded (length ts)] ++ menu ++ out ++ menu ++ [MsgSaved; goodbye])
       d (ts ++ [t]),
     Ok tt).
Proof.
  intros Hts Ht Hanswer Hchoice Haction.
  assert (Hkeys : forallb keys_okb (ts ++ [t]) = true).
  { rewrite forallb_app, (valid_records_keys_ok ts Hts). cbn. rewrite Ht. reflexivity. }
  unfold main. rewrite (bind_ok _ _ _ _ _ (load_transactions_store ts _ _ _ _ Hts)).
  unfold bind at 1, set_transactions.
  cbn [file stdin stdout today transactions length].
  rewrite main_loop_turn, Hchoice.
  rewrite (bind_ok _ _ _ _ _ (Haction _ _)). unfold ret at 1.
  rewrite main_loop_turn, menu_action_exit.
  unfold bind at 1, input. cbn [file stdin stdout today transactions].
  rewrite Hanswer. cbn [String.eqb Ascii.eqb Bool.eqb].
  unfold bind at 1. unfold bind at 1, get_transactions. cbn [transactions].
  unfold store_text at 1. cbn [lines_text].
  rewrite (save_transactions_general _ _ _
             (ensure_csv_file_on_header _ _ _ _ _)).
  rewrite Hkeys, (writable_prefix_all _ Hkeys).
  unfold bind, print, ret. cbn [file stdin stdout today transactions].
  rewrite <- !app_assoc. reflexivity.
Qed.

(** X15. A session that adds one transaction and leaves, saving.  The
    file holds a list of valid records as [save_transactions] writes
    them; the user chooses 1 or 2, types the fields with an amount that
    [float] accepts, then 11 and [y] or [Y].  [main] returns; the list
    and the file it leaves are the records loaded followed by the new
    one.  After choice 1 the new dict has no [Category], and its line in
    the file has an empty cell there. *)
Theorem session_adds_and_saves (ts : list row)
    (date description category amount answer : string) (rest : list string)
    (x : spec_float) o d l :
  Forall valid_record ts ->
  PyNum.float_of_string amount = Some x ->
  PyStr.lower answer = "y" ->
  let day := PyStr.or_default date d in
  let leave := "11" :: answer :: rest in
  let session (typed : list string) (title : string) (done : msg) (t : row)
      : Prop :=
    main (World (Some (store_text ts)) (typed ++ leave) o d l)
    = (World (Some (store_text (ts ++ [t]))) rest
         (o ++ [MsgLoaded (length ts)] ++ menu ++ [MsgTitle title; done]
            ++ menu ++ [MsgSaved; goodbye])
         d (ts ++ [t]),
       Ok tt) in
  session ["1"; date; description; amount] "Add Income" MsgIncomeAdded
    (income_record day description x)
  /\ session ["2"; date; description; category; amount] "Add Expense" MsgExpenseAdded
       (record day description "Expense" (PyStr.or_default category "Expense") x)
  /\ record_cells (income_record day description x)
     = [day; description; "Income"; ""; PyNum.float_repr x].
Proof.
  intros Hts Hamount Hanswer. cbv zeta. split; [|split].
  - apply (session_run ts "1" add_income [date; description; amount] answer rest
             o [MsgTitle "Add Income"; MsgIncomeAdded] d l
             (income_record (PyStr.or_default date d) description x) Hts);
      [reflexivity | exact Hanswer | reflexivity |].
    intros f o0.
    unfold add_income, input_date, input_amount, append_transaction, bind,
      try_except, print, input, lift, get_today, ret, get_transactions,
      set_transactions, income_record.
    destruct date as [|c date]; cbn -[PyNum.float_of_string insert];
      rewrite Hamount; cbn -[insert]; rewrite <- app_assoc; reflexivity.
  - apply (session_run ts "2" add_expense [date; description; category; amount]
             answer rest o [MsgTitle "Add Expense"; MsgExpenseAdded] d l
             (record (PyStr.or_default date d) description "Expense"
                (PyStr.or_default category "Expense") x) Hts);
      [reflexivity | exact Hanswer | reflexivity |].
    intros f o0.
    unfold add_expense, input_date, input_amount, append_transaction, bind,
      try_except, print, input, lift, get_today, ret, get_transactions,
      set_transactions, record.
    destruct date as [|c date]; cbn -[PyNum.float_of_string insert PyStr.or_default];
      rewrite Hamount; cbn -[insert PyStr.or_default];
      rewrite <- app_assoc; reflexivity.
  - reflexivity.
Qed.

Lemma session_adds_and_saves_witness :
  let ts := roundtrip_sample in
  let x := PyNum.of_decimal false 125 (-1) in
  let session (typed : list string) (title : string) (done : msg) (t : row)
      : Prop :=
    main (World (Some (store_text ts)) (typed ++ ["11"; "Y"]) [] "2024-05-01" [])
    = (World (Some (store_text (ts ++ [t]))) []
         ([] ++ [MsgLoaded (length ts)] ++ menu ++ [MsgTitle title; done]
            ++ menu ++ [MsgSaved; goodbye])
         "2024-05-01" (ts ++ [t]),
       Ok tt) in
  session ["1"; ""; "Sale"; "12.50"] "Add Income" MsgIncomeAdded
    (income_record "2024-05-01" "Sale" x)
  /\ session ["2"; ""; "Sale"; ""; "12.50"] "Add Expense" MsgExpenseAdded
       (record "2024-05-01" "Sale" "Expense" "Expense" x)
  /\ record_cells (income_record "2024-05-01" "Sale" x)
     = ["2024-05-01"; "Sale"; "Income"; ""; PyNum.float_repr x].
Proof.
  apply (session_adds_and_saves roundtrip_sample "" "Sale" "" "12.50" "Y" []
           (PyNum.of_decimal false 125 (-1)) [] "2024-05-01" []).
  - repeat constructor;
      (eexists _, _, _, _, _; split; [reflexivity|split; vm_compute; reflexivity]).
  - vm_compute. reflexivity.
  - reflexivity.
Defined.

Lemma fold_text_keeps (kvs : list (string * string)) (d : row) (k : option string) :
  is_Some (d !! k) ->
  is_Some (foldl (fun d kv => <[Some (fst kv) := VStr (snd kv)]> d) d kvs !! k).
Proof.
  revert d. induction kvs as [|kv kvs IH]; intros d Hd; [exact Hd|].
  cbn [foldl]. apply IH.
  destruct (decide (Some (fst kv) = k)) as [<-|Hne].
  - rewrite lookup_insert_eq. eexists. reflexivity.
  - rewrite lookup_insert_ne; [exact Hd|exact Hne].
Qed.

Lemma fold_text_sets (kvs : list (string * string)) (d : row) (k : string) :
  In k (map fst kvs) ->
  is_Some (foldl (fun d kv => <[Some (fst kv) := VStr (snd kv)]> d) d kvs !! Some k).
Proof.
  revert d. induction kvs as [|kv kvs IH]; intros d Hin; [destruct Hin|].
  cbn [foldl]. destruct Hin as [<-|Hin].
  - apply fold_text_keeps. rewrite lookup_insert_eq. eexists. reflexivity.
  - apply IH, Hin.
Qed.

Lemma fold_none_keeps (ks : list string) (d : row) (k : option string) :
  is_Some (d !! k) ->
  is_Some (foldl (fun d k => <[Some k := VNone]> d) d ks !! k).
Proof.
  revert d. induction ks as [|k0 ks IH]; intros d Hd; [exact Hd|].
  cbn [foldl]. apply IH.
  destruct (decide (Some k0 = k)) as [<-|Hne].
  - rewrite lookup_insert_eq. eexists. reflexivity.
  - rewrite lookup_insert_ne; [exact Hd|exact Hne].
Qed.

Lemma fold_none_sets (ks : list string) (d : row) (k : string) :
  In k ks ->
  is_Some (foldl (fun d k => <[Some k := VNone]> d) d ks !! Some k).
Proof.
  revert d. induction ks as [|k0 ks IH]; intros d Hin; [destruct Hin|].
  cbn [foldl]. destruct Hin as [<-|Hin].
  - apply fold_none_keeps. rewrite lookup_insert_eq. eexists. reflexivity.
  - apply IH, Hin.
Qed.

Lemma zip_names (names cells : list string) (k : string) :
  In k names ->
  In k (map fst (zip names cells)) \/ In k (drop (length cells) names).
Proof.
  revert cells. induction names as [|n names IH]; intros cells Hin; [destruct Hin|].
  destruct cells as [|c cells]; [right; exact Hin|].
  cbn [zip zip_with map fst length drop].
  destruct Hin as [<-|Hin]; [left; left; reflexivity|].
  destruct (IH cells Hin) as [H|H]; [left; right; exact H|right; exact H].
Qed.

Lemma zip_names_all (names cells : list string) (k : string) :
  (length names < length cells)%nat ->
  In k names -> In k (map fst (zip names cells)).
Proof.
  intros Hlen Hin. destruct (zip_names names cells k Hin) as [H|H]; [exact H|].
  rewrite drop_ge in H by lia. destruct H.
Qed.

Lemma to_dict_has_names (names cells : list string) (k : string) :
  In k names -> is_Some (Csv.to_dict names cells !! Some k).
Proof.
  intros Hin. unfold Csv.to_dict.
  destruct (length names <? length cells)%nat eqn:Hlen.
  - apply Nat.ltb_lt in Hlen.
    rewrite lookup_insert_ne by discriminate.
    apply fold_text_sets, zip_names_all; assumption.
  - destruct (zip_names names cells k Hin) as [H|H].
    + apply fold_none_keeps, fold_text_sets, H.
    + apply fold_none_sets, H.
Qed.

Lemma to_dict_foreign (names cells : list string) (k : string) :
  In k names -> ~ In k FIELDNAMES -> keys_okb (Csv.to_dict names cells) = false.
Proof.
  intros Hin Hout. destruct (keys_okb (Csv.to_dict names cells)) eqn:Hk; [|reflexivity].
  apply keys_okb_spec in Hk.
  destruct (Hk (Some k) (to_dict_has_names names cells k Hin)) as (name & [= <-] & Hname).
  contradiction.
Qed.

(** X16. The repair of [ensure_csv_file], on any file whose first line is
    not the header.  The file is rewritten under the header with the
    dicts that [DictReader] made of it, up to the first dict that has a
    key other than a field name: with none such the function returns,
    and otherwise it raises [ValueError] and what follows in the file is
    lost.  When the old header has a name that is not a field name,
    every dict has such a key: the file is left with the header alone. *)
Theorem ensure_csv_file_repair (text : string) i o d l :
  PyStr.strip (Csv.readline text) <> header_line ->
  let data := fst (Csv.dict_reader text) in
  ensure_csv_file (World (Some text) i o d l)
  = (if forallb keys_okb data
     then (World (Some (store_text data)) i (o ++ [MsgHeadersFixed]) d l, Ok tt)
     else (World (Some (store_text (writable_prefix data))) i o d l,
           Raise ValueError))
  /\ forall names records err name,
       Csv.reader_rows text = (names :: records, err) ->
       In name names -> ~ In name FIELDNAMES ->
       writable_prefix data = []
       /\ store_text (writable_prefix data) = header_line +:+ Csv.lineterminator.
Proof.
  intros Hhead data. split.
  - unfold ensure_csv_file. unfold bind at 1, read_file. cbn [file].
    apply String.eqb_neq in Hhead. rewrite Hhead. cbn [negb].
    fold data.
    unfold bind at 1, set_file. unfold bind at 1, Csv.writeheader, write_file.
    cbn [file stdin stdout today transactions default].
    change (id EmptyString +:+ Csv.render_row (map VStr FIELDNAMES))
      with (render_cells FIELDNAMES +:+ Csv.lineterminator).
    unfold bind. rewrite writerows_general, append_assoc.
    destruct (forallb keys_okb data) eqn:Hk; [|reflexivity].
    rewrite (writable_prefix_all _ Hk). reflexivity.
  - intros names records err name Hrows Hin Hout.
    assert (Hnil : writable_prefix data = []).
    { subst data. unfold Csv.dict_reader. rewrite Hrows.
      cbn [fst].
      destruct (filter (fun cells => negb (Csv.is_blank_record cells)) records)
        as [|cells more]; [reflexivity|].
      cbn [map writable_prefix].
      rewrite (to_dict_foreign names cells name Hin Hout). reflexivity. }
    split; [exact Hnil|]. rewrite Hnil. vm_compute. reflexivity.
Qed.

Lemma ensure_csv_file_repair_witness :
  let data := fst (Csv.dict_reader foreign_store) in
  ensure_csv_file (World (Some foreign_store) [] [] "2024-05-01" [])
  = (if forallb keys_okb data
     then (World (Some (store_text data)) [] ([] ++ [MsgHeadersFixed])
             "2024-05-01" [], Ok tt)
     else (World (Some (store_text (writable_prefix data))) [] [] "2024-05-01" [],
           Raise ValueError))
  /\ forall names records err name,
       Csv.reader_rows foreign_store = (names :: records, err) ->
       In name names -> ~ In name FIELDNAMES ->
       writable_prefix data = []
       /\ store_text (writable_prefix data) = header_line +:+ Csv.lineterminator.
Proof.
  apply (ensure_csv_file_repair foreign_store [] [] "2024-05-01" []).
  vm_compute. discriminate.
Defined.
